(** * Subagent targeting and lifecycle coordination

    A shallow embedding of [src/auto-reply/reply/commands-subagents.ts]:
    the target resolver [resolveSubagentTarget] and the command handler
    [handleSubagentsCommand] with its verbs (list, stop, info, log, send,
    steer).

    Conventions of the embedding.
    - JavaScript strings are Rocq strings.  The string built-ins the handler
      uses ([trim], [toLowerCase], [startsWith], [slice], [split], the regular
      expression [/^\d+$/], [parseInt]) are written out on ASCII text.
    - Epoch-millisecond timestamps are integers ([Z]); an optional field is an
      [option]; JavaScript truthiness of an optional number or string is
      written out ([truthyNum], [truthyStr]).
    - Calls to the collaborators (run registry, session store, execution
      backend, queues, clock, UUID source, logger) are the constructors of
      [Effect]; the handler is a program over them ([Prog]) and [run] executes
      a program against an oracle, recording the calls in order.
    - Helpers imported from modules outside this file ([sortSubagentRuns],
      [formatRunLabel], [formatRunStatus], [stripToolMessages],
      [extractAssistantText], the session-key and store-path resolvers) and the
      pure display formatters are parameters of the development. *)

From stdpp Require Import base option list strings gmap.
From Stdlib Require Import Ascii ZArith NArith Lia DecimalString DecimalN.

Local Open Scope string_scope.
Local Open Scope Z_scope.

(** ** String built-ins *)

Module Js.

(** The ASCII members of ECMAScript [WhiteSpace] and [LineTerminator]:
    TAB, LF, VT, FF, CR and SPACE. *)
Definition isWhitespace (c : ascii) : bool :=
  let n := nat_of_ascii c in
  ((9 <=? n)%nat && (n <=? 13)%nat) || (n =? 32)%nat.

Definition isDigit (c : ascii) : bool :=
  let n := nat_of_ascii c in (48 <=? n)%nat && (n <=? 57)%nat.

Fixpoint trimStart (s : string) : string :=
  match s with
  | String c s' => if isWhitespace c then trimStart s' else s
  | EmptyString => EmptyString
  end.

Fixpoint allWhitespace (s : string) : bool :=
  match s with
  | String c s' => isWhitespace c && allWhitespace s'
  | EmptyString => true
  end.

Fixpoint trimEnd (s : string) : string :=
  match s with
  | String c s' => if allWhitespace s then EmptyString else String c (trimEnd s')
  | EmptyString => EmptyString
  end.

Definition trim (s : string) : string := trimEnd (trimStart s).

(** [/^\d+$/.test(s)] *)
Fixpoint everyDigit (s : string) : bool :=
  match s with
  | String c s' => isDigit c && everyDigit s'
  | EmptyString => true
  end.

Definition allDigits (s : string) : bool :=
  match s with
  | EmptyString => false
  | _ => everyDigit s
  end.

Definition digitValue (c : ascii) : N := N.of_nat (nat_of_ascii c - 48).

Fixpoint parseDigits (s : string) (acc : N) : N :=
  match s with
  | String c s' => parseDigits s' (acc * 10 + digitValue c)%N
  | EmptyString => acc
  end.

(** [Number.parseInt(s, 10)] on a string of decimal digits.  The double the
    engine returns is this integer rounded to nearest; rounding is monotone
    and every array length is below 2^53, so the comparisons the handler
    makes against 0, an array length, 1 and 200 have the same outcome on the
    exact value, and an index that passes the range test is exact. *)
Definition parseInt (s : string) : N := parseDigits s 0%N.

(** [String(n)] for a non-negative integer. *)
Definition ofN (n : N) : string := NilEmpty.string_of_uint (N.to_uint n).

Definition toLowerChar (c : ascii) : ascii :=
  let n := nat_of_ascii c in
  if (65 <=? n)%nat && (n <=? 90)%nat then ascii_of_nat (n + 32) else c.

Fixpoint toLowerCase (s : string) : string :=
  match s with
  | String c s' => String (toLowerChar c) (toLowerCase s')
  | EmptyString => EmptyString
  end.

(** [s.startsWith(p)] *)
Definition startsWith (s p : string) : bool := String.prefix p s.

(** [s.includes(":")] *)
Fixpoint includesColon (s : string) : bool :=
  match s with
  | String c s' => (nat_of_ascii c =? 58)%nat || includesColon s'
  | EmptyString => false
  end.

(** [s.slice(0, n)] *)
Definition sliceTo (n : nat) (s : string) : string := String.substring 0 n s.

(** [s.slice(n)] *)
Fixpoint sliceFrom (n : nat) (s : string) : string :=
  match n, s with
  | O, _ => s
  | S n', String _ s' => sliceFrom n' s'
  | S _, EmptyString => EmptyString
  end.

(** [s.split(/\s+/).filter(Boolean)]: the maximal runs of non-whitespace. *)
Fixpoint splitGo (cur : string) (s : string) : list string :=
  match s with
  | String c s' =>
      if isWhitespace c
      then (if String.eqb cur "" then [] else [String.rev cur]) ++ splitGo "" s'
      else splitGo (String c cur) s'
  | EmptyString => if String.eqb cur "" then [] else [String.rev cur]
  end.

Definition splitWhitespace (s : string) : list string := splitGo "" s.

(** [parts.join(sep)] *)
Fixpoint join (sep : string) (parts : list string) : string :=
  match parts with
  | [] => ""
  | [p] => p
  | p :: rest => p ++ sep ++ join sep rest
  end.

(** [s.replace(/\s+/g, " ")] *)
Fixpoint collapseWhitespace (inRun : bool) (s : string) : string :=
  match s with
  | String c s' =>
      if isWhitespace c
      then (if inRun then collapseWhitespace true s'
            else String " " (collapseWhitespace true s'))
      else String c (collapseWhitespace false s')
  | EmptyString => EmptyString
  end.

(** Truthiness of an optional number: [undefined] and [0] are falsy. *)
Definition truthyNum (v : option Z) : bool :=
  match v with
  | Some n => negb (n =? 0)
  | None => false
  end.

(** Truthiness of an optional string: [undefined] and [""] are falsy. *)
Definition truthyStr (v : option string) : bool :=
  match v with
  | Some s => negb (String.eqb s "")
  | None => false
  end.

End Js.

(** ** Data model *)

Record RunOutcome := {
  status : string;
  outcomeError : option string;
}.

(** [SubagentRunRecord] of the run registry. *)
Record SubagentRunRecord := {
  runId : string;
  childSessionKey : string;
  requesterSessionKey : string;
  label : option string;
  task : string;
  model : option string;
  createdAt : Z;
  startedAt : option Z;
  endedAt : option Z;
  outcome : option RunOutcome;
  cleanup : string;
  archiveAtMs : option Z;
  cleanupHandled : bool;
}.

(** [SessionEntry] of the session store. *)
Record SessionEntry := {
  sessionId : option string;
  sessionFile : option string;
  entryModel : option string;
  entryModelProvider : option string;
  inputTokens : option Z;
  outputTokens : option Z;
  totalTokens : option Z;
  abortedLastRun : option bool;
  updatedAt : option Z;
}.

(** [type SubagentTargetResolution = { entry?: SubagentRunRecord; error?: string }] *)
Record SubagentTargetResolution := {
  entry : option SubagentRunRecord;
  error : option string;
}.

Definition resolvedEntry (e : option SubagentRunRecord) : SubagentTargetResolution :=
  {| entry := e; error := None |}.

Definition resolvedError (msg : string) : SubagentTargetResolution :=
  {| entry := None; error := Some msg |}.

Definition RECENT_WINDOW_MINUTES : Z := 30.

(** ** Imported helpers

    What the file imports from modules that are not part of it, and its pure
    display formatters, as one interface.
    - [Config] is the configuration object [params.cfg]; [ChatMessage] is a
      transcript message of the backend ([unknown] in the source).
    - [sortSubagentRuns], [formatRunLabel] (its second argument is
      [options?.maxLength]) and [formatRunStatus] are those of
      [./subagents-utils.js].
    - [resolveInternalSessionKey cfg raw] is [resolveInternalSessionKey]
      applied to [raw] and the alias and main key of
      [resolveMainSessionAlias(cfg)]; [resolveStorePath cfg childKey] is
      [resolveStorePath] applied to [cfg.session?.store] and the agent id of
      [parseAgentSessionKey(childKey)].
    - [stripToolMessages] and [extractAssistantText] are those of
      [sessions-helpers.js]; the channel and lane constants are imported too.
    - [formatDurationCompact], [resolveModelDisplay], [resolveUsageDisplay],
      [formatLogLines] and [infoReport] (the report of lines 556-580) only
      produce display text.  The clock value given to [infoReport] stands for
      the [Date.now()] reads made while the report is formatted. *)
Class Helpers : Type := {
  Config : Type;
  ChatMessage : Type;
  sortSubagentRuns : list SubagentRunRecord -> list SubagentRunRecord;
  formatRunLabel : SubagentRunRecord -> option nat -> string;
  formatRunStatus : SubagentRunRecord -> string;
  resolveInternalSessionKey : Config -> string -> string;
  resolveStorePath : Config -> string -> string;
  stripToolMessages : list ChatMessage -> list ChatMessage;
  extractAssistantText : ChatMessage -> option string;
  INTERNAL_MESSAGE_CHANNEL : string;
  AGENT_LANE_SUBAGENT : string;
  formatDurationCompact : Z -> string;
  resolveModelDisplay : option SessionEntry -> option string -> string;
  resolveUsageDisplay : option SessionEntry -> string;
  formatLogLines : list ChatMessage -> list string;
  infoReport : Z -> SubagentRunRecord -> option SessionEntry -> string;
}.

Section Subagents.

Context `{Helpers}.

(** ** Target resolver *)

(** [(entry) => !entry.endedAt] *)
Definition isActive (e : SubagentRunRecord) : bool :=
  negb (Js.truthyNum (endedAt e)).

(** [(entry) => !!entry.endedAt && (entry.endedAt ?? 0) >= recentCutoff] *)
Definition isRecent (recentCutoff : Z) (e : SubagentRunRecord) : bool :=
  Js.truthyNum (endedAt e) && (recentCutoff <=? default 0 (endedAt e)).

(** [Date.now() - RECENT_WINDOW_MINUTES * 60_000] *)
Definition recentCutoffAt (now : Z) : Z := now - RECENT_WINDOW_MINUTES * 60000.

(** The array [numericOrder] of [resolveSubagentTarget] (lines 227-232). *)
Definition numericOrder (now : Z) (runs : list SubagentRunRecord)
  : list SubagentRunRecord :=
  let sorted := sortSubagentRuns runs in
  let recentCutoff := recentCutoffAt now in
  List.filter isActive sorted ++ List.filter (isRecent recentCutoff) sorted.

Definition labelEquals (lowered : string) (e : SubagentRunRecord) : bool :=
  String.eqb (Js.toLowerCase (formatRunLabel e None)) lowered.

Definition labelStartsWith (lowered : string) (e : SubagentRunRecord) : bool :=
  Js.startsWith (Js.toLowerCase (formatRunLabel e None)) lowered.

Definition runIdStartsWith (trimmed : string) (e : SubagentRunRecord) : bool :=
  Js.startsWith (runId e) trimmed.

(** [resolveSubagentTarget(runs, token)] (lines 215-269).  [now] is the value
    [Date.now()] returns on line 228. *)
Definition resolveSubagentTarget (now : Z) (runs : list SubagentRunRecord)
    (token : option string) : SubagentTargetResolution :=
  let trimmed := default "" (Js.trim <$> token) in
  if String.eqb trimmed "" then resolvedError "Missing subagent id." else
  if String.eqb trimmed "last" then
    let sorted := sortSubagentRuns runs in
    resolvedEntry (sorted !! 0%nat)
  else
  let numericOrder := numericOrder now runs in
  if Js.allDigits trimmed then
    let idx := Js.parseInt trimmed in
    if (idx <=? 0)%N || (N.of_nat (length numericOrder) <? idx)%N
    then resolvedError ("Invalid subagent index: " ++ trimmed)
    else resolvedEntry (numericOrder !! (N.to_nat idx - 1)%nat)
  else
  if Js.includesColon trimmed then
    match List.find (fun e => String.eqb (childSessionKey e) trimmed) runs with
    | Some m => resolvedEntry (Some m)
    | None => resolvedError ("Unknown subagent session: " ++ trimmed)
    end
  else
  let lowered := Js.toLowerCase trimmed in
  let byLabel := List.filter (labelEquals lowered) runs in
  if (length byLabel =? 1)%nat then resolvedEntry (byLabel !! 0%nat) else
  if (1 <? length byLabel)%nat
  then resolvedError ("Ambiguous subagent label: " ++ trimmed) else
  let byLabelPrefix := List.filter (labelStartsWith lowered) runs in
  if (length byLabelPrefix =? 1)%nat then resolvedEntry (byLabelPrefix !! 0%nat) else
  if (1 <? length byLabelPrefix)%nat
  then resolvedError ("Ambiguous subagent label prefix: " ++ trimmed) else
  let byRunId := List.filter (runIdStartsWith trimmed) runs in
  if (length byRunId =? 1)%nat then resolvedEntry (byRunId !! 0%nat) else
  if (1 <? length byRunId)%nat
  then resolvedError ("Ambiguous run id prefix: " ++ trimmed) else
  resolvedError ("Unknown subagent id: " ++ trimmed).

(** ** Collaborators as effects *)

(** Result of [clearSessionQueues]. *)
Record ClearResult := {
  followupCleared : nat;
  laneCleared : nat;
  keys : list string;
}.

(** Result of the [agent.wait] gateway method; [waitStatus] is
    [wait?.status]. *)
Record WaitResult := {
  waitStatus : option string;
  waitError : option string;
}.

(** Parameters of the [agent] gateway method (lines 671-678). *)
Record AgentRequest := {
  message : string;
  sessionKey : string;
  idempotencyKey : string;
  deliver : bool;
  channel : string;
  lane : string;
}.

(** A value a rejected gateway call is caught with (lines 685-687). *)
Inductive Thrown :=
| ThrownError (errMessage : string)
| ThrownString (s : string)
| ThrownOther.

(** One constructor per collaborator call; the index is the type of the
    value the call returns.  A gateway call either rejects or resolves. *)
Inductive Effect : Type -> Type :=
| DateNow : Effect Z
| RandomUUID : Effect string
| LogVerbose (text : string) : Effect unit
| ListSubagentRunsForRequester (requesterKey : string)
    : Effect (list SubagentRunRecord)
| LoadSessionStore (storePath : string) : Effect (gmap string SessionEntry)
| UpdateSessionStore (storePath childKey : string) (e : SessionEntry)
    : Effect unit
| AbortEmbeddedPiRun (sid : string) : Effect unit
| ClearSessionQueues (ks : list (option string)) : Effect ClearResult
| StopSubagentsForRequester (c : Config) (requesterKey : string) : Effect unit
| MarkSubagentRunForSteerRestart (rid : string) : Effect unit
| ReplaceSubagentRunAfterSteer (previousRunId nextRunId : string)
    (fallback : SubagentRunRecord) : Effect unit
| GatewayAgent (req : AgentRequest) (timeoutMs : Z)
    : Effect (Thrown + option string)
| GatewayAgentWait (rid : string) (waitMs timeoutMs : Z)
    : Effect (Thrown + WaitResult)
| GatewayChatHistory (key : string) (limit : Z)
    : Effect (Thrown + list ChatMessage).

(** Programs over the collaborators: return, throw, or call and continue. *)
Inductive Prog (A : Type) : Type :=
| Ret (a : A)
| Throw (t : Thrown)
| Vis {X : Type} (e : Effect X) (k : X -> Prog A).

Arguments Ret {A} a.
Arguments Throw {A} t.
Arguments Vis {A X} e k.

Fixpoint Prog_bind {A B : Type} (f : A -> Prog B) (p : Prog A) : Prog B :=
  match p with
  | Ret a => f a
  | Throw t => Throw t
  | Vis e k => Vis e (fun x => Prog_bind f (k x))
  end.

#[global] Instance Prog_mret : MRet Prog := @Ret.
#[global] Instance Prog_mbind : MBind Prog := @Prog_bind.

Definition trigger {X : Type} (e : Effect X) : Prog X := Vis e Ret.

(** [try { p } catch (err) { h err }] *)
Fixpoint tryCatch {A : Type} (p : Prog A) (h : Thrown -> Prog A) : Prog A :=
  match p with
  | Ret a => Ret a
  | Throw t => h t
  | Vis e k => Vis e (fun x => tryCatch (k x) h)
  end.

(** [await callGateway(...)]: a rejection is thrown at the call site. *)
Definition callGateway {X : Type} (e : Effect (Thrown + X)) : Prog X :=
  r ← trigger e;
  match r with
  | inl t => Throw t
  | inr v => Ret v
  end.

(** [if (c) { p }] for a statement [p]. *)
Definition when (c : bool) (p : Prog unit) : Prog unit :=
  if c then p else Ret tt.

(** *** Running a program *)

Inductive Call : Type :=
| Called : forall {X : Type}, Effect X -> X -> Call.

Inductive Outcome (A : Type) :=
| Returned (a : A)
| Threw (t : Thrown).

Arguments Returned {A} a.
Arguments Threw {A} t.

(** The environment: it answers every call and moves to its next state. *)
Definition Oracle (W : Type) : Type := forall X : Type, Effect X -> W -> X * W.

Fixpoint run {W A : Type} (o : Oracle W) (p : Prog A) (w : W)
  : list Call * Outcome A * W :=
  match p with
  | Ret a => ([], Returned a, w)
  | Throw t => ([], Threw t, w)
  | Vis e k =>
      let '(x, w1) := o _ e w in
      let '(calls, out, w2) := run o (k x) w1 in
      (Called e x :: calls, out, w2)
  end.

(** [c] followed by the calls of [r]. *)
Definition consCall {W A : Type} (c : Call) (r : list Call * Outcome A * W)
  : list Call * Outcome A * W :=
  let '(calls, out, w) := r in (c :: calls, out, w).

Definition traceOf {W A : Type} (o : Oracle W) (p : Prog A) (w : W) : list Call :=
  fst (fst (run o p w)).

Definition outcomeOf {W A : Type} (o : Oracle W) (p : Prog A) (w : W) : Outcome A :=
  snd (fst (run o p w)).

(** ** Command handler *)

Definition COMMAND : string := "/subagents".
Definition COMMAND_KILL : string := "/kill".
Definition COMMAND_STEER : string := "/steer".
Definition COMMAND_TELL : string := "/tell".
Definition ACTIONS : list string :=
  ["list"; "stop"; "kill"; "log"; "send"; "steer"; "info"; "help"].

Definition newline : string := String (ascii_of_nat 10) EmptyString.

Definition truncateLine (value : string) (maxLength : nat) : string :=
  if (String.length value <=? maxLength)%nat then value
  else Js.trimEnd (Js.sliceTo maxLength value) ++ "...".

Definition compactLine (value : string) : string :=
  Js.trim (Js.collapseWhitespace false value).

Definition resolveDisplayStatus (e : SubagentRunRecord) : string :=
  let st := formatRunStatus e in
  if String.eqb st "error" then "failed" else st.

Definition buildSubagentsHelp : string :=
  Js.join newline
    [ "Subagents"; "Usage:";
      "- /subagents list";
      "- /subagents stop <id|#|all>";
      "- /subagents kill <id|#|all>";
      "- /subagents log <id|#> [limit] [tools]";
      "- /subagents info <id|#>";
      "- /subagents send <id|#> <message>";
      "- /subagents steer <id|#> <message>";
      "- /kill <id|#|all>";
      "- /steer <id|#> <message>";
      "- /tell <id|#> <message>";
      "";
      "Ids: use the list index (#), runId/session prefix, label, or full session key." ].

(** The handler's argument: the fields of [params] it reads. *)
Record Params := {
  commandBodyNormalized : string;
  isAuthorizedSender : bool;
  senderId : option string;
  paramsSessionKey : option string;
  CommandTargetSessionKey : option string;
  cfg : Config;
}.

(** [{ shouldContinue, reply?: { text } }] *)
Record CommandResult := {
  shouldContinue : bool;
  reply : option string;
}.

Definition replyWith (text : string) : option CommandResult :=
  Some {| shouldContinue := false; reply := Some text |}.

Definition silent : option CommandResult :=
  Some {| shouldContinue := false; reply := None |}.

(** [resolveRequesterSessionKey(params)] (lines 206-213). *)
Definition resolveRequesterSessionKey (params : Params) : option string :=
  let own := default "" (Js.trim <$> paramsSessionKey params) in
  let raw :=
    if String.eqb own "" then default "" (Js.trim <$> CommandTargetSessionKey params)
    else own in
  if String.eqb raw "" then None
  else Some (resolveInternalSessionKey (cfg params) raw).

(** [loadSubagentSessionEntry(params, childKey, storeCache)] (lines
    349-362).  The cache, when given, is returned as the call leaves it. *)
Definition loadSubagentSessionEntry (params : Params) (childKey : string)
    (storeCache : option (gmap string (gmap string SessionEntry)))
  : Prog (string * gmap string SessionEntry * option SessionEntry
          * option (gmap string (gmap string SessionEntry))) :=
  let storePath := resolveStorePath (cfg params) childKey in
  match storeCache ≫= (fun c => c !! storePath) with
  | Some store => Ret (storePath, store, store !! childKey, storeCache)
  | None =>
      store ← trigger (LoadSessionStore storePath);
      Ret (storePath, store, store !! childKey,
           (fun c => <[storePath := store]> c) <$> storeCache)
  end.

(** *** list *)

(** The template literal of lines 441 and 460; [runtimeMs] is the duration
    handed to [formatDurationCompact]. *)
Definition formatListLine (index : N) (e : SubagentRunRecord)
    (sessionEntry : option SessionEntry) (runtimeMs : Z) : string :=
  let usageText := resolveUsageDisplay sessionEntry in
  let label := truncateLine (formatRunLabel e (Some 48%nat)) 48 in
  let task := compactLine (task e) in
  let runtime := formatDurationCompact runtimeMs in
  let st := resolveDisplayStatus e in
  Js.ofN index ++ ". " ++ label ++ " ("
    ++ resolveModelDisplay sessionEntry (model e) ++ ", " ++ runtime
    ++ (if String.eqb usageText "" then "" else ", " ++ usageText)
    ++ ") " ++ st
    ++ (if String.eqb (Js.toLowerCase task) (Js.toLowerCase label) then ""
        else " - " ++ task).

Definition activeRuntimeMs (now : Z) (e : SubagentRunRecord) : Z :=
  now - default (createdAt e) (startedAt e).

Definition recentRuntimeMs (now : Z) (e : SubagentRunRecord) : Z :=
  default now (endedAt e) - default (createdAt e) (startedAt e).

(** The two [.map] callbacks of lines 430-444 and 447-463: they share the
    counter [index] and the store cache, both carried through here. *)
Fixpoint listLines (params : Params) (runtimeMs : SubagentRunRecord -> Z)
    (entries : list SubagentRunRecord) (index : N)
    (storeCache : gmap string (gmap string SessionEntry))
  : Prog (list string * N * gmap string (gmap string SessionEntry)) :=
  match entries with
  | [] => Ret ([], index, storeCache)
  | e :: rest =>
      '(_, _, sessionEntry, cache1) ←
        loadSubagentSessionEntry params (childSessionKey e) (Some storeCache);
      let line := formatListLine index e sessionEntry (runtimeMs e) in
      '(lines, index2, cache2) ←
        listLines params runtimeMs rest (index + 1)%N (default storeCache cache1);
      Ret (line :: lines, index2, cache2)
  end.

(** The numbered lines of the list verb, active then recent. *)
Definition listNumbered (params : Params) (now : Z)
    (runs : list SubagentRunRecord) : Prog (list string * list string) :=
  let sorted := sortSubagentRuns runs in
  let recentCutoff := recentCutoffAt now in
  '(activeLines, index1, cache1) ←
    listLines params (activeRuntimeMs now) (List.filter isActive sorted) 1%N ∅;
  '(recentLines, _, _) ←
    listLines params (recentRuntimeMs now)
      (List.filter (isRecent recentCutoff) sorted) index1 cache1;
  Ret (activeLines, recentLines).

Definition orNone (lines : list string) : list string :=
  if (length lines =? 0)%nat then ["(none)"] else lines.

(** Lines 465-477. *)
Definition listReplyText (activeLines recentLines : list string) : string :=
  let recentHeader :=
    "recent (last " ++ Js.ofN (Z.to_N RECENT_WINDOW_MINUTES) ++ "m):" in
  Js.join newline
    (List.app ("active subagents:" :: orNone activeLines)
              (recentHeader :: orNone recentLines)).

Definition actionList (params : Params) (runs : list SubagentRunRecord)
  : Prog (option CommandResult) :=
  now ← trigger DateNow;
  '(activeLines, recentLines) ← listNumbered params now runs;
  Ret (replyWith (listReplyText activeLines recentLines)).

(** *** Resolution inside a verb *)

(** The resolver reads the clock on line 228, which a blank token and the
    token "last" do not reach. *)
Definition readsClock (target : string) : bool :=
  negb (String.eqb (Js.trim target) "" || String.eqb (Js.trim target) "last").

(** [resolveSubagentTarget(runs, target)] as the verbs call it. *)
Definition resolveTarget (runs : list SubagentRunRecord) (target : string)
  : Prog SubagentTargetResolution :=
  let trimmed := Js.trim target in
  if String.eqb trimmed "" then Ret (resolvedError "Missing subagent id.") else
  if String.eqb trimmed "last" then Ret (resolvedEntry (sortSubagentRuns runs !! 0%nat))
  else
  now ← trigger DateNow;
  Ret (resolveSubagentTarget now runs (Some target)).

(** [`⚠️ ${resolved.error ?? "Unknown subagent."}`] *)
Definition unresolvedReply (resolved : SubagentTargetResolution)
  : option CommandResult :=
  replyWith ("⚠️ " ++ default "Unknown subagent." (error resolved)).

Definition alreadyFinishedReply (e : SubagentRunRecord) : option CommandResult :=
  replyWith (formatRunLabel e None ++ " is already finished.").

(** The [logVerbose] call made after clearing queues (lines 521-525 and
    659-663). *)
Definition clearedAny (cleared : ClearResult) : bool :=
  (0 <? followupCleared cleared)%nat || (0 <? laneCleared cleared)%nat.

Definition clearedText (verb : string) (cleared : ClearResult) : string :=
  "subagents " ++ verb ++ ": cleared followups="
    ++ Js.ofN (N.of_nat (followupCleared cleared))
    ++ " lane=" ++ Js.ofN (N.of_nat (laneCleared cleared))
    ++ " keys=" ++ Js.join "," (keys cleared).

Definition logCleared (verb : string) (cleared : ClearResult) : Prog unit :=
  when (clearedAny cleared) (trigger (LogVerbose (clearedText verb cleared))).

(** *** stop *)

Definition stopUsage (handledPrefix : string) : string :=
  if String.eqb handledPrefix COMMAND
  then "Usage: /subagents stop <id|#|all>"
  else "Usage: /kill <id|#|all>".

(** Lines 527-528: [entry.abortedLastRun = true; entry.updatedAt = now]. *)
Definition markAborted (se : SessionEntry) (now : Z) : SessionEntry :=
  {| sessionId := sessionId se;
     sessionFile := sessionFile se;
     entryModel := entryModel se;
     entryModelProvider := entryModelProvider se;
     inputTokens := inputTokens se;
     outputTokens := outputTokens se;
     totalTokens := totalTokens se;
     abortedLastRun := Some true;
     updatedAt := Some now |}.

(** Lines 514-539: the target is known and still running.  The assignment
    [store[childKey] = entry] of line 529 changes the loaded copy of the
    store, which is not read again. *)
Definition stopActive (params : Params) (e : SubagentRunRecord)
  : Prog (option CommandResult) :=
  let childKey := childSessionKey e in
  '(storePath, _, sessionEntry, _) ← loadSubagentSessionEntry params childKey None;
  let sid := sessionEntry ≫= sessionId in
  when (Js.truthyStr sid) (trigger (AbortEmbeddedPiRun (default "" sid)));;
  cleared ← trigger (ClearSessionQueues [Some childKey; sid]);
  logCleared "stop" cleared;;
  match sessionEntry with
  | Some se =>
      now ← trigger DateNow;
      trigger (UpdateSessionStore storePath childKey (markAborted se now))
  | None => Ret tt
  end;;
  trigger (StopSubagentsForRequester (cfg params) childKey);;
  Ret silent.

(** Lines 480-540. *)
Definition actionStop (params : Params) (handledPrefix requesterKey : string)
    (runs : list SubagentRunRecord) (restTokens : list string)
  : Prog (option CommandResult) :=
  let target := restTokens !! 0%nat in
  if negb (Js.truthyStr target) then Ret (replyWith (stopUsage handledPrefix)) else
  let target := default "" target in
  if String.eqb target "all" || String.eqb target "*" then
    trigger (StopSubagentsForRequester (cfg params) requesterKey);;
    Ret silent
  else
  resolved ← resolveTarget runs target;
  match entry resolved with
  | None => Ret (unresolvedReply resolved)
  | Some e =>
      if Js.truthyNum (endedAt e) then Ret (alreadyFinishedReply e)
      else stopActive params e
  end.

(** *** info *)

(** Lines 542-582. *)
Definition actionInfo (params : Params) (runs : list SubagentRunRecord)
    (restTokens : list string) : Prog (option CommandResult) :=
  let target := restTokens !! 0%nat in
  if negb (Js.truthyStr target)
  then Ret (replyWith "ℹ️ Usage: /subagents info <id|#>") else
  let target := default "" target in
  resolved ← resolveTarget runs target;
  match entry resolved with
  | None => Ret (unresolvedReply resolved)
  | Some e =>
      '(_, _, sessionEntry, _) ←
        loadSubagentSessionEntry params (childSessionKey e) None;
      now ← trigger DateNow;
      Ret (replyWith (infoReport now e sessionEntry))
  end.

(** *** log *)

(** [restTokens.some((token) => token.toLowerCase() === "tools")] *)
Definition logIncludeTools (restTokens : list string) : bool :=
  existsb (fun token => String.eqb (Js.toLowerCase token) "tools") restTokens.

(** [restTokens.find((token) => /^\d+$/.test(token))] *)
Definition logLimitToken (restTokens : list string) : option string :=
  List.find Js.allDigits restTokens.

(** [Math.min(200, Math.max(1, n))] *)
Definition clampLimit (n : N) : Z := Z.min 200 (Z.max 1 (Z.of_N n)).

(** Line 591. *)
Definition logLimit (restTokens : list string) : Z :=
  match logLimitToken restTokens with
  | Some limitToken =>
      if String.eqb limitToken "" then 20
      else clampLimit (Js.parseInt limitToken)
  | None => 20
  end.

(** Lines 584-611. *)
Definition actionLog (params : Params) (runs : list SubagentRunRecord)
    (restTokens : list string) : Prog (option CommandResult) :=
  let target := restTokens !! 0%nat in
  if negb (Js.truthyStr target)
  then Ret (replyWith "📜 Usage: /subagents log <id|#> [limit]") else
  let target := default "" target in
  let includeTools := logIncludeTools restTokens in
  let limit := logLimit restTokens in
  resolved ← resolveTarget runs target;
  match entry resolved with
  | None => Ret (unresolvedReply resolved)
  | Some e =>
      rawMessages ← callGateway (GatewayChatHistory (childSessionKey e) limit);
      let filtered :=
        if includeTools then rawMessages else stripToolMessages rawMessages in
      let lines := formatLogLines filtered in
      let header := "📜 Subagent log: " ++ formatRunLabel e None in
      if (length lines =? 0)%nat
      then Ret (replyWith (header ++ newline ++ "(no messages)"))
      else Ret (replyWith (Js.join newline (header :: lines)))
  end.

(** *** send and steer *)

Definition sendUsage (handledPrefix : string) (steerRequested : bool) : string :=
  if steerRequested then
    if String.eqb handledPrefix COMMAND
    then "Usage: /subagents steer <id|#> <message>"
    else "Usage: " ++ handledPrefix ++ " <id|#> <message>"
  else "Usage: /subagents send <id|#> <message>".

(** Lines 645-648. *)
Definition targetSessionIdOf (sessionEntry : option SessionEntry) : option string :=
  match sessionEntry ≫= sessionId with
  | Some sid => if String.eqb (Js.trim sid) "" then None else Some (Js.trim sid)
  | None => None
  end.

(** Lines 650-664: what a steer does before the dispatch. *)
Definition steerInterrupt (e : SubagentRunRecord) (targetSessionId : option string)
  : Prog unit :=
  trigger (MarkSubagentRunForSteerRestart (runId e));;
  when (Js.truthyStr targetSessionId)
    (trigger (AbortEmbeddedPiRun (default "" targetSessionId)));;
  cleared ← trigger (ClearSessionQueues [Some (childSessionKey e); targetSessionId]);
  logCleared "steer" cleared.

(** Lines 686-687. *)
Definition thrownText (err : Thrown) : string :=
  match err with
  | ThrownError m => m
  | ThrownString s => s
  | ThrownOther => "error"
  end.

(** Lines 681-684: the run id after the dispatch resolved with [response]. *)
Definition dispatchedRunId (idempotencyKey : string) (responseRunId : option string)
  : string :=
  if Js.truthyStr responseRunId then default "" responseRunId else idempotencyKey.

(** Lines 671-678: the parameters of the dispatch. *)
Definition agentRequest (e : SubagentRunRecord) (text idempotencyKey : string)
  : AgentRequest :=
  {| message := text;
     sessionKey := childSessionKey e;
     idempotencyKey := idempotencyKey;
     deliver := false;
     channel := INTERNAL_MESSAGE_CHANNEL;
     lane := AGENT_LANE_SUBAGENT |}.

(** Lines 666-689.  The result is the reply of the [catch] block or the run
    id the handler goes on with. *)
Definition dispatch (e : SubagentRunRecord) (text : string) : Prog (string + string) :=
  idempotencyKey ← trigger RandomUUID;
  tryCatch
    (response ← callGateway (GatewayAgent (agentRequest e text idempotencyKey) 10000);
     Ret (inr (dispatchedRunId idempotencyKey response)))
    (fun err => Ret (inl ("send failed: " ++ thrownText err))).

Definition shortRunId (rid : string) : string := Js.sliceTo 8 rid.

Definition sentFallback (e : SubagentRunRecord) (rid : string) : string :=
  "✅ Sent to " ++ formatRunLabel e None ++ " (run " ++ shortRunId rid ++ ").".

(** Lines 705-740: the bounded wait of a plain send and its reply. *)
Definition awaitReply (e : SubagentRunRecord) (rid : string)
  : Prog (option CommandResult) :=
  let waitMs := 30000 in
  wait ← callGateway (GatewayAgentWait rid waitMs (waitMs + 2000));
  if bool_decide (waitStatus wait = Some "timeout") then
    Ret (replyWith ("⏳ Subagent still running (run " ++ shortRunId rid ++ ")."))
  else if bool_decide (waitStatus wait = Some "error") then
    let waitErr := default "unknown error" (waitError wait) in
    Ret (replyWith ("⚠️ Subagent error: " ++ waitErr
                      ++ " (run " ++ shortRunId rid ++ ")."))
  else
  messages ← callGateway (GatewayChatHistory (childSessionKey e) 50);
  let filtered := stripToolMessages messages in
  let replyText := last filtered ≫= extractAssistantText in
  Ret (replyWith (default (sentFallback e rid) replyText)).

Definition steeredText (e : SubagentRunRecord) (rid : string) : string :=
  "steered " ++ formatRunLabel e None ++ " (run " ++ shortRunId rid ++ ").".

(** Lines 691-740: what follows the [try] block. *)
Definition afterDispatch (steerRequested : bool) (e : SubagentRunRecord)
    (dispatched : string + string) : Prog (option CommandResult) :=
  match dispatched with
  | inl failure => Ret (replyWith failure)
  | inr rid =>
      if steerRequested then
        trigger (ReplaceSubagentRunAfterSteer (runId e) rid e);;
        Ret (replyWith (steeredText e rid))
      else awaitReply e rid
  end.

(** Lines 641-740: the target is known and still running. *)
Definition sendActive (params : Params) (steerRequested : bool)
    (e : SubagentRunRecord) (text : string) : Prog (option CommandResult) :=
  '(_, _, targetSessionEntry, _) ←
    loadSubagentSessionEntry params (childSessionKey e) None;
  let targetSessionId := targetSessionIdOf targetSessionEntry in
  when steerRequested (steerInterrupt e targetSessionId);;
  dispatched ← dispatch e text;
  afterDispatch steerRequested e dispatched.

(** Lines 613-741. *)
Definition actionSend (params : Params) (handledPrefix : string)
    (steerRequested : bool) (runs : list SubagentRunRecord)
    (restTokens : list string) : Prog (option CommandResult) :=
  let target := restTokens !! 0%nat in
  let text := Js.trim (Js.join " " (drop 1 restTokens)) in
  if negb (Js.truthyStr target) || String.eqb text ""
  then Ret (replyWith (sendUsage handledPrefix steerRequested)) else
  let target := default "" target in
  resolved ← resolveTarget runs target;
  match entry resolved with
  | None => Ret (unresolvedReply resolved)
  | Some e =>
      if Js.truthyNum (endedAt e) then Ret (alreadyFinishedReply e)
      else sendActive params steerRequested e text
  end.

(** *** The handler *)

(** Lines 369-377. *)
Definition detectPrefix (normalized : string) : option string :=
  if Js.startsWith normalized COMMAND then Some COMMAND
  else if Js.startsWith normalized COMMAND_KILL then Some COMMAND_KILL
  else if Js.startsWith normalized COMMAND_STEER then Some COMMAND_STEER
  else if Js.startsWith normalized COMMAND_TELL then Some COMMAND_TELL
  else None.

(** Lines 388-389. *)
Definition tokenize (handledPrefix normalized : string) : list string :=
  Js.splitWhitespace (Js.trim (Js.sliceFrom (String.length handledPrefix) normalized)).

(** Lines 390-410: the verb, the steer flag and the remaining tokens;
    [None] when the verb is not one of [ACTIONS]. *)
Definition parseAction (handledPrefix : string) (restTokens : list string)
  : option (string * bool * list string) :=
  let parsed :=
    if String.eqb handledPrefix COMMAND then
      let lowered := default "" (Js.toLowerCase <$> restTokens !! 0%nat) in
      let action := if String.eqb lowered "" then "list" else lowered in
      if negb (existsb (String.eqb action) ACTIONS) then None
      else Some (action, false, drop 1 restTokens)
    else if String.eqb handledPrefix COMMAND_KILL then Some ("kill", false, restTokens)
    else Some ("steer", true, restTokens) in
  match parsed with
  | Some (action, steerRequested, tokens) =>
      if String.eqb action "kill" then Some ("stop", steerRequested, tokens)
      else if String.eqb action "steer" then Some ("send", true, tokens)
      else Some (action, steerRequested, tokens)
  | None => None
  end.

(** Lines 418-743: the branch on the verb. *)
Definition dispatchAction (params : Params) (handledPrefix : string)
    (action : string) (steerRequested : bool) (requesterKey : string)
    (runs : list SubagentRunRecord) (restTokens : list string)
  : Prog (option CommandResult) :=
  if String.eqb action "help" then Ret (replyWith buildSubagentsHelp)
  else if String.eqb action "list" then actionList params runs
  else if String.eqb action "stop"
  then actionStop params handledPrefix requesterKey runs restTokens
  else if String.eqb action "info" then actionInfo params runs restTokens
  else if String.eqb action "log" then actionLog params runs restTokens
  else if String.eqb action "send"
  then actionSend params handledPrefix steerRequested runs restTokens
  else Ret (replyWith buildSubagentsHelp).

(** [handleSubagentsCommand(params, allowTextCommands)] (lines 364-744);
    [None] is the [null] result. *)
Definition handleSubagentsCommand (params : Params) (allowTextCommands : bool)
  : Prog (option CommandResult) :=
  if negb allowTextCommands then Ret None else
  let normalized := commandBodyNormalized params in
  match detectPrefix normalized with
  | None => Ret None
  | Some handledPrefix =>
      if negb (isAuthorizedSender params) then
        let sender :=
          if Js.truthyStr (senderId params) then default "" (senderId params)
          else "<unknown>" in
        trigger (LogVerbose ("Ignoring " ++ handledPrefix
                               ++ " from unauthorized sender: " ++ sender));;
        Ret silent
      else
      match parseAction handledPrefix (tokenize handledPrefix normalized) with
      | None => Ret (replyWith buildSubagentsHelp)
      | Some (action, steerRequested, restTokens) =>
          let requesterKey := resolveRequesterSessionKey params in
          if negb (Js.truthyStr requesterKey)
          then Ret (replyWith "⚠️ Missing session key.") else
          let requesterKey := default "" requesterKey in
          runs ← trigger (ListSubagentRunsForRequester requesterKey);
          dispatchAction params handledPrefix action steerRequested
            requesterKey runs restTokens
      end
  end.

(** ** Properties of one resolution *)

(** The shapes a resolution can take. *)
Definition isEntry (r : SubagentTargetResolution) : Prop :=
  exists e, r = resolvedEntry (Some e).

Definition isError (r : SubagentTargetResolution) : Prop :=
  exists msg, msg <> "" /\ r = resolvedError msg.

(** The index rule, as a property of one resolution: a trimmed token [t] of
    digits is a 1-based index into the active runs followed by the recently
    ended ones, both in sorted order. *)
Definition indexRule (now : Z) (runs : list SubagentRunRecord) (token : string)
  : Prop :=
  let t := Js.trim token in
  let idx := Js.parseInt t in
  let sorted := sortSubagentRuns runs in
  let order :=
    (List.filter isActive sorted
       ++ List.filter (isRecent (now - 30 * 60000)) sorted)%list in
  ((1 <= idx <= N.of_nat (length order))%N ->
     exists e, order !! (N.to_nat idx - 1)%nat = Some e
               /\ resolveSubagentTarget now runs (Some token) = resolvedEntry (Some e))
  /\ ((idx = 0 \/ N.of_nat (length order) < idx)%N ->
        resolveSubagentTarget now runs (Some token) =
          resolvedError ("Invalid subagent index: " ++ t)).

(** The label rules, as a property of one resolution: an exact label match
    that is unique wins, whatever the prefix matches are, and without an
    exact match two or more prefix matches are an ambiguity error. *)
Definition labelRules (now : Z) (runs : list SubagentRunRecord) (token : string)
  : Prop :=
  let t := Js.trim token in
  let lowered := Js.toLowerCase t in
  (forall e,
     List.filter (labelEquals lowered) runs = [e] ->
     resolveSubagentTarget now runs (Some token) = resolvedEntry (Some e))
  /\ (List.filter (labelEquals lowered) runs = [] ->
      (2 <= length (List.filter (labelStartsWith lowered) runs))%nat ->
      resolveSubagentTarget now runs (Some token) =
        resolvedError ("Ambiguous subagent label prefix: " ++ t)).

(** ** Calls a run of the handler is made of *)

(** The command is addressed to this handler by an authorized sender and
    reaches the branch on the verb (lines 364-416). *)
Definition commandParses (params : Params) (handledPrefix action : string)
    (steerRequested : bool) (restTokens : list string) (requesterKey : string)
  : Prop :=
  detectPrefix (commandBodyNormalized params) = Some handledPrefix
  /\ isAuthorizedSender params = true
  /\ parseAction handledPrefix (tokenize handledPrefix (commandBodyNormalized params))
       = Some (action, steerRequested, restTokens)
  /\ resolveRequesterSessionKey params = Some requesterKey
  /\ requesterKey <> "".

(** The calls that change something outside the handler: backend cancel and
    dispatch, queue clearing, session-store write, wholesale stop and the two
    registry updates. *)
Definition isSideEffect (c : Call) : bool :=
  match c with
  | Called e _ =>
      match e with
      | AbortEmbeddedPiRun _ | ClearSessionQueues _ | UpdateSessionStore _ _ _
      | StopSubagentsForRequester _ _ | MarkSubagentRunForSteerRestart _
      | ReplaceSubagentRunAfterSteer _ _ _ | GatewayAgent _ _ => true
      | _ => false
      end
  end.

(** The clock read of the resolver, and the oracle's answer to it: [now] is
    the value read and [w1] the state after it; without a read the state is
    unchanged and [now] plays no part in the resolution. *)
Definition clockCalls (target : string) (now : Z) : list Call :=
  if readsClock target then [Called DateNow now] else [].

Definition clockRead {W : Type} (o : Oracle W) (target : string) (w : W)
    (now : Z) (w1 : W) : Prop :=
  if readsClock target then o Z DateNow w = (now, w1) else w1 = w.

(** [calls] followed by the calls of [r]. *)
Definition prependCalls {W A : Type} (calls : list Call)
    (r : list Call * Outcome A * W) : list Call * Outcome A * W :=
  let '(calls2, out, w) := r in ((calls ++ calls2)%list, out, w).

(** The cancel signal, sent when a backend session id is known. *)
Definition abortCalls (sid : option string) : list Call :=
  if Js.truthyStr sid then [Called (AbortEmbeddedPiRun (default "" sid)) tt] else [].

(** The log line written when clearing removed something. *)
Definition logClearedCalls (verb : string) (cleared : ClearResult) : list Call :=
  if clearedAny cleared then [Called (LogVerbose (clearedText verb cleared)) tt]
  else [].

(** The session-store write of a stop, made when the session has an entry. *)
Definition persistCalls (storePath childKey : string)
    (sessionEntry : option SessionEntry) (now : Z) : list Call :=
  match sessionEntry with
  | Some se =>
      [Called DateNow now;
       Called (UpdateSessionStore storePath childKey (markAborted se now)) tt]
  | None => []
  end.

End Subagents.

Arguments Ret {_ A} a.
Arguments Throw {_ A} t.
Arguments Vis {_ A X} e k.
Arguments Returned {A} a.
Arguments Threw {A} t.

(** ** A concrete instance

    Stand-ins for the imported helpers and an environment, to run the handler
    on examples.  The theorems of the next part hold for every instance of
    [Helpers] and every oracle; this one is used where a closed example is
    wanted. *)

Module Demo.

Record Message := {
  role : string;
  text : string;
}.

Definition effectiveStart (e : SubagentRunRecord) : Z :=
  default (createdAt e) (startedAt e).

(** [a] is listed before [b]: active before ended, then the later start
    first. *)
Definition before (a b : SubagentRunRecord) : bool :=
  match isActive a, isActive b with
  | true, false => true
  | false, true => false
  | _, _ => effectiveStart b <? effectiveStart a
  end.

(** [e] is put after the runs listed before it and in front of the others,
    those it ties with included: [sortRuns] inserts the runs of the snapshot
    from the last to the first, so runs that tie keep the order of the
    snapshot. *)
Fixpoint insertRun (e : SubagentRunRecord) (sorted : list SubagentRunRecord)
  : list SubagentRunRecord :=
  match sorted with
  | [] => [e]
  | x :: rest => if before x e then x :: insertRun e rest else e :: sorted
  end.

(** Modelled from the spec: [sortSubagentRuns] of [./subagents-utils.js] is
    not part of the sources.  "Sort all runs by (active-first, then most
    recent start/creation time descending)", ties keeping the order of the
    snapshot. *)
Definition sortRuns (runs : list SubagentRunRecord) : list SubagentRunRecord :=
  foldr insertRun [] runs.

(** Modelled from the spec: [formatRunLabel] of [./subagents-utils.js] is
    not part of the sources.  The display label of a run is its [label], the
    "optional display name" of the data model; showing a run without one as
    "subagent" and cutting the text at [maxLength] (72 when absent) are
    choices of this instance. *)
Definition runLabel (e : SubagentRunRecord) (maxLength : option nat) : string :=
  truncateLine (default "subagent" (label e)) (default 72%nat maxLength).

Definition runStatus (e : SubagentRunRecord) : string :=
  match outcome e with
  | Some o => status o
  | None => if isActive e then "running" else "done"
  end.

(** Modelled from the spec: [stripToolMessages] of
    [../../agents/tools/sessions-helpers.js] is not part of the sources.  It
    removes the tool messages of a transcript; that a tool message is one of
    role "toolResult" is a choice of this instance. *)
Definition notTool (m : Message) : bool :=
  negb (String.eqb (role m) "toolResult").

(** Modelled from the spec: [extractAssistantText] of
    [../../agents/tools/sessions-helpers.js] is not part of the sources.  It
    gives the "assistant utterance" of a message: the text of a message of
    role "assistant", and nothing for a message of any other role. *)
Definition assistantText (m : Message) : option string :=
  if String.eqb (role m) "assistant" then Some (text m) else None.

Definition logLine (m : Message) : string :=
  (if String.eqb (role m) "assistant" then "Assistant" else "User")
    ++ ": " ++ text m.

Definition minutes (ms : Z) : string := Js.ofN (Z.to_N (ms / 60000)) ++ "m".

#[export] Instance helpers : Helpers := {|
  Config := unit;
  ChatMessage := Message;
  sortSubagentRuns := sortRuns;
  formatRunLabel := runLabel;
  formatRunStatus := runStatus;
  resolveInternalSessionKey := fun _ raw => raw;
  resolveStorePath := fun _ _ => "sessions.json";
  stripToolMessages := List.filter notTool;
  extractAssistantText := assistantText;
  INTERNAL_MESSAGE_CHANNEL := "internal";
  AGENT_LANE_SUBAGENT := "subagent";
  formatDurationCompact := minutes;
  resolveModelDisplay := fun _ m => default "model n/a" m;
  resolveUsageDisplay := fun _ => "";
  formatLogLines := map logLine;
  infoReport := fun _ e _ => "Run: " ++ runId e;
|}.

(** The environment: a fixed registry, store and backend, and a clock that
    advances by one millisecond at every read. *)
Record World := {
  clock : Z;
  registry : list SubagentRunRecord;
  store : gmap string SessionEntry;
  agentResponse : Thrown + option string;
  waitResponse : Thrown + WaitResult;
  history : Thrown + list Message;
}.

Definition tick (w : World) : World :=
  {| clock := clock w + 1;
     registry := registry w;
     store := store w;
     agentResponse := agentResponse w;
     waitResponse := waitResponse w;
     history := history w |}.

Definition oracle : Oracle World :=
  fun X e w =>
    match e in Effect X return X * World with
    | DateNow => (clock w, tick w)
    | RandomUUID => ("3f2a9c1e-7b54-4d08-9e6a-5c1d2b3a4f60", w)
    | LogVerbose _ => (tt, w)
    | ListSubagentRunsForRequester _ => (registry w, w)
    | LoadSessionStore _ => (store w, w)
    | UpdateSessionStore _ _ _ => (tt, w)
    | AbortEmbeddedPiRun _ => (tt, w)
    | ClearSessionQueues _ =>
        ({| followupCleared := 0; laneCleared := 0; keys := [] |}, w)
    | StopSubagentsForRequester _ _ => (tt, w)
    | MarkSubagentRunForSteerRestart _ => (tt, w)
    | ReplaceSubagentRunAfterSteer _ _ _ => (tt, w)
    | GatewayAgent _ _ => (agentResponse w, w)
    | GatewayAgentWait _ _ _ => (waitResponse w, w)
    | GatewayChatHistory _ _ => (history w, w)
    end.

Definition mkRun (rid key : string) (lbl : string) (started : Z)
    (ended : option Z) : SubagentRunRecord :=
  {| runId := rid;
     childSessionKey := key;
     requesterSessionKey := "agent:main:main";
     label := Some lbl;
     task := "task of " ++ lbl;
     model := None;
     createdAt := started;
     startedAt := Some started;
     endedAt := ended;
     outcome := None;
     cleanup := "keep";
     archiveAtMs := None;
     cleanupHandled := false |}.

Definition mkParams (body : string) : Params :=
  {| commandBodyNormalized := body;
     isAuthorizedSender := true;
     senderId := Some "owner";
     paramsSessionKey := Some "agent:main:main";
     CommandTargetSessionKey := None;
     cfg := tt |}.

Definition mkSession (sid : string) : SessionEntry :=
  {| sessionId := Some sid;
     sessionFile := None;
     entryModel := None;
     entryModelProvider := None;
     inputTokens := None;
     outputTokens := None;
     totalTokens := None;
     abortedLastRun := None;
     updatedAt := None |}.

(** Epoch milliseconds of the examples: [t0] is "now"; a run that ended
    ten minutes before is recent, one that ended an hour before is not. *)
Definition t0 : Z := 1767225600000.

Definition scout : SubagentRunRecord :=
  mkRun "run-aaaa1111" "agent:main:subagent:scout" "Scout" (t0 - 300000) None.
Definition scout2 : SubagentRunRecord :=
  mkRun "run-bbbb2222" "agent:main:subagent:scout2" "Scout2" (t0 - 200000) None.
Definition scouting : SubagentRunRecord :=
  mkRun "run-cccc3333" "agent:main:subagent:scouting" "Scouting" (t0 - 100000) None.
Definition finished : SubagentRunRecord :=
  mkRun "run-dddd4444" "agent:main:subagent:done" "Builder" (t0 - 900000)
    (Some (t0 - 600000)).
Definition stale : SubagentRunRecord :=
  mkRun "run-eeee5555" "agent:main:subagent:old" "Archivist" (t0 - 7200000)
    (Some (t0 - 3600000)).

Definition lastLabelled : SubagentRunRecord :=
  mkRun "run-gggg7777" "agent:main:subagent:last" "last" (t0 - 7200000)
    (Some (t0 - 5400000)).

(** A snapshot in registry order: three running runs, one that ended ten
    minutes ago and one that ended an hour ago. *)
Definition roster : list SubagentRunRecord :=
  [stale; scout; finished; scouting; scout2].

Definition world (runs : list SubagentRunRecord) : World :=
  {| clock := t0;
     registry := runs;
     store := {[ "agent:main:subagent:scout" := mkSession "sess-1" ]};
     agentResponse := inr (Some "run-ffff6666-next");
     waitResponse := inr {| waitStatus := Some "done"; waitError := None |};
     history := inr [ {| role := "user"; text := "ping" |};
                      {| role := "assistant"; text := "pong" |} ] |}.

End Demo.

(** ** What a program can do *)

Section Shapes.

Context `{Helpers}.

(** Whatever the collaborators answer, every call the program makes passes
    the test [allowed] and every value it returns satisfies [post]. *)
Fixpoint always (allowed : forall X : Type, Effect X -> bool) {A : Type}
    (post : A -> Prop) (p : Prog A) : Prop :=
  match p with
  | Ret a => post a
  | Throw _ => True
  | Vis e k => allowed _ e = true /\ forall x, always allowed post (k x)
  end.

Definition callPasses (allowed : forall X : Type, Effect X -> bool) (c : Call)
  : bool :=
  match c with
  | Called e _ => allowed _ e
  end.

(** The reads: registry listing, clock, store load and transcript fetch. *)
Definition readCall {X : Type} (e : Effect X) : bool :=
  match e with
  | DateNow | ListSubagentRunsForRequester _ | LoadSessionStore _
  | GatewayChatHistory _ _ => true
  | _ => false
  end.

(** The calls of a plain send: the reads, the UUID, the dispatch and the
    bounded wait. *)
Definition plainSendCall {X : Type} (e : Effect X) : bool :=
  match e with
  | DateNow | ListSubagentRunsForRequester _ | LoadSessionStore _
  | RandomUUID | GatewayAgent _ _ | GatewayAgentWait _ _ _
  | GatewayChatHistory _ _ => true
  | _ => false
  end.

(** The calls of a steer: everything but the session-store write, the
    wholesale stop, the bounded wait and the transcript fetch. *)
Definition steerCall {X : Type} (e : Effect X) : bool :=
  match e with
  | UpdateSessionStore _ _ _ | StopSubagentsForRequester _ _
  | GatewayAgentWait _ _ _ | GatewayChatHistory _ _ => false
  | _ => true
  end.

(** The calls of a stop: no gateway call, no UUID, no registry update. *)
Definition stopCall {X : Type} (e : Effect X) : bool :=
  match e with
  | RandomUUID | GatewayAgent _ _ | GatewayAgentWait _ _ _
  | GatewayChatHistory _ _ | MarkSubagentRunForSteerRestart _
  | ReplaceSubagentRunAfterSteer _ _ _ => false
  | _ => true
  end.

(** A dispatch is made with delivery off, on the internal channel and the
    subagent lane, with a non-empty message and a ten-second timeout. *)
Definition dispatchShape {X : Type} (e : Effect X) : bool :=
  match e with
  | GatewayAgent req timeoutMs =>
      negb (deliver req)
      && String.eqb (channel req) INTERNAL_MESSAGE_CHANNEL
      && String.eqb (lane req) AGENT_LANE_SUBAGENT
      && negb (String.eqb (message req) "")
      && (timeoutMs =? 10000)
  | _ => true
  end.

(** A result that ends the processing of the command: [null] is returned only
    when the command is not for this handler. *)
Definition terminal (r : option CommandResult) : Prop :=
  match r with
  | Some c => shouldContinue c = false
  | None => True
  end.

Definition anyCall {X : Type} (e : Effect X) : bool := true.

End Shapes.

(** ** Results and requests of the handler *)

Section Results.

Context `{Helpers}.

(** The command was taken: a result that ends its processing. *)
Definition handled (r : option CommandResult) : Prop :=
  match r with
  | Some c => shouldContinue c = false
  | None => False
  end.

(** [null] is the result exactly of the two early exits of lines 365-380;
    every other result ends the processing of the command. *)
Definition handlerResult (params : Params) (allowTextCommands : bool)
    (r : option CommandResult) : Prop :=
  (r = None <->
     allowTextCommands = false
     \/ detectPrefix (commandBodyNormalized params) = None)
  /\ terminal r.

(** A transcript fetch asks for between 1 and 200 messages. *)
Definition historyShape {X : Type} (e : Effect X) : bool :=
  match e with
  | GatewayChatHistory _ limit => (1 <=? limit) && (limit <=? 200)
  | _ => true
  end.

(** A wait is bounded: thirty seconds, with two more for the gateway call. *)
Definition waitShape {X : Type} (e : Effect X) : bool :=
  match e with
  | GatewayAgentWait _ waitMs timeoutMs => (waitMs =? 30000) && (timeoutMs =? 32000)
  | _ => true
  end.

End Results.

(** ** Store loads of a run *)

Section Loads.

Context `{Helpers}.

(** The path of a session-store load. *)
Definition loadedPath (c : Call) : option string :=
  match c with
  | Called e _ =>
      match e with
      | LoadSessionStore storePath => Some storePath
      | _ => None
      end
  end.

(** The store paths loaded by a sequence of calls, in order. *)
Definition loadedPaths (calls : list Call) : list string :=
  omap loadedPath calls.

End Loads.

(** ** Shape of a token *)

(** No character of [s] is white space. *)
Fixpoint noWhitespace (s : string) : bool :=
  match s with
  | String c s' => negb (Js.isWhitespace c) && noWhitespace s'
  | EmptyString => true
  end.

(** A token: not empty and free of white space. *)
Definition isToken (s : string) : Prop := s <> "" /\ noWhitespace s = true.

(** ** Display helpers of the list and log verbs *)

Module Display.

(** [s.includes("/")] *)
Fixpoint includesSlash (s : string) : bool :=
  match s with
  | String c s' => (nat_of_ascii c =? 47)%nat || includesSlash s'
  | EmptyString => false
  end.

(** [s.lastIndexOf("/")]; [None] is -1. *)
Fixpoint lastIndexOfSlash (s : string) : option nat :=
  match s with
  | String c s' =>
      match lastIndexOfSlash s' with
      | Some i => Some (S i)
      | None => if (nat_of_ascii c =? 47)%nat then Some 0%nat else None
      end
  | EmptyString => None
  end.

(** The fields of a session entry that [resolveModelDisplay] reads; a field
    that is absent or not a string is [None]. *)
Record ModelFields := {
  model : option string;
  modelProvider : option string;
  modelOverride : option string;
  providerOverride : option string;
}.

(** [typeof v === "string" ? v.trim() : ""] *)
Definition trimmedOr (v : option string) : string := default "" (Js.trim <$> v).

(** Lines 103 and 111-115. *)
Definition combine (model provider : string) : string :=
  if includesSlash model then model
  else if negb (String.eqb model "") && negb (String.eqb provider "")
  then provider ++ "/" ++ model
  else model.

(** [resolveModelDisplay(entry, fallbackModel)] (lines 92-128). *)
Definition resolveModelDisplay (entry : option ModelFields)
    (fallbackModel : option string) : string :=
  let model := trimmedOr (entry ≫= model) in
  let provider := trimmedOr (entry ≫= modelProvider) in
  let combined := combine model provider in
  let combined :=
    if String.eqb combined "" then
      let overrideModel := trimmedOr (entry ≫= modelOverride) in
      let overrideProvider := trimmedOr (entry ≫= providerOverride) in
      combine overrideModel overrideProvider
    else combined in
  let combined :=
    if String.eqb combined "" then trimmedOr fallbackModel else combined in
  if String.eqb combined "" then "model n/a" else
  match lastIndexOfSlash combined with
  | Some slash =>
      if (slash <? String.length combined - 1)%nat
      then Js.sliceFrom (S slash) combined
      else combined
  | None => combined
  end.

(** A block of an array content: an object whose [type] is "text", with its
    [text] when that is a string, or anything else. *)
Inductive Block :=
| TextBlock (text : option string)
| OtherBlock.

(** The [content] of a chat message: a string, an array, or anything else. *)
Inductive Content :=
| ContentString (s : string)
| ContentBlocks (blocks : list Block)
| ContentOther.

(** A chat message; [role] is [None] when it is not a string. *)
Record ChatMessage := {
  role : option string;
  content : Content;
}.

Section Transcript.

(** [sanitizeTextContent] of [../../agents/tools/sessions-helpers.js]. *)
Variable sanitizeTextContent : string -> string.

(** [normalizeMessageText(text)] (lines 297-299). *)
Definition normalizeMessageText (text : string) : string :=
  Js.trim (Js.collapseWhitespace false text).

(** The body of the loop of lines 315-329: the chunk a block adds, if any. *)
Definition blockChunk (shouldSanitize : bool) (block : Block) : option string :=
  match block with
  | TextBlock (Some text) =>
      let value := if shouldSanitize then sanitizeTextContent text else text in
      if String.eqb (Js.trim value) "" then None else Some value
  | _ => None
  end.

(** [extractMessageText(message)] (lines 301-332); the pair is
    [{ role, text }] and [None] is [null]. *)
Definition extractMessageText (message : ChatMessage) : option (string * string) :=
  let role := default "" (role message) in
  let shouldSanitize := String.eqb role "assistant" in
  match content message with
  | ContentString content =>
      let normalized :=
        normalizeMessageText
          (if shouldSanitize then sanitizeTextContent content else content) in
      if String.eqb normalized "" then None else Some (role, normalized)
  | ContentBlocks blocks =>
      let chunks := omap (blockChunk shouldSanitize) blocks in
      let joined := normalizeMessageText (Js.join " " chunks) in
      if String.eqb joined "" then None else Some (role, joined)
  | ContentOther => None
  end.

(** The line of one message, when it has text (lines 337-342). *)
Definition logLine (message : ChatMessage) : option string :=
  match extractMessageText message with
  | Some (role, text) =>
      let label := if String.eqb role "assistant" then "Assistant" else "User" in
      Some (label ++ ": " ++ text)
  | None => None
  end.

(** [formatLogLines(messages)] (lines 334-345). *)
Definition formatLogLines (messages : list ChatMessage) : list string :=
  omap logLine messages.

End Transcript.

End Display.

(** ** Shape of a rendered text *)

(** Every white-space character of [s] is a space that follows a character
    that is not white space; [afterSpace] tells whether the character before
    [s] was white space. *)
Fixpoint collapsed (afterSpace : bool) (s : string) : bool :=
  match s with
  | String c s' =>
      if Js.isWhitespace c
      then negb afterSpace && (nat_of_ascii c =? 32)%nat && collapsed true s'
      else collapsed false s'
  | EmptyString => true
  end.

(** ** Variations of the example environment *)

Module Scene.

#[local] Existing Instance Demo.helpers.

(** The example environment with other answers of the gateway. *)
Definition backend (agent : Thrown + option string)
    (wait : Thrown + WaitResult) (hist : Thrown + list Demo.Message)
  : Demo.World :=
  {| Demo.clock := Demo.t0;
     Demo.registry := Demo.roster;
     Demo.store := {[ "agent:main:subagent:scout" := Demo.mkSession "sess-1" ]};
     Demo.agentResponse := agent;
     Demo.waitResponse := wait;
     Demo.history := hist |}.

(** A command of a sender who is not authorized and has no id. *)
Definition stranger (body : string) : Params :=
  {| commandBodyNormalized := body;
     isAuthorizedSender := false;
     senderId := None;
     paramsSessionKey := Some "agent:main:main";
     CommandTargetSessionKey := None;
     cfg := tt |}.

(** A command that comes with a blank session key and no target key. *)
Definition keyless (body : string) : Params :=
  {| commandBodyNormalized := body;
     isAuthorizedSender := true;
     senderId := Some "owner";
     paramsSessionKey := Some "  ";
     CommandTargetSessionKey := None;
     cfg := tt |}.

End Scene.

(** * Properties *)

(** ** Decimal numerals *)

Section Numerals.

Lemma everyDigit_string_of_uint (d : Decimal.uint) :
  Js.everyDigit (NilEmpty.string_of_uint d) = true.
Proof. induction d; simpl; auto. Qed.

Lemma parseDigits_of_uint_acc (d : Decimal.uint) (acc : positive) :
  Js.parseDigits (NilEmpty.string_of_uint d) (Npos acc) = Npos (Pos.of_uint_acc d acc).
Proof.
  revert acc.
  induction d as [|d IH|d IH|d IH|d IH|d IH|d IH|d IH|d IH|d IH|d IH];
    intros acc; cbn [NilEmpty.string_of_uint Js.parseDigits Pos.of_uint_acc];
    [reflexivity|..];
    rewrite <- IH; f_equal; unfold Js.digitValue; simpl; lia.
Qed.

Lemma parseDigits_of_uint (d : Decimal.uint) :
  Js.parseDigits (NilEmpty.string_of_uint d) 0%N = Pos.of_uint d.
Proof.
  induction d as [|d IH|d IH|d IH|d IH|d IH|d IH|d IH|d IH|d IH|d IH];
    cbn [NilEmpty.string_of_uint Js.parseDigits Pos.of_uint];
    [reflexivity|exact IH|..];
    rewrite <- parseDigits_of_uint_acc; reflexivity.
Qed.

Lemma to_uint_not_Nil (n : N) : N.to_uint n <> Decimal.Nil.
Proof.
  destruct n as [|p]; [discriminate|]. apply DecimalPos.Unsigned.to_uint_nonnil.
Qed.

Lemma parseInt_ofN (n : N) : Js.parseInt (Js.ofN n) = n.
Proof.
  unfold Js.parseInt, Js.ofN. rewrite parseDigits_of_uint.
  apply DecimalN.Unsigned.of_to.
Qed.

Lemma ofN_not_empty (n : N) : Js.ofN n <> "".
Proof.
  unfold Js.ofN. pose proof (to_uint_not_Nil n) as Hn.
  destruct (N.to_uint n); [congruence|..]; discriminate.
Qed.

Lemma allDigits_ofN (n : N) : Js.allDigits (Js.ofN n) = true.
Proof.
  pose proof (ofN_not_empty n) as Hn. unfold Js.allDigits.
  destruct (Js.ofN n) eqn:E; [congruence|].
  rewrite <- E. apply everyDigit_string_of_uint.
Qed.

Lemma isDigit_not_whitespace (c : ascii) :
  Js.isDigit c = true -> Js.isWhitespace c = false.
Proof.
  unfold Js.isDigit, Js.isWhitespace. intros Hd.
  apply andb_true_iff in Hd as [H1 H2].
  apply Nat.leb_le in H1. apply Nat.leb_le in H2.
  apply orb_false_iff. split.
  - apply andb_false_iff. right. apply Nat.leb_gt. lia.
  - apply Nat.eqb_neq. lia.
Qed.

Lemma trimStart_digits (s : string) :
  Js.everyDigit s = true -> Js.trimStart s = s.
Proof.
  destruct s as [|c s]; [reflexivity|]. simpl. intros Hd.
  apply andb_true_iff in Hd as [Hc _].
  by rewrite (isDigit_not_whitespace _ Hc).
Qed.

Lemma trimEnd_digits (s : string) :
  Js.everyDigit s = true -> Js.trimEnd s = s.
Proof.
  induction s as [|c s IH]; [reflexivity|].
  cbn [Js.everyDigit Js.trimEnd Js.allWhitespace]. intros Hd.
  apply andb_true_iff in Hd as [Hc Hs].
  rewrite (isDigit_not_whitespace _ Hc). simpl. by rewrite IH.
Qed.

Lemma trim_digits (s : string) : Js.allDigits s = true -> Js.trim s = s.
Proof.
  intros Hd. assert (Js.everyDigit s = true) as He by (by destruct s).
  unfold Js.trim. rewrite trimStart_digits by done. by apply trimEnd_digits.
Qed.

Lemma allDigits_not_last (s : string) : Js.allDigits s = true -> s <> "last".
Proof. intros Hd ->. discriminate. Qed.

Lemma allDigits_not_empty (s : string) : Js.allDigits s = true -> s <> "".
Proof. intros Hd ->. discriminate. Qed.

End Numerals.

(** ** Running programs *)

Section RunFacts.

Context `{Helpers} {W : Type} (o : Oracle W).

Lemma run_vis {A X : Type} (e : Effect X) (k : X -> Prog A) (w w1 : W) (x : X) :
  o X e w = (x, w1) ->
  run o (Vis e k) w = consCall (Called e x) (run o (k x) w1).
Proof. intros Ho. simpl. rewrite Ho. by destruct (run o (k x) w1) as [[??]?]. Qed.

Lemma run_bind {A B : Type} (p : Prog A) (f : A -> Prog B) (w : W) :
  run o (p ≫= f) w =
    match run o p w with
    | (calls1, Returned a, w1) =>
        let '(calls2, out, w2) := run o (f a) w1 in ((calls1 ++ calls2)%list, out, w2)
    | (calls1, Threw t, w1) => (calls1, Threw t, w1)
    end.
Proof.
  revert w. induction p as [a|t|X e k IH]; intros w.
  - simpl. by destruct (run o (f a) w) as [[??]?].
  - reflexivity.
  - change (Vis e k ≫= f) with (Vis e (fun x => k x ≫= f)).
    cbn [run]. destruct (o X e w) as [x w1]. rewrite IH.
    destruct (run o (k x) w1) as [[calls1 [a|t]] w2]; [|reflexivity].
    by destruct (run o (f a) w2) as [[??]?].
Qed.

Lemma run_bind_returned {A B : Type} (p : Prog A) (f : A -> Prog B)
    (w w1 : W) (calls1 : list Call) (a : A) :
  run o p w = (calls1, Returned a, w1) ->
  run o (p ≫= f) w =
    (let '(calls2, out, w2) := run o (f a) w1 in ((calls1 ++ calls2)%list, out, w2)).
Proof. intros Hp. by rewrite run_bind, Hp. Qed.

Lemma run_ret {A : Type} (a : A) (w : W) : run o (Ret a) w = ([], Returned a, w).
Proof. reflexivity. Qed.

Lemma run_ret_bind {A B : Type} (a : A) (f : A -> Prog B) (w : W) :
  run o (Ret a ≫= f) w = run o (f a) w.
Proof. reflexivity. Qed.

Lemma run_trigger_bind {X B : Type} (e : Effect X) (f : X -> Prog B)
    (w w1 : W) (x : X) :
  o X e w = (x, w1) ->
  run o (trigger e ≫= f) w = consCall (Called e x) (run o (f x) w1).
Proof. intros Ho. exact (run_vis e f w w1 x Ho). Qed.

Lemma run_trigger {X : Type} (e : Effect X) (w w1 : W) (x : X) :
  o X e w = (x, w1) ->
  run o (trigger e) w = ([Called e x], Returned x, w1).
Proof. intros Ho. unfold trigger. by rewrite (run_vis e Ret w w1 x Ho). Qed.

Lemma run_bind_bind {A B C : Type} (p : Prog A) (f : A -> Prog B)
    (g : B -> Prog C) (w : W) :
  run o ((p ≫= f) ≫= g) w = run o (p ≫= (fun a => f a ≫= g)) w.
Proof.
  revert w. induction p as [a|t|X e k IH]; intros w; [reflexivity..|].
  change (run o (Vis e (fun x => (k x ≫= f) ≫= g)) w
          = run o (Vis e (fun x => k x ≫= (fun a => f a ≫= g))) w).
  cbn [run]. destruct (o X e w) as [x w1]. by rewrite IH.
Qed.

Lemma run_when_bind {B : Type} (c : bool) (p : Prog unit) (f : unit -> Prog B)
    (w : W) :
  run o (when c p ≫= f) w = if c then run o (p ≫= f) w else run o (f tt) w.
Proof. by destruct c. Qed.

End RunFacts.

(** ** The resolver *)

Section ResolverFacts.

Context `{Helpers}.

Lemma append_not_empty (c : ascii) (s t : string) : String c s ++ t <> "".
Proof. discriminate. Qed.

Lemma isActive_absent (e : SubagentRunRecord) :
  isActive e = true <-> endedAt e = None \/ endedAt e = Some 0.
Proof.
  unfold isActive, Js.truthyNum. destruct (endedAt e) as [t|]; simpl.
  - rewrite negb_involutive, Z.eqb_eq. split; [intros ->; by right|].
    intros [?|[= ->]]; [discriminate|reflexivity].
  - split; [by left|done].
Qed.

Lemma isRecent_within (cutoff : Z) (e : SubagentRunRecord) :
  isRecent cutoff e = true <->
  exists t, endedAt e = Some t /\ t <> 0 /\ cutoff <= t.
Proof.
  unfold isRecent, Js.truthyNum. destruct (endedAt e) as [t|]; simpl.
  - rewrite andb_true_iff, negb_true_iff, Z.eqb_neq, Z.leb_le.
    split; [intros [??]; eauto|]. by intros (? & [= <-] & ? & ?).
  - split; [done|]. by intros (? & ? & _).
Qed.

Lemma recent_not_active (cutoff : Z) (e : SubagentRunRecord) :
  isRecent cutoff e = true -> isActive e = false.
Proof.
  unfold isRecent, isActive. intros [Ht _]%andb_true_iff. by rewrite Ht.
Qed.

(** The resolver on a token that is all digits once trimmed (lines
    233-239). *)
Lemma resolve_digits (now : Z) (runs : list SubagentRunRecord) (token : string) :
  Js.allDigits (Js.trim token) = true ->
  resolveSubagentTarget now runs (Some token) =
    let trimmed := Js.trim token in
    let idx := Js.parseInt trimmed in
    if (idx <=? 0)%N || (N.of_nat (length (numericOrder now runs)) <? idx)%N
    then resolvedError ("Invalid subagent index: " ++ trimmed)
    else resolvedEntry (numericOrder now runs !! (N.to_nat idx - 1)%nat).
Proof.
  intros Hd. unfold resolveSubagentTarget.
  change (default "" (Js.trim <$> Some token)) with (Js.trim token).
  rewrite (proj2 (String.eqb_neq _ _) (allDigits_not_empty _ Hd)).
  rewrite (proj2 (String.eqb_neq _ _) (allDigits_not_last _ Hd)).
  by rewrite Hd.
Qed.

Lemma resolve_index_in_range (now : Z) (runs : list SubagentRunRecord)
    (token : string) :
  Js.allDigits (Js.trim token) = true ->
  (1 <= Js.parseInt (Js.trim token) <= N.of_nat (length (numericOrder now runs)))%N ->
  exists e,
    numericOrder now runs !! (N.to_nat (Js.parseInt (Js.trim token)) - 1)%nat = Some e
    /\ resolveSubagentTarget now runs (Some token) = resolvedEntry (Some e).
Proof.
  intros Hd [Hlo Hhi]. rewrite resolve_digits by done. cbn zeta.
  destruct (lookup_lt_is_Some_2 (numericOrder now runs)
              (N.to_nat (Js.parseInt (Js.trim token)) - 1)%nat) as [e He]; [lia|].
  exists e. split; [done|].
  rewrite (proj2 (N.leb_gt _ _)) by lia.
  rewrite (proj2 (N.ltb_ge _ _)) by lia.
  simpl. by rewrite He.
Qed.

Lemma resolve_index_out_of_range (now : Z) (runs : list SubagentRunRecord)
    (token : string) :
  Js.allDigits (Js.trim token) = true ->
  (Js.parseInt (Js.trim token) = 0
   \/ N.of_nat (length (numericOrder now runs)) < Js.parseInt (Js.trim token))%N ->
  resolveSubagentTarget now runs (Some token) =
    resolvedError ("Invalid subagent index: " ++ Js.trim token).
Proof.
  intros Hd Hout. rewrite resolve_digits by done. cbn zeta.
  destruct Hout as [Hz|Hbig].
  - by rewrite Hz.
  - rewrite (proj2 (N.ltb_lt _ _) Hbig). by rewrite orb_true_r.
Qed.

(** [String(i)] resolves to the [i]-th entry of [numericOrder]. *)
Lemma resolve_ofN (now : Z) (runs : list SubagentRunRecord) (i : nat)
    (e : SubagentRunRecord) :
  (1 <= i)%nat ->
  numericOrder now runs !! (i - 1)%nat = Some e ->
  resolveSubagentTarget now runs (Some (Js.ofN (N.of_nat i))) = resolvedEntry (Some e).
Proof.
  intros Hi He.
  pose proof (allDigits_ofN (N.of_nat i)) as Hd.
  pose proof (trim_digits _ Hd) as Ht.
  pose proof (lookup_lt_Some _ _ _ He) as Hlt.
  destruct (resolve_index_in_range now runs (Js.ofN (N.of_nat i))) as (e' & He' & Hr).
  - by rewrite Ht.
  - rewrite Ht, parseInt_ofN. lia.
  - rewrite Ht, parseInt_ofN, Nat2N.id in He'. congruence.
Qed.

Lemma numericOrder_nil (now : Z) :
  sortSubagentRuns [] = [] -> numericOrder now [] = [].
Proof. intros Hs. unfold numericOrder. by rewrite Hs. Qed.

(** C2: an all-digit token is a 1-based index into the ordering "active runs,
    then runs ended within the last 30 minutes", each part in sorted order;
    index 0 and an index beyond the ordering's length give an error that names
    the token, and so does index 1 on the empty snapshot (a sort returns the
    empty list on the empty list). *)
Theorem numeric_index_resolution (now : Z) (runs : list SubagentRunRecord)
    (token : string) :
  Js.allDigits (Js.trim token) = true ->
  sortSubagentRuns [] = [] ->
  indexRule now runs token
  /\ resolveSubagentTarget now [] (Some "1") =
       resolvedError "Invalid subagent index: 1".
Proof.
  intros Hd Hnil. split; [split|].
  - intros Hin. by apply resolve_index_in_range.
  - intros Hout. by apply resolve_index_out_of_range.
  - rewrite (resolve_index_out_of_range now [] "1"); [done|done|].
    right. rewrite numericOrder_nil by done. simpl. reflexivity.
Qed.

(** The resolver on a token that reaches the label rules (lines 244-268). *)
Lemma resolve_by_label (now : Z) (runs : list SubagentRunRecord) (token : string) :
  Js.trim token <> "" ->
  Js.trim token <> "last" ->
  Js.allDigits (Js.trim token) = false ->
  Js.includesColon (Js.trim token) = false ->
  resolveSubagentTarget now runs (Some token) =
    let trimmed := Js.trim token in
    let lowered := Js.toLowerCase trimmed in
    let byLabel := List.filter (labelEquals lowered) runs in
    if (length byLabel =? 1)%nat then resolvedEntry (byLabel !! 0%nat) else
    if (1 <? length byLabel)%nat
    then resolvedError ("Ambiguous subagent label: " ++ trimmed) else
    let byLabelPrefix := List.filter (labelStartsWith lowered) runs in
    if (length byLabelPrefix =? 1)%nat then resolvedEntry (byLabelPrefix !! 0%nat) else
    if (1 <? length byLabelPrefix)%nat
    then resolvedError ("Ambiguous subagent label prefix: " ++ trimmed) else
    let byRunId := List.filter (runIdStartsWith trimmed) runs in
    if (length byRunId =? 1)%nat then resolvedEntry (byRunId !! 0%nat) else
    if (1 <? length byRunId)%nat
    then resolvedError ("Ambiguous run id prefix: " ++ trimmed) else
    resolvedError ("Unknown subagent id: " ++ trimmed).
Proof.
  intros Hne Hnl Hd Hc. unfold resolveSubagentTarget.
  change (default "" (Js.trim <$> Some token)) with (Js.trim token).
  rewrite (proj2 (String.eqb_neq _ _) Hne), (proj2 (String.eqb_neq _ _) Hnl).
  by rewrite Hd, Hc.
Qed.

(** C3, amended: for a token that, once trimmed, is not empty, is not the
    literal "last", is not all digits and has no colon, a unique exact label
    match is the result even when other labels have the token as a prefix, and
    without an exact match two or more prefix matches are an ambiguity error
    naming the token. *)
Theorem label_precedence_and_ambiguity (now : Z) (runs : list SubagentRunRecord)
    (token : string) :
  Js.trim token <> "" ->
  Js.trim token <> "last" ->
  Js.allDigits (Js.trim token) = false ->
  Js.includesColon (Js.trim token) = false ->
  labelRules now runs token.
Proof.
  intros Hne Hnl Hd Hc. split.
  - intros e He. rewrite resolve_by_label by done. cbn zeta. by rewrite He.
  - intros Hnone Hmany. rewrite resolve_by_label by done. cbn zeta.
    rewrite Hnone. cbn [length Nat.eqb Nat.ltb Nat.leb].
    destruct (length (List.filter _ runs)) as [|[|n]] eqn:E; [lia|lia|].
    reflexivity.
Qed.

End ResolverFacts.

(** ** The list verb *)

Section ListFacts.

Context `{Helpers} {W : Type} (o : Oracle W).

Lemma run_loadSubagentSessionEntry (params : Params) (childKey : string)
    (storeCache : option (gmap string (gmap string SessionEntry))) (w : W) :
  exists calls store storeCache' w',
    run o (loadSubagentSessionEntry params childKey storeCache) w =
      (calls,
       Returned (resolveStorePath (cfg params) childKey, store,
                 store !! childKey, storeCache'),
       w')
    /\ (is_Some storeCache -> is_Some storeCache').
Proof.
  unfold loadSubagentSessionEntry.
  destruct (storeCache ≫= _) as [store|] eqn:Hc.
  - exists [], store, storeCache, w. by split.
  - cbn [run mbind Prog_mbind Prog_bind trigger].
    destruct (o _ (LoadSessionStore _) w) as [store w1] eqn:Ho.
    eexists _, store, _, w1. split; [reflexivity|].
    intros [c ->]. by eexists.
Qed.

(** The lines rendered for [entries] carry the numbers [index],
    [index + 1], ... in order, one per entry. *)
Lemma run_listLines (params : Params) (runtimeMs : SubagentRunRecord -> Z)
    (entries : list SubagentRunRecord) :
  forall (index : N) (storeCache : gmap string (gmap string SessionEntry)) (w : W),
  exists calls lines storeCache' w',
    run o (listLines params runtimeMs entries index storeCache) w =
      (calls, Returned (lines, (index + N.of_nat (length entries))%N, storeCache'), w')
    /\ length lines = length entries
    /\ forall (k : nat) (e : SubagentRunRecord),
         entries !! k = Some e ->
         exists sessionEntry,
           lines !! k =
             Some (formatListLine (index + N.of_nat k) e sessionEntry (runtimeMs e)).
Proof.
  induction entries as [|e rest IH]; intros index storeCache w.
  - exists [], [], storeCache, w. cbn [listLines run length].
    rewrite N.add_0_r. split; [done|]. split; [done|].
    intros k e' Hk. by rewrite lookup_nil in Hk.
  - cbn [listLines].
    destruct (run_loadSubagentSessionEntry params (childSessionKey e)
                (Some storeCache) w)
      as (calls1 & store & cache1 & w1 & Hload & Hsome).
    destruct Hsome as [c1 ->]; [by eexists|].
    rewrite (run_bind_returned o _ _ _ _ _ _ Hload). cbn [default from_option id].
    destruct (IH (index + 1)%N c1 w1) as (calls2 & lines & cache2 & w2 & Hrest & Hlen & Hk).
    rewrite (run_bind_returned o _ _ _ _ _ _ Hrest). cbn [run].
    eexists _, _, cache2, w2. split; [|split].
    + replace (index + N.of_nat (length (e :: rest)))%N
        with (index + 1 + N.of_nat (length rest))%N by (cbn [length]; lia).
      reflexivity.
    + cbn [length]. by rewrite Hlen.
    + intros [|k] e' He'.
      * injection He' as <-. exists (store !! childSessionKey e).
        cbn. by rewrite N.add_0_r.
      * destruct (Hk k e' He') as [se Hse]. exists se.
        rewrite lookup_cons. rewrite Hse. do 2 f_equal. lia.
Qed.

Lemma filter_lookup_true {A : Type} (f : A -> bool) (l : list A) (k : nat) (x : A) :
  List.filter f l !! k = Some x -> f x = true.
Proof.
  intros Hk. apply list_elem_of_lookup_2, list_elem_of_In in Hk.
  by apply List.filter_In in Hk as [_ Hf].
Qed.

End ListFacts.

(** ** The handler up to the branch on the verb *)

Section HandlerFacts.

Context `{Helpers} {W : Type} (o : Oracle W).

Lemma run_handleSubagentsCommand (params : Params) (handledPrefix action : string)
    (steerRequested : bool) (restTokens : list string) (requesterKey : string)
    (runs : list SubagentRunRecord) (w w1 : W) :
  commandParses params handledPrefix action steerRequested restTokens requesterKey ->
  o _ (ListSubagentRunsForRequester requesterKey) w = (runs, w1) ->
  run o (handleSubagentsCommand params true) w =
    consCall (Called (ListSubagentRunsForRequester requesterKey) runs)
      (run o (dispatchAction params handledPrefix action steerRequested
                requesterKey runs restTokens) w1).
Proof.
  intros (Hprefix & Hauth & Hparse & Hkey & Hne) Hruns.
  unfold handleSubagentsCommand. cbn [negb].
  rewrite Hprefix, Hauth. cbn [negb]. rewrite Hparse, Hkey.
  cbn [Js.truthyStr default from_option id].
  rewrite (proj2 (String.eqb_neq _ _) Hne). cbn [negb].
  exact (run_trigger_bind o _ _ _ _ _ Hruns).
Qed.

Lemma run_resolveTarget_bind {B : Type} (runs : list SubagentRunRecord)
    (target : string) (f : SubagentTargetResolution -> Prog B)
    (w w1 : W) (now : Z) :
  clockRead o target w now w1 ->
  run o (resolveTarget runs target ≫= f) w =
    prependCalls (clockCalls target now)
      (run o (f (resolveSubagentTarget now runs (Some target))) w1).
Proof.
  unfold clockRead, clockCalls, readsClock, resolveTarget, resolveSubagentTarget.
  change (default "" (Js.trim <$> Some target)) with (Js.trim target).
  intros Hnow.
  destruct (String.eqb (Js.trim target) "") eqn:Hempty; cbn [orb negb] in *.
  { subst w1. rewrite run_ret_bind. by destruct (run o _ w) as [[??]?]. }
  destruct (String.eqb (Js.trim target) "last") eqn:Hlast; cbn [negb] in *.
  { subst w1. rewrite run_ret_bind. by destruct (run o _ w) as [[??]?]. }
  rewrite run_bind_bind, (run_trigger_bind o _ _ _ _ _ Hnow), run_ret_bind.
  unfold resolveSubagentTarget.
  change (default "" (Js.trim <$> Some target)) with (Js.trim target).
  rewrite ?Hempty, ?Hlast. by destruct (run o _ w1) as [[??]?].
Qed.

Lemma resolved_target_not_empty (now : Z) (runs : list SubagentRunRecord)
    (target : string) (e : SubagentRunRecord) :
  entry (resolveSubagentTarget now runs (Some target)) = Some e ->
  Js.truthyStr (Some target) = true.
Proof.
  intros He. destruct target as [|c target]; [discriminate He|reflexivity].
Qed.

End HandlerFacts.

(** ** The list verb and the numeric index *)

Section ListAgreement.

Context `{Helpers} {W : Type} (o : Oracle W).

(** C1: with the clock at [now], the list verb and the resolver agree.  The
    reply of the list verb is made of the numbered lines of the active runs
    followed by those of the runs ended within the last 30 minutes, in sorted
    order; for every [i] from 1 to the length of the numeric ordering, the
    line at position [i] is the one rendered with number [i] from the run
    that [resolve(runs, String(i))] returns. *)
Theorem list_index_agreement (params : Params) (handledPrefix : string)
    (steerRequested : bool) (restTokens : list string) (requesterKey : string)
    (runs : list SubagentRunRecord) (w w0 w1 : W) (now : Z) (i : nat) :
  commandParses params handledPrefix "list" steerRequested restTokens requesterKey ->
  o _ (ListSubagentRunsForRequester requesterKey) w = (runs, w0) ->
  o Z DateNow w0 = (now, w1) ->
  (1 <= i <= length (numericOrder now runs))%nat ->
  exists activeLines recentLines e sessionEntry,
    outcomeOf o (handleSubagentsCommand params true) w =
      Returned (replyWith (listReplyText activeLines recentLines))
    /\ length activeLines = length (List.filter isActive (sortSubagentRuns runs))
    /\ length recentLines =
         length (List.filter (isRecent (recentCutoffAt now)) (sortSubagentRuns runs))
    /\ (activeLines ++ recentLines)%list !! (i - 1)%nat =
         Some (formatListLine (N.of_nat i) e sessionEntry
                 (if isActive e then activeRuntimeMs now e
                  else recentRuntimeMs now e))
    /\ resolveSubagentTarget now runs (Some (Js.ofN (N.of_nat i))) =
         resolvedEntry (Some e).
Proof.
  intros Hparse Hruns Hnow [Hlo Hhi].
  set (sorted := sortSubagentRuns runs).
  set (active := List.filter isActive sorted).
  set (recent := List.filter (isRecent (recentCutoffAt now)) sorted).
  destruct (run_listLines o params (activeRuntimeMs now) active 1%N ∅ w1)
    as (calls1 & activeLines & cache1 & w2 & Hrun1 & Hlen1 & Hline1).
  destruct (run_listLines o params (recentRuntimeMs now) recent
              (1 + N.of_nat (length active))%N cache1 w2)
    as (calls2 & recentLines & cache2 & w3 & Hrun2 & Hlen2 & Hline2).
  assert (run o (listNumbered params now runs) w1
          = ((calls1 ++ calls2 ++ [])%list, Returned (activeLines, recentLines), w3))
    as Hnumbered.
  { unfold listNumbered. fold sorted. fold active. fold recent.
    rewrite (run_bind_returned o _ _ _ _ _ _ Hrun1). cbn beta iota.
    rewrite (run_bind_returned o _ _ _ _ _ _ Hrun2). reflexivity. }
  assert (numericOrder now runs = (active ++ recent)%list) as Horder by reflexivity.
  rewrite Horder in Hhi.
  destruct (lookup_lt_is_Some_2 (active ++ recent)%list (i - 1)%nat) as [e He]; [lia|].
  assert (exists sessionEntry,
            (activeLines ++ recentLines)%list !! (i - 1)%nat =
              Some (formatListLine (N.of_nat i) e sessionEntry
                      (if isActive e then activeRuntimeMs now e
                       else recentRuntimeMs now e))) as [sessionEntry Hline].
  { destruct (decide (i - 1 < length active)%nat) as [Hin|Hout].
    - rewrite lookup_app_l in He by done.
      destruct (Hline1 _ _ He) as [se Hse]. exists se.
      rewrite lookup_app_l by lia. rewrite Hse.
      rewrite (filter_lookup_true _ _ _ _ He). do 2 f_equal. lia.
    - rewrite lookup_app_r in He by lia.
      destruct (Hline2 _ _ He) as [se Hse]. exists se.
      rewrite lookup_app_r by lia. rewrite Hlen1, Hse.
      rewrite (recent_not_active _ _ (filter_lookup_true _ _ _ _ He)).
      do 2 f_equal. lia. }
  exists activeLines, recentLines, e, sessionEntry.
  split; [|split; [done|split; [done|split; [done|]]]].
  - unfold outcomeOf.
    rewrite (run_handleSubagentsCommand o _ _ _ _ _ _ _ _ _ Hparse Hruns).
    change (dispatchAction params handledPrefix "list" steerRequested requesterKey
              runs restTokens)
      with (actionList params runs).
    unfold actionList.
    rewrite (run_trigger_bind o _ _ _ _ _ Hnow).
    rewrite (run_bind_returned o _ _ _ _ _ _ Hnumbered). reflexivity.
  - apply resolve_ofN; [lia|]. by rewrite Horder.
Qed.

End ListAgreement.

(** One step of [run] in hypothesis [Hrun]: reassociate a bind, decide a
    guard or an optional value, or let the oracle answer the next call. *)
Ltac run_step o Hrun :=
  first
    [ rewrite run_bind_bind in Hrun
    | rewrite run_when_bind in Hrun;
      match type of Hrun with
      | context [if ?c then _ else _] =>
          let Hguard := fresh "Hguard" in destruct c eqn:Hguard
      end
    | match type of Hrun with
      | context [run o (trigger ?e ≫= ?f) ?w] =>
          let x := fresh "x" in
          let w' := fresh "w" in
          let E := fresh "E" in
          destruct (o _ e w) as [x w'] eqn:E;
          rewrite (run_trigger_bind o e f w w' x E) in Hrun
      | context [run o (trigger ?e) ?w] =>
          let x := fresh "x" in
          let w' := fresh "w" in
          let E := fresh "E" in
          destruct (o _ e w) as [x w'] eqn:E;
          rewrite (run_trigger o e w w' x E) in Hrun
      | context [run o (match ?v with Some _ => _ | None => _ end ≫= _) _] =>
          let Hopt := fresh "Hopt" in destruct v eqn:Hopt
      | context [run o (Ret ?a ≫= ?f) ?w] =>
          rewrite (run_ret_bind o a f w) in Hrun
      end ].

(** Use the guards decided by [run_step] in the goal. *)
Ltac use_guards :=
  repeat match goal with
         | Hg : ?c = _ |- context [if ?c then _ else _] => rewrite Hg
         end.

(** ** stop *)

Section StopFacts.

Context `{Helpers} {W : Type} (o : Oracle W).

Lemma run_actionStop (params : Params) (handledPrefix requesterKey : string)
    (runs : list SubagentRunRecord) (target : string) (rest : list string)
    (w w1 : W) (now : Z) (e : SubagentRunRecord) :
  target <> "all" ->
  target <> "*" ->
  clockRead o target w now w1 ->
  entry (resolveSubagentTarget now runs (Some target)) = Some e ->
  run o (actionStop params handledPrefix requesterKey runs (target :: rest)) w =
    prependCalls (clockCalls target now)
      (run o (if Js.truthyNum (endedAt e) then Ret (alreadyFinishedReply e)
              else stopActive params e) w1).
Proof.
  intros Hall Hstar Hnow He. unfold actionStop.
  change ((target :: rest) !! 0%nat) with (Some target).
  rewrite (resolved_target_not_empty _ _ _ _ He).
  cbn [negb default from_option id].
  rewrite (proj2 (String.eqb_neq _ _) Hall), (proj2 (String.eqb_neq _ _) Hstar).
  cbn [orb]. rewrite (run_resolveTarget_bind o _ _ _ _ _ _ Hnow). by rewrite He.
Qed.

Lemma run_stopActive (params : Params) (e : SubagentRunRecord)
    (store : gmap string SessionEntry) (w w1 : W) :
  let childKey := childSessionKey e in
  let storePath := resolveStorePath (cfg params) childKey in
  let sid := store !! childKey ≫= sessionId in
  o _ (LoadSessionStore storePath) w = (store, w1) ->
  exists cleared now2 w',
    run o (stopActive params e) w =
      ((Called (LoadSessionStore storePath) store
          :: abortCalls sid
          ++ [Called (ClearSessionQueues [Some childKey; sid]) cleared]
          ++ logClearedCalls "stop" cleared
          ++ persistCalls storePath childKey (store !! childKey) now2
          ++ [Called (StopSubagentsForRequester (cfg params) childKey) tt])%list,
       Returned silent, w').
Proof.
  intros childKey storePath sid Hload.
  destruct (run o (stopActive params e) w) as [[calls out] w'] eqn:Hrun.
  unfold stopActive, loadSubagentSessionEntry in Hrun.
  cbn [mbind option_bind] in Hrun. fold childKey storePath in Hrun.
  rewrite run_bind_bind, (run_trigger_bind o _ _ _ _ _ Hload) in Hrun.
  cbn [mbind Prog_mbind Prog_bind] in Hrun. fold sid in Hrun.
  unfold logCleared in Hrun. unfold abortCalls, logClearedCalls, persistCalls.
  repeat run_step o Hrun.
  all: repeat match goal with u : unit |- _ => destruct u end.
  all: cbn [run consCall] in Hrun; injection Hrun; intros; subst calls out w'.
  all: match goal with
       | Hc : o _ (ClearSessionQueues _) _ = (?c, _) |- _ => exists c
       end.
  all: first [ match goal with
               | Hn : o Z DateNow _ = (?n, _) |- _ => exists n
               end
             | exists 0 ].
  all: eexists; use_guards; reflexivity.
Qed.

Lemma run_stop_resolved (params : Params) (handledPrefix : string)
    (steerRequested : bool) (target : string) (rest : list string)
    (requesterKey : string) (runs : list SubagentRunRecord) (now : Z)
    (e : SubagentRunRecord) (w w1 w2 : W) :
  commandParses params handledPrefix "stop" steerRequested (target :: rest)
    requesterKey ->
  target <> "all" ->
  target <> "*" ->
  o _ (ListSubagentRunsForRequester requesterKey) w = (runs, w1) ->
  clockRead o target w1 now w2 ->
  entry (resolveSubagentTarget now runs (Some target)) = Some e ->
  run o (handleSubagentsCommand params true) w =
    consCall (Called (ListSubagentRunsForRequester requesterKey) runs)
      (prependCalls (clockCalls target now)
         (run o (if Js.truthyNum (endedAt e) then Ret (alreadyFinishedReply e)
                 else stopActive params e) w2)).
Proof.
  intros Hparse Hall Hstar Hruns Hnow He.
  rewrite (run_handleSubagentsCommand o _ _ _ _ _ _ _ _ _ Hparse Hruns).
  change (dispatchAction params handledPrefix "stop" steerRequested requesterKey
            runs (target :: rest))
    with (actionStop params handledPrefix requesterKey runs (target :: rest)).
  by rewrite (run_actionStop _ _ _ _ _ _ _ _ _ _ Hall Hstar Hnow He).
Qed.

(** C4: a stop whose target resolves to a run with a set [endedAt] replies
    "<label> is already finished." and makes only the reads that precede the
    reply (the registry listing and the clock read of the resolver): no cancel
    signal, no queue clearing, no session-store write, no wholesale stop. *)
Theorem stop_already_finished (params : Params) (handledPrefix : string)
    (steerRequested : bool) (target : string) (rest : list string)
    (requesterKey : string) (runs : list SubagentRunRecord) (now : Z)
    (e : SubagentRunRecord) (w w1 w2 : W) :
  commandParses params handledPrefix "stop" steerRequested (target :: rest)
    requesterKey ->
  target <> "all" ->
  target <> "*" ->
  o _ (ListSubagentRunsForRequester requesterKey) w = (runs, w1) ->
  clockRead o target w1 now w2 ->
  entry (resolveSubagentTarget now runs (Some target)) = Some e ->
  Js.truthyNum (endedAt e) = true ->
  run o (handleSubagentsCommand params true) w =
    (Called (ListSubagentRunsForRequester requesterKey) runs
       :: clockCalls target now,
     Returned (replyWith (formatRunLabel e None ++ " is already finished.")),
     w2)
  /\ List.filter isSideEffect (traceOf o (handleSubagentsCommand params true) w) = [].
Proof.
  intros Hparse Hall Hstar Hruns Hnow He Hended.
  assert (run o (handleSubagentsCommand params true) w =
            (Called (ListSubagentRunsForRequester requesterKey) runs
               :: clockCalls target now,
             Returned (alreadyFinishedReply e), w2)) as Hrun.
  { rewrite (run_stop_resolved _ _ _ _ _ _ _ _ _ _ _ _ Hparse Hall Hstar Hruns Hnow He).
    rewrite Hended. cbn [run prependCalls consCall]. by rewrite app_nil_r. }
  split; [exact Hrun|]. unfold traceOf. rewrite Hrun. cbn [fst].
  unfold clockCalls. by destruct (readsClock target).
Qed.

(** C5: a stop whose target resolves to a running run cancels the backend
    session when the session entry has a session id, clears the queues of the
    child key and that id, writes [abortedLastRun] when the session has an
    entry, and then, as its last call, invokes the wholesale stop with the
    child's own session key as requester. *)
Theorem stop_cascade (params : Params) (handledPrefix : string)
    (steerRequested : bool) (target : string) (rest : list string)
    (requesterKey : string) (runs : list SubagentRunRecord) (now : Z)
    (e : SubagentRunRecord) (store : gmap string SessionEntry) (w w1 w2 w3 : W) :
  let childKey := childSessionKey e in
  let storePath := resolveStorePath (cfg params) childKey in
  let sid := store !! childKey ≫= sessionId in
  commandParses params handledPrefix "stop" steerRequested (target :: rest)
    requesterKey ->
  target <> "all" ->
  target <> "*" ->
  o _ (ListSubagentRunsForRequester requesterKey) w = (runs, w1) ->
  clockRead o target w1 now w2 ->
  entry (resolveSubagentTarget now runs (Some target)) = Some e ->
  Js.truthyNum (endedAt e) = false ->
  o _ (LoadSessionStore storePath) w2 = (store, w3) ->
  exists cleared now2 w',
    run o (handleSubagentsCommand params true) w =
      (([Called (ListSubagentRunsForRequester requesterKey) runs]
          ++ clockCalls target now
          ++ [Called (LoadSessionStore storePath) store]
          ++ abortCalls sid
          ++ [Called (ClearSessionQueues [Some childKey; sid]) cleared]
          ++ logClearedCalls "stop" cleared
          ++ persistCalls storePath childKey (store !! childKey) now2
          ++ [Called (StopSubagentsForRequester (cfg params) childKey) tt])%list,
       Returned silent, w').
Proof.
  intros childKey storePath sid Hparse Hall Hstar Hruns Hnow He Hactive Hload.
  rewrite (run_stop_resolved _ _ _ _ _ _ _ _ _ _ _ _ Hparse Hall Hstar Hruns Hnow He).
  rewrite Hactive.
  destruct (run_stopActive params e store w2 w3 Hload) as (cleared & now2 & w' & Hrun).
  exists cleared, now2, w'. by rewrite Hrun.
Qed.

End StopFacts.

(** ** send and steer *)

Section SendFacts.

Context `{Helpers} {W : Type} (o : Oracle W).

Lemma run_dispatch (e : SubagentRunRecord) (text uuid : string)
    (resp : Thrown + option string) (w w1 w2 : W) :
  o _ RandomUUID w = (uuid, w1) ->
  o _ (GatewayAgent (agentRequest e text uuid) 10000) w1 = (resp, w2) ->
  run o (dispatch e text) w =
    ([Called RandomUUID uuid;
      Called (GatewayAgent (agentRequest e text uuid) 10000) resp],
     Returned match resp with
              | inl err => inl ("send failed: " ++ thrownText err)
              | inr response => inr (dispatchedRunId uuid response)
              end,
     w2).
Proof.
  intros Huuid Hagent. unfold dispatch.
  rewrite (run_trigger_bind o _ _ _ _ _ Huuid).
  unfold callGateway. cbn [tryCatch trigger mbind Prog_mbind Prog_bind].
  rewrite (run_vis o _ _ _ _ _ Hagent). by destruct resp.
Qed.

Lemma run_actionSend (params : Params) (handledPrefix : string)
    (steerRequested : bool) (runs : list SubagentRunRecord) (target : string)
    (rest : list string) (w w1 : W) (now : Z) (e : SubagentRunRecord) :
  Js.trim (Js.join " " rest) <> "" ->
  clockRead o target w now w1 ->
  entry (resolveSubagentTarget now runs (Some target)) = Some e ->
  run o (actionSend params handledPrefix steerRequested runs (target :: rest)) w =
    prependCalls (clockCalls target now)
      (run o (if Js.truthyNum (endedAt e) then Ret (alreadyFinishedReply e)
              else sendActive params steerRequested e (Js.trim (Js.join " " rest)))
         w1).
Proof.
  intros Htext Hnow He. unfold actionSend.
  change ((target :: rest) !! 0%nat) with (Some target).
  change (drop 1 (target :: rest)) with rest.
  rewrite (resolved_target_not_empty _ _ _ _ He).
  rewrite (proj2 (String.eqb_neq _ _) Htext).
  cbn [negb orb default from_option id].
  rewrite (run_resolveTarget_bind o _ _ _ _ _ _ Hnow). by rewrite He.
Qed.

Lemma run_send_resolved (params : Params) (handledPrefix : string)
    (steerRequested : bool) (target : string) (rest : list string)
    (requesterKey : string) (runs : list SubagentRunRecord) (now : Z)
    (e : SubagentRunRecord) (w w1 w2 : W) :
  commandParses params handledPrefix "send" steerRequested (target :: rest)
    requesterKey ->
  Js.trim (Js.join " " rest) <> "" ->
  o _ (ListSubagentRunsForRequester requesterKey) w = (runs, w1) ->
  clockRead o target w1 now w2 ->
  entry (resolveSubagentTarget now runs (Some target)) = Some e ->
  run o (handleSubagentsCommand params true) w =
    consCall (Called (ListSubagentRunsForRequester requesterKey) runs)
      (prependCalls (clockCalls target now)
         (run o (if Js.truthyNum (endedAt e) then Ret (alreadyFinishedReply e)
                 else sendActive params steerRequested e
                        (Js.trim (Js.join " " rest))) w2)).
Proof.
  intros Hparse Htext Hruns Hnow He.
  rewrite (run_handleSubagentsCommand o _ _ _ _ _ _ _ _ _ Hparse Hruns).
  change (dispatchAction params handledPrefix "send" steerRequested requesterKey
            runs (target :: rest))
    with (actionSend params handledPrefix steerRequested runs (target :: rest)).
  by rewrite (run_actionSend _ _ _ _ _ _ _ _ _ _ Htext Hnow He).
Qed.

(** The dispatch inside a longer program: the oracle answers the UUID
    request and the gateway call. *)
Ltac dispatch_step Hrun :=
  match type of Hrun with
  | context [run o (dispatch ?e ?text ≫= ?f) ?w] =>
      let uuid := fresh "uuid" in
      let resp := fresh "resp" in
      let wa := fresh "w" in
      let wb := fresh "w" in
      let Euuid := fresh "Euuid" in
      let Eagent := fresh "Eagent" in
      destruct (o _ RandomUUID w) as [uuid wa] eqn:Euuid;
      destruct (o _ (GatewayAgent (agentRequest e text uuid) 10000) wa)
        as [resp wb] eqn:Eagent;
      rewrite (run_bind_returned o _ f _ _ _ _ (run_dispatch e text uuid resp w wa wb Euuid Eagent))
        in Hrun
  end.

Lemma run_sendActive_steer (params : Params) (e : SubagentRunRecord)
    (text : string) (store : gmap string SessionEntry) (w w1 : W) :
  let childKey := childSessionKey e in
  let storePath := resolveStorePath (cfg params) childKey in
  let targetSessionId := targetSessionIdOf (store !! childKey) in
  o _ (LoadSessionStore storePath) w = (store, w1) ->
  exists cleared uuid resp w',
    run o (sendActive params true e text) w =
      (([Called (LoadSessionStore storePath) store;
         Called (MarkSubagentRunForSteerRestart (runId e)) tt]
          ++ abortCalls targetSessionId
          ++ [Called (ClearSessionQueues [Some childKey; targetSessionId]) cleared]
          ++ logClearedCalls "steer" cleared
          ++ [Called RandomUUID uuid;
              Called (GatewayAgent (agentRequest e text uuid) 10000) resp]
          ++ match resp with
             | inr response =>
                 [Called (ReplaceSubagentRunAfterSteer (runId e)
                            (dispatchedRunId uuid response) e) tt]
             | inl _ => []
             end)%list,
       Returned match resp with
                | inr response =>
                    replyWith (steeredText e (dispatchedRunId uuid response))
                | inl err => replyWith ("send failed: " ++ thrownText err)
                end,
       w').
Proof.
  intros childKey storePath targetSessionId Hload.
  destruct (run o (sendActive params true e text) w) as [[calls out] w'] eqn:Hrun.
  unfold sendActive, loadSubagentSessionEntry in Hrun.
  cbn [mbind option_bind] in Hrun. fold childKey storePath in Hrun.
  rewrite run_bind_bind, (run_trigger_bind o _ _ _ _ _ Hload) in Hrun.
  cbn [mbind Prog_mbind Prog_bind when] in Hrun. fold targetSessionId in Hrun.
  unfold steerInterrupt, logCleared in Hrun.
  unfold abortCalls, logClearedCalls.
  repeat run_step o Hrun.
  all: dispatch_step Hrun.
  all: match goal with r : Thrown + option string |- _ => destruct r end.
  all: cbn [afterDispatch] in Hrun; repeat run_step o Hrun.
  all: repeat match goal with u : unit |- _ => destruct u end.
  all: cbn [run consCall app] in Hrun; injection Hrun; intros; subst calls out w'.
  all: match goal with
       | Hc : o _ (ClearSessionQueues _) _ = (?c, _) |- _ => exists c
       end.
  all: match goal with
       | Hu : o _ RandomUUID _ = (?u, _) |- _ => exists u
       end.
  all: match goal with
       | Ha : o _ (GatewayAgent _ _) _ = (?r, _) |- _ => exists r
       end.
  all: eexists; use_guards; reflexivity.
Qed.

(** C6: a steer of a running run marks the run for steer restart first,
    then sends the interrupt when a backend session id is known, then clears
    the queues of the child key and that id; only then the replacement message
    is dispatched, and the registry replacement (old run id, new run id, the
    old record as fallback) is made after a dispatch that succeeded and not
    after one that failed. *)
Theorem steer_ordering (params : Params) (handledPrefix : string)
    (target : string) (rest : list string) (requesterKey : string)
    (runs : list SubagentRunRecord) (now : Z) (e : SubagentRunRecord)
    (store : gmap string SessionEntry) (w w1 w2 w3 : W) :
  let childKey := childSessionKey e in
  let storePath := resolveStorePath (cfg params) childKey in
  let targetSessionId := targetSessionIdOf (store !! childKey) in
  let text := Js.trim (Js.join " " rest) in
  commandParses params handledPrefix "send" true (target :: rest) requesterKey ->
  text <> "" ->
  o _ (ListSubagentRunsForRequester requesterKey) w = (runs, w1) ->
  clockRead o target w1 now w2 ->
  entry (resolveSubagentTarget now runs (Some target)) = Some e ->
  Js.truthyNum (endedAt e) = false ->
  o _ (LoadSessionStore storePath) w2 = (store, w3) ->
  exists cleared uuid resp w',
    run o (handleSubagentsCommand params true) w =
      (([Called (ListSubagentRunsForRequester requesterKey) runs]
          ++ clockCalls target now
          ++ [Called (LoadSessionStore storePath) store;
              Called (MarkSubagentRunForSteerRestart (runId e)) tt]
          ++ abortCalls targetSessionId
          ++ [Called (ClearSessionQueues [Some childKey; targetSessionId]) cleared]
          ++ logClearedCalls "steer" cleared
          ++ [Called RandomUUID uuid;
              Called (GatewayAgent (agentRequest e text uuid) 10000) resp]
          ++ match resp with
             | inr response =>
                 [Called (ReplaceSubagentRunAfterSteer (runId e)
                            (dispatchedRunId uuid response) e) tt]
             | inl _ => []
             end)%list,
       Returned match resp with
                | inr response =>
                    replyWith (steeredText e (dispatchedRunId uuid response))
                | inl err => replyWith ("send failed: " ++ thrownText err)
                end,
       w').
Proof.
  intros childKey storePath targetSessionId text
    Hparse Htext Hruns Hnow He Hactive Hload.
  rewrite (run_send_resolved _ _ _ _ _ _ _ _ _ _ _ _ Hparse Htext Hruns Hnow He).
  rewrite Hactive. fold text.
  destruct (run_sendActive_steer params e text store w2 w3 Hload)
    as (cleared & uuid & resp & w' & Hrun).
  exists cleared, uuid, resp, w'. by rewrite Hrun.
Qed.

(** The bounded wait and the reply of a plain send. *)
Lemma run_awaitReply (e : SubagentRunRecord) (rid : string)
    (waitResp : Thrown + WaitResult) (w w1 : W) :
  o _ (GatewayAgentWait rid 30000 32000) w = (waitResp, w1) ->
  exists calls out w2,
    run o (awaitReply e rid) w =
      (Called (GatewayAgentWait rid 30000 32000) waitResp :: calls, out, w2)
    /\ match waitResp with
       | inl t => calls = [] /\ out = Threw t
       | inr wait =>
           if bool_decide (waitStatus wait = Some "timeout") then
             calls = []
             /\ out = Returned (replyWith ("⏳ Subagent still running (run "
                                            ++ Js.sliceTo 8 rid ++ ")."))
           else if bool_decide (waitStatus wait = Some "error") then
             calls = []
             /\ out = Returned (replyWith
                                 ("⚠️ Subagent error: "
                                    ++ default "unknown error" (waitError wait)
                                    ++ " (run " ++ Js.sliceTo 8 rid ++ ")."))
           else
             exists histResp,
               o _ (GatewayChatHistory (childSessionKey e) 50) w1 = (histResp, w2)
               /\ calls = [Called (GatewayChatHistory (childSessionKey e) 50) histResp]
               /\ out = match histResp with
                        | inl t => Threw t
                        | inr messages =>
                            Returned
                              (replyWith
                                 (default (sentFallback e rid)
                                    (last (stripToolMessages messages)
                                       ≫= extractAssistantText)))
                        end
       end.
Proof.
  intros Hwait. unfold awaitReply, callGateway. cbn zeta.
  change (30000 + 2000) with 32000.
  rewrite run_bind_bind, (run_trigger_bind o _ _ _ _ _ Hwait).
  destruct waitResp as [t|wait]; [by exists [], (Threw t), w1|].
  rewrite run_ret_bind.
  destruct (bool_decide (waitStatus wait = Some "timeout")); [by eexists [], _, w1|].
  destruct (bool_decide (waitStatus wait = Some "error")); [by eexists [], _, w1|].
  destruct (o _ (GatewayChatHistory (childSessionKey e) 50) w1)
    as [histResp w2] eqn:Hhist.
  rewrite run_bind_bind, (run_trigger_bind o _ _ _ _ _ Hhist).
  exists [Called (GatewayChatHistory (childSessionKey e) 50) histResp].
  destruct histResp as [t|messages].
  - exists (Threw t), w2. split; [reflexivity|]. by exists (inl t).
  - eexists _, w2. split; [reflexivity|]. by exists (inr messages).
Qed.

Lemma run_sendActive_send (params : Params) (e : SubagentRunRecord)
    (text uuid : string) (resp : Thrown + option string)
    (store : gmap string SessionEntry) (w w1 w2 w3 : W) :
  let storePath := resolveStorePath (cfg params) (childSessionKey e) in
  let pre :=
    [Called (LoadSessionStore storePath) store;
     Called RandomUUID uuid;
     Called (GatewayAgent (agentRequest e text uuid) 10000) resp] in
  o _ (LoadSessionStore storePath) w = (store, w1) ->
  o _ RandomUUID w1 = (uuid, w2) ->
  o _ (GatewayAgent (agentRequest e text uuid) 10000) w2 = (resp, w3) ->
  run o (sendActive params false e text) w =
    match resp with
    | inl err => (pre, Returned (replyWith ("send failed: " ++ thrownText err)), w3)
    | inr response =>
        let '(calls, out, w') :=
          run o (awaitReply e (dispatchedRunId uuid response)) w3 in
        ((pre ++ calls)%list, out, w')
    end.
Proof.
  intros storePath pre Hload Huuid Hagent.
  unfold sendActive, loadSubagentSessionEntry.
  cbn [mbind option_bind]. fold storePath.
  rewrite run_bind_bind, (run_trigger_bind o _ _ _ _ _ Hload).
  rewrite run_ret_bind, run_when_bind.
  rewrite (run_bind_returned o _ _ _ _ _ _ (run_dispatch e text uuid resp _ _ _ Huuid Hagent)).
  destruct resp as [err|response]; cbn [afterDispatch]; [reflexivity|].
  by destruct (run o (awaitReply e (dispatchedRunId uuid response)) w3) as [[??]?].
Qed.

(** C8, amended: a plain send whose dispatch succeeds and whose bounded wait
    returns status "done" fetches the history of the child session and replies
    with the assistant text extracted from the last message left after tool
    messages are stripped, whatever the role of that message; when there is no
    such message or that extraction yields nothing the reply is the
    acknowledgment naming the run label and the first eight characters of the
    run id. *)
Theorem send_round_trip (params : Params) (handledPrefix : string)
    (target : string) (rest : list string) (requesterKey : string)
    (runs : list SubagentRunRecord) (now : Z) (e : SubagentRunRecord)
    (store : gmap string SessionEntry) (uuid : string)
    (response : option string) (wait : WaitResult)
    (messages : list ChatMessage) (w w1 w2 w3 w4 w5 w6 w7 : W) :
  let childKey := childSessionKey e in
  let storePath := resolveStorePath (cfg params) childKey in
  let text := Js.trim (Js.join " " rest) in
  let rid := dispatchedRunId uuid response in
  let extracted := last (stripToolMessages messages) ≫= extractAssistantText in
  commandParses params handledPrefix "send" false (target :: rest) requesterKey ->
  text <> "" ->
  o _ (ListSubagentRunsForRequester requesterKey) w = (runs, w1) ->
  clockRead o target w1 now w2 ->
  entry (resolveSubagentTarget now runs (Some target)) = Some e ->
  Js.truthyNum (endedAt e) = false ->
  o _ (LoadSessionStore storePath) w2 = (store, w3) ->
  o _ RandomUUID w3 = (uuid, w4) ->
  o _ (GatewayAgent (agentRequest e text uuid) 10000) w4 = (inr response, w5) ->
  o _ (GatewayAgentWait rid 30000 32000) w5 = (inr wait, w6) ->
  waitStatus wait = Some "done" ->
  o _ (GatewayChatHistory childKey 50) w6 = (inr messages, w7) ->
  (forall utterance,
     extracted = Some utterance ->
     outcomeOf o (handleSubagentsCommand params true) w =
       Returned (replyWith utterance))
  /\ (extracted = None ->
      outcomeOf o (handleSubagentsCommand params true) w =
        Returned (replyWith ("✅ Sent to " ++ formatRunLabel e None
                               ++ " (run " ++ Js.sliceTo 8 rid ++ ").")))
  /\ traceOf o (handleSubagentsCommand params true) w =
       ([Called (ListSubagentRunsForRequester requesterKey) runs]
          ++ clockCalls target now
          ++ [Called (LoadSessionStore storePath) store;
              Called RandomUUID uuid;
              Called (GatewayAgent (agentRequest e text uuid) 10000) (inr response);
              Called (GatewayAgentWait rid 30000 32000) (inr wait);
              Called (GatewayChatHistory childKey 50) (inr messages)])%list.
Proof.
  intros childKey storePath text rid extracted
    Hparse Htext Hruns Hnow He Hactive Hload Huuid Hagent Hwait Hdone Hhist.
  assert (run o (handleSubagentsCommand params true) w =
            (([Called (ListSubagentRunsForRequester requesterKey) runs]
                ++ clockCalls target now
                ++ [Called (LoadSessionStore storePath) store;
                    Called RandomUUID uuid;
                    Called (GatewayAgent (agentRequest e text uuid) 10000)
                      (inr response);
                    Called (GatewayAgentWait rid 30000 32000) (inr wait);
                    Called (GatewayChatHistory childKey 50) (inr messages)])%list,
             Returned (replyWith (default (sentFallback e rid) extracted)),
             w7)) as Hrun.
  { rewrite (run_send_resolved _ _ _ _ _ _ _ _ _ _ _ _ Hparse Htext Hruns Hnow He).
    rewrite Hactive. fold text.
    rewrite (run_sendActive_send params e text uuid (inr response) store
               w2 w3 w4 w5 Hload Huuid Hagent).
    fold rid.
    destruct (run_awaitReply e rid (inr wait) w5 w6 Hwait)
      as (calls & out & w' & Hrun & Hshape).
    rewrite Hdone in Hshape.
    change (bool_decide (Some "done" = Some "timeout")) with false in Hshape.
    change (bool_decide (Some "done" = Some "error")) with false in Hshape.
    cbn iota in Hshape. destruct Hshape as (histResp & Hhist' & -> & ->).
    fold childKey in Hhist'. rewrite Hhist in Hhist'.
    injection Hhist' as <- <-. by rewrite Hrun. }
  unfold outcomeOf, traceOf. rewrite Hrun. cbn [fst snd].
  split; [|split; [|reflexivity]].
  - intros utterance Hsome. by rewrite Hsome.
  - intros Hnone. by rewrite Hnone.
Qed.

(** C10: after a dispatch that resolved, the run id the handler goes on with
    is the [runId] of the response when the response carries a non-empty one,
    and the idempotency key (the fresh UUID) otherwise; it is never empty when
    the UUID is not.  That id is the new run id of the registry replacement
    and the id shown in the reply of a steer, and the id of the bounded wait
    and the id shown in the "still running" and error replies of a send. *)
Theorem run_id_after_dispatch (e : SubagentRunRecord) (text uuid : string)
    (response : option string) (w w1 w2 : W) :
  let rid :=
    match response with
    | Some r => if String.eqb r "" then uuid else r
    | None => uuid
    end in
  o _ RandomUUID w = (uuid, w1) ->
  o _ (GatewayAgent (agentRequest e text uuid) 10000) w1 = (inr response, w2) ->
  (uuid <> "" -> rid <> "")
  /\ run o (dispatch e text) w =
       ([Called RandomUUID uuid;
         Called (GatewayAgent (agentRequest e text uuid) 10000) (inr response)],
        Returned (inr rid), w2)
  /\ (exists w3,
        run o (dispatch e text ≫= afterDispatch true e) w =
          ([Called RandomUUID uuid;
            Called (GatewayAgent (agentRequest e text uuid) 10000) (inr response);
            Called (ReplaceSubagentRunAfterSteer (runId e) rid e) tt],
           Returned (replyWith ("steered " ++ formatRunLabel e None
                                  ++ " (run " ++ Js.sliceTo 8 rid ++ ").")),
           w3))
  /\ (exists waitResp calls out w3,
        run o (dispatch e text ≫= afterDispatch false e) w =
          ((([Called RandomUUID uuid;
              Called (GatewayAgent (agentRequest e text uuid) 10000) (inr response);
              Called (GatewayAgentWait rid 30000 32000) waitResp])
             ++ calls)%list, out, w3)
        /\ (forall wait,
              waitResp = inr wait ->
              waitStatus wait = Some "timeout" ->
              out = Returned (replyWith ("⏳ Subagent still running (run "
                                           ++ Js.sliceTo 8 rid ++ ").")))
        /\ (forall wait,
              waitResp = inr wait ->
              waitStatus wait = Some "error" ->
              out = Returned (replyWith
                                ("⚠️ Subagent error: "
                                   ++ default "unknown error" (waitError wait)
                                   ++ " (run " ++ Js.sliceTo 8 rid ++ ").")))).
Proof.
  intros rid Huuid Hagent.
  assert (dispatchedRunId uuid response = rid) as Hrid.
  { unfold dispatchedRunId, rid, Js.truthyStr.
    destruct response as [r|]; [|reflexivity]. by destruct (String.eqb r ""). }
  pose proof (run_dispatch e text uuid (inr response) w w1 w2 Huuid Hagent) as Hd.
  cbn iota in Hd. rewrite Hrid in Hd.
  split; [|split; [exact Hd|split]].
  - intros Hne. unfold rid. destruct response as [r|]; [|done].
    destruct (String.eqb r "") eqn:Hr; [done|]. by apply String.eqb_neq.
  - destruct (o _ (ReplaceSubagentRunAfterSteer (runId e) rid e) w2)
      as [[] w3] eqn:Hreplace.
    exists w3. rewrite (run_bind_returned o _ _ _ _ _ _ Hd).
    cbn [afterDispatch].
    by rewrite (run_trigger_bind o _ _ _ _ _ Hreplace).
  - destruct (o _ (GatewayAgentWait rid 30000 32000) w2) as [waitResp w3] eqn:Hwait.
    destruct (run_awaitReply e rid waitResp w2 w3 Hwait)
      as (calls & out & w4 & Hrun & Hshape).
    exists waitResp, calls, out, w4.
    rewrite (run_bind_returned o _ _ _ _ _ _ Hd). cbn [afterDispatch].
    rewrite Hrun. split; [reflexivity|]. split.
    + intros wait -> Hstatus. rewrite Hstatus in Hshape.
      change (bool_decide (Some "timeout" = Some "timeout")) with true in Hshape.
      by destruct Hshape as [_ ->].
    + intros wait -> Hstatus. rewrite Hstatus in Hshape.
      change (bool_decide (Some "error" = Some "timeout")) with false in Hshape.
      change (bool_decide (Some "error" = Some "error")) with true in Hshape.
      by destruct Hshape as [_ ->].
Qed.

End SendFacts.

(** ** Resolutions without a run *)

Section UnresolvedFacts.

Context `{Helpers} {W : Type} (o : Oracle W).

Lemma resolve_last_empty (now : Z) :
  sortSubagentRuns [] = [] ->
  resolveSubagentTarget now [] (Some "last") = {| entry := None; error := None |}.
Proof.
  intros Hnil. unfold resolveSubagentTarget.
  change (default "" (Js.trim <$> Some "last")) with "last".
  cbn [String.eqb Ascii.eqb Bool.eqb]. by rewrite Hnil.
Qed.

Lemma filter_singleton_lookup {A : Type} (l : list A) :
  (length l =? 1)%nat = true -> exists x, l !! 0%nat = Some x.
Proof. destruct l as [|x l]; [discriminate|]. by exists x. Qed.

(** Every resolution of a token other than "last" carries a run and no error,
    or an error text and no run. *)
Lemma resolve_entry_or_error (now : Z) (runs : list SubagentRunRecord)
    (token : option string) :
  default "" (Js.trim <$> token) <> "last" ->
  isEntry (resolveSubagentTarget now runs token)
  \/ isError (resolveSubagentTarget now runs token).
Proof.
  intros Hlast.
  destruct token as [token|];
    [|right; exists "Missing subagent id."; by split].
  change (default "" (Js.trim <$> Some token)) with (Js.trim token) in Hlast.
  destruct (String.eqb (Js.trim token) "") eqn:Hempty.
  { right. exists "Missing subagent id.". split; [done|].
    unfold resolveSubagentTarget.
    change (default "" (Js.trim <$> Some token)) with (Js.trim token).
    by rewrite Hempty. }
  apply String.eqb_neq in Hempty.
  destruct (Js.allDigits (Js.trim token)) eqn:Hd.
  { rewrite resolve_digits by done. cbn zeta.
    destruct (_ || _) eqn:Hrange.
    - right. eexists. split; [|reflexivity]. apply append_not_empty.
    - left. apply orb_false_iff in Hrange as [Hlo Hhi].
      apply N.leb_gt in Hlo. apply N.ltb_ge in Hhi.
      destruct (lookup_lt_is_Some_2 (numericOrder now runs)
                  (N.to_nat (Js.parseInt (Js.trim token)) - 1)%nat) as [e He];
        [lia|].
      exists e. by rewrite He. }
  destruct (Js.includesColon (Js.trim token)) eqn:Hc.
  { unfold resolveSubagentTarget.
    change (default "" (Js.trim <$> Some token)) with (Js.trim token).
    rewrite (proj2 (String.eqb_neq _ _) Hempty), (proj2 (String.eqb_neq _ _) Hlast).
    rewrite Hd, Hc. destruct (List.find _ runs) as [m|].
    - left. by exists m.
    - right. eexists. split; [|reflexivity]. apply append_not_empty. }
  rewrite resolve_by_label by done. cbn zeta.
  repeat match goal with
         | |- context [if (length ?l =? 1)%nat then _ else _] =>
             destruct (length l =? 1)%nat eqn:?;
             [ left;
               match goal with
               | Hone : (length l =? 1)%nat = true |- _ =>
                   destruct (filter_singleton_lookup l Hone) as [x Hx];
                   exists x; by rewrite Hx
               end
             | ]
         | |- context [if (1 <? length ?l)%nat then _ else _] =>
             destruct (1 <? length l)%nat;
             [ right; eexists; split; [|reflexivity]; apply append_not_empty | ]
         end.
  right. eexists. split; [|reflexivity]. apply append_not_empty.
Qed.

(** C9: on the empty snapshot the token "last" resolves to neither a run nor
    an error (the sorted list is empty), and stop, info, log and send (with a
    message) then reply "Unknown subagent."; every token other than "last"
    resolves to exactly one of a run and a non-empty error text. *)
Theorem last_on_empty_snapshot :
  sortSubagentRuns [] = [] ->
  (forall now,
     resolveSubagentTarget now [] (Some "last") = {| entry := None; error := None |})
  /\ (forall params handledPrefix action steerRequested rest requesterKey (w w1 : W),
        commandParses params handledPrefix action steerRequested ("last" :: rest)
          requesterKey ->
        In action ["stop"; "info"; "log"; "send"] ->
        (action = "send" -> Js.trim (Js.join " " rest) <> "") ->
        o _ (ListSubagentRunsForRequester requesterKey) w = ([], w1) ->
        outcomeOf o (handleSubagentsCommand params true) w =
          Returned (replyWith "⚠️ Unknown subagent."))
  /\ (forall now runs token,
        default "" (Js.trim <$> token) <> "last" ->
        let r := resolveSubagentTarget now runs token in
        (exists e, entry r = Some e /\ error r = None)
        \/ (exists msg, entry r = None /\ error r = Some msg /\ msg <> "")).
Proof.
  intros Hnil. split; [|split].
  - intros now. by apply resolve_last_empty.
  - intros params handledPrefix action steerRequested rest requesterKey w w1
      Hparse Haction Htext Hruns.
    unfold outcomeOf.
    rewrite (run_handleSubagentsCommand o _ _ _ _ _ _ _ _ _ Hparse Hruns).
    assert (clockRead o "last" w1 0 w1) as Hnow by reflexivity.
    pose proof (resolve_last_empty 0 Hnil) as Hres.
    cbn [In] in Haction.
    destruct Haction as [<-|[<-|[<-|[<-|[]]]]].
    + change (dispatchAction params handledPrefix "stop" steerRequested
                requesterKey [] ("last" :: rest))
        with (resolveTarget [] "last" ≫= fun resolved =>
                match entry resolved with
                | None => Ret (unresolvedReply resolved)
                | Some e =>
                    if Js.truthyNum (endedAt e) then Ret (alreadyFinishedReply e)
                    else stopActive params e
                end).
      rewrite (run_resolveTarget_bind o _ _ _ _ _ _ Hnow), Hres. reflexivity.
    + change (dispatchAction params handledPrefix "info" steerRequested
                requesterKey [] ("last" :: rest))
        with (actionInfo params [] ("last" :: rest)).
      unfold actionInfo. cbn [lookup list_lookup Js.truthyStr String.eqb negb
                               default from_option id].
      rewrite (run_resolveTarget_bind o _ _ _ _ _ _ Hnow), Hres. reflexivity.
    + change (dispatchAction params handledPrefix "log" steerRequested
                requesterKey [] ("last" :: rest))
        with (actionLog params [] ("last" :: rest)).
      unfold actionLog. cbn [lookup list_lookup Js.truthyStr String.eqb negb
                              default from_option id].
      rewrite (run_resolveTarget_bind o _ _ _ _ _ _ Hnow), Hres. reflexivity.
    + change (dispatchAction params handledPrefix "send" steerRequested
                requesterKey [] ("last" :: rest))
        with (actionSend params handledPrefix steerRequested [] ("last" :: rest)).
      unfold actionSend. change (drop 1 ("last" :: rest)) with rest.
      rewrite (proj2 (String.eqb_neq _ _) (Htext eq_refl)).
      cbn [lookup list_lookup Js.truthyStr String.eqb negb orb
             default from_option id].
      rewrite (run_resolveTarget_bind o _ _ _ _ _ _ Hnow), Hres. reflexivity.
  - intros now runs token Hlast r.
    destruct (resolve_entry_or_error now runs token Hlast) as [[e He]|(msg & Hmsg & He)];
      subst r; rewrite He.
    + left. by exists e.
    + right. by exists msg.
Qed.

End UnresolvedFacts.

(** ** log *)

Section LogFacts.

Context `{Helpers} {W : Type} (o : Oracle W).

Lemma clampLimit_range (n : N) : 1 <= clampLimit n <= 200.
Proof. unfold clampLimit. lia. Qed.

Lemma logLimit_of_token (restTokens : list string) :
  logLimit restTokens =
    match List.find Js.allDigits restTokens with
    | Some limitToken => clampLimit (Js.parseInt limitToken)
    | None => 20
    end.
Proof.
  unfold logLimit, logLimitToken.
  destruct (List.find Js.allDigits restTokens) as [t|] eqn:Hfind; [|reflexivity].
  apply List.find_some in Hfind as [_ Hd].
  by rewrite (proj2 (String.eqb_neq _ _) (allDigits_not_empty _ Hd)).
Qed.

Lemma logLimit_range (restTokens : list string) : 1 <= logLimit restTokens <= 200.
Proof.
  rewrite logLimit_of_token.
  destruct (List.find _ _); [apply clampLimit_range|lia].
Qed.

(** When the target is not a number, the limit is the first all-digit
    argument after it, clamped, or 20. *)
Lemma logLimit_named_target (target : string) (args : list string) :
  Js.allDigits target = false ->
  logLimit (target :: args) =
    match List.find Js.allDigits args with
    | Some limitToken => clampLimit (Js.parseInt limitToken)
    | None => 20
    end.
Proof.
  intros Hd. rewrite !logLimit_of_token. cbn [List.find]. by rewrite Hd.
Qed.

(** When the target is a list index, the limit is the index itself, clamped,
    whatever follows it. *)
Lemma logLimit_index_target (target : string) (args : list string) :
  Js.allDigits target = true ->
  logLimit (target :: args) = clampLimit (Js.parseInt target).
Proof.
  intros Hd. rewrite logLimit_of_token. cbn [List.find]. by rewrite Hd.
Qed.

(** The limit of the history request of the log verb is [logLimit] of all
    the tokens after the verb, the target included. *)
Lemma run_actionLog (params : Params) (runs : list SubagentRunRecord)
    (target : string) (args : list string) (now : Z) (e : SubagentRunRecord)
    (histResp : Thrown + list ChatMessage) (w w1 w2 : W) :
  clockRead o target w now w1 ->
  entry (resolveSubagentTarget now runs (Some target)) = Some e ->
  o _ (GatewayChatHistory (childSessionKey e) (logLimit (target :: args))) w1
    = (histResp, w2) ->
  traceOf o (actionLog params runs (target :: args)) w =
    (clockCalls target now
       ++ [Called (GatewayChatHistory (childSessionKey e) (logLimit (target :: args)))
             histResp])%list.
Proof.
  intros Hnow He Hhist. unfold traceOf, actionLog.
  change ((target :: args) !! 0%nat) with (Some target).
  rewrite (resolved_target_not_empty _ _ _ _ He).
  cbn [negb default from_option id].
  rewrite (run_resolveTarget_bind o _ _ _ _ _ _ Hnow), He.
  unfold callGateway.
  rewrite run_bind_bind, (run_trigger_bind o _ _ _ _ _ Hhist).
  destruct histResp as [t|messages]; [reflexivity|].
  rewrite run_ret_bind. by destruct (length _ =? 0)%nat.
Qed.

End LogFacts.

(** ** What a run never does *)

Section AlwaysFacts.

Context `{Helpers}.

Lemma always_run {W A : Type} (o : Oracle W) (allowed : forall X, Effect X -> bool)
    (post : A -> Prop) (p : Prog A) :
  always allowed post p ->
  forall w : W,
    Forall (fun c => callPasses allowed c = true) (traceOf o p w)
    /\ forall a, outcomeOf o p w = Returned a -> post a.
Proof.
  unfold traceOf, outcomeOf.
  induction p as [a|t|X e k IH]; intros Hp w.
  - split; [constructor|]. intros a' [= <-]. exact Hp.
  - split; [constructor|]. intros a' Ha. discriminate Ha.
  - destruct Hp as [He Hk]. cbn [run].
    destruct (o X e w) as [x w1].
    specialize (IH x (Hk x) w1).
    destruct (run o (k x) w1) as [[calls out] w2]. cbn [fst snd] in *.
    destruct IH as [Hcalls Hout]. split; [|exact Hout].
    constructor; [exact He|exact Hcalls].
Qed.

Lemma always_weaken {A : Type} (allowed allowed' : forall X, Effect X -> bool)
    (post post' : A -> Prop) (p : Prog A) :
  (forall X (e : Effect X), allowed X e = true -> allowed' X e = true) ->
  (forall a, post a -> post' a) ->
  always allowed post p -> always allowed' post' p.
Proof.
  intros Hallowed Hpost.
  induction p as [a|t|X e k IH]; cbn [always]; [apply Hpost|done|].
  intros [He Hk]. split; [by apply Hallowed|]. intros x. by apply IH.
Qed.

Lemma always_bind {A B : Type} (allowed : forall X, Effect X -> bool)
    (mid : A -> Prop) (post : B -> Prop) (p : Prog A) (f : A -> Prog B) :
  always allowed mid p ->
  (forall a, mid a -> always allowed post (f a)) ->
  always allowed post (p ≫= f).
Proof.
  intros Hp Hf. induction p as [a|t|X e k IH]; [by apply Hf|done|].
  destruct Hp as [He Hk].
  change (always allowed post (Vis e (fun x => k x ≫= f))).
  split; [exact He|]. intros x. by apply IH.
Qed.

Lemma always_seq {A B : Type} (allowed : forall X, Effect X -> bool)
    (post : B -> Prop) (p : Prog A) (f : A -> Prog B) :
  always allowed (fun _ => True) p ->
  (forall a, always allowed post (f a)) ->
  always allowed post (p ≫= f).
Proof. intros Hp Hf. apply (always_bind _ (fun _ => True)); auto. Qed.

Lemma always_trigger {X : Type} (allowed : forall X, Effect X -> bool)
    (e : Effect X) :
  allowed X e = true -> always allowed (fun _ => True) (trigger e).
Proof. intros He. by split. Qed.

Lemma always_when (allowed : forall X, Effect X -> bool) (c : bool)
    (p : Prog unit) :
  (c = true -> always allowed (fun _ => True) p) ->
  always allowed (fun _ => True) (when c p).
Proof. destruct c; [auto|done]. Qed.

Lemma always_tryCatch {A : Type} (allowed : forall X, Effect X -> bool)
    (post : A -> Prop) (p : Prog A) (h : Thrown -> Prog A) :
  always allowed post p ->
  (forall t, always allowed post (h t)) ->
  always allowed post (tryCatch p h).
Proof.
  intros Hp Hh. induction p as [a|t|X e k IH]; cbn [tryCatch always]; [done|done|].
  destruct Hp as [He Hk]. split; [exact He|]. intros x. by apply IH.
Qed.

End AlwaysFacts.

(** ** The calls of each verb *)

Section Permissions.

Context `{Helpers}.

Variable allowed : forall X : Type, Effect X -> bool.

Hypothesis allowClock : allowed _ DateNow = true.
Hypothesis allowUuid : allowed _ RandomUUID = true.
Hypothesis allowLog : forall text, allowed _ (LogVerbose text) = true.
Hypothesis allowList :
  forall key, allowed _ (ListSubagentRunsForRequester key) = true.
Hypothesis allowLoad : forall path, allowed _ (LoadSessionStore path) = true.
Hypothesis allowUpdate :
  forall path key se, allowed _ (UpdateSessionStore path key se) = true.
Hypothesis allowAbort : forall sid, allowed _ (AbortEmbeddedPiRun sid) = true.
Hypothesis allowClear : forall ks, allowed _ (ClearSessionQueues ks) = true.
Hypothesis allowStop :
  forall c key, allowed _ (StopSubagentsForRequester c key) = true.
Hypothesis allowMark :
  forall rid, allowed _ (MarkSubagentRunForSteerRestart rid) = true.
Hypothesis allowReplace :
  forall old new e, allowed _ (ReplaceSubagentRunAfterSteer old new e) = true.
Hypothesis allowAgent :
  forall e text key,
    text <> "" -> allowed _ (GatewayAgent (agentRequest e text key) 10000) = true.
Hypothesis allowWait :
  forall rid, allowed _ (GatewayAgentWait rid 30000 32000) = true.
Hypothesis allowHistory :
  forall key limit,
    1 <= limit <= 200 -> allowed _ (GatewayChatHistory key limit) = true.

Lemma always_trigger_bind {X B : Type} (post : B -> Prop) (e : Effect X)
    (f : X -> Prog B) :
  allowed X e = true ->
  (forall x, always allowed post (f x)) ->
  always allowed post (trigger e ≫= f).
Proof. intros He Hf. split; [exact He|exact Hf]. Qed.

Lemma always_callGateway_bind {X B : Type} (post : B -> Prop)
    (e : Effect (Thrown + X)) (f : X -> Prog B) :
  allowed _ e = true ->
  (forall x, always allowed post (f x)) ->
  always allowed post (callGateway e ≫= f).
Proof. intros He Hf. split; [exact He|]. intros [t|x]; [done|apply Hf]. Qed.

Lemma always_loadSubagentSessionEntry (params : Params) (childKey : string)
    (storeCache : option (gmap string (gmap string SessionEntry))) :
  always allowed (fun _ => True)
    (loadSubagentSessionEntry params childKey storeCache).
Proof.
  unfold loadSubagentSessionEntry. destruct (storeCache ≫= _); [done|].
  by apply always_trigger_bind.
Qed.

Lemma always_listLines (params : Params) (runtimeMs : SubagentRunRecord -> Z)
    (entries : list SubagentRunRecord) (index : N)
    (storeCache : gmap string (gmap string SessionEntry)) :
  always allowed (fun _ => True)
    (listLines params runtimeMs entries index storeCache).
Proof.
  revert index storeCache.
  induction entries as [|e rest IH]; intros index storeCache; [done|].
  cbn [listLines]. apply always_seq; [apply always_loadSubagentSessionEntry|].
  intros [[[? ?] ?] ?]. apply always_seq; [apply IH|]. by intros [[? ?] ?].
Qed.

Lemma always_actionList (params : Params) (runs : list SubagentRunRecord) :
  always allowed handled (actionList params runs).
Proof.
  unfold actionList. apply always_trigger_bind; [exact allowClock|]. intros now.
  unfold listNumbered.
  apply always_seq; [|by intros [? ?]].
  apply always_seq; [apply always_listLines|]. intros [[? ?] ?].
  apply always_seq; [apply always_listLines|]. by intros [[? ?] ?].
Qed.

Lemma always_resolveTarget_bind {B : Type} (post : B -> Prop)
    (runs : list SubagentRunRecord) (target : string)
    (f : SubagentTargetResolution -> Prog B) :
  (forall resolved, always allowed post (f resolved)) ->
  always allowed post (resolveTarget runs target ≫= f).
Proof.
  intros Hf. unfold resolveTarget.
  destruct (String.eqb (Js.trim target) ""); [apply Hf|].
  destruct (String.eqb (Js.trim target) "last"); [apply Hf|].
  apply (always_bind _ (fun _ => True)); [|by intros; apply Hf].
  by apply always_trigger_bind.
Qed.

Lemma always_actionInfo (params : Params) (runs : list SubagentRunRecord)
    (restTokens : list string) :
  always allowed handled (actionInfo params runs restTokens).
Proof.
  unfold actionInfo. destruct (negb _); [done|].
  apply always_resolveTarget_bind. intros resolved.
  destruct (entry resolved) as [e|]; [|done].
  apply always_seq; [apply always_loadSubagentSessionEntry|].
  intros [[[? ?] ?] ?]. by apply always_trigger_bind.
Qed.

Lemma always_actionLog (params : Params) (runs : list SubagentRunRecord)
    (restTokens : list string) :
  always allowed handled (actionLog params runs restTokens).
Proof.
  unfold actionLog. destruct (negb _); [done|].
  apply always_resolveTarget_bind. intros resolved.
  destruct (entry resolved) as [e|]; [|done].
  apply always_callGateway_bind; [apply allowHistory, logLimit_range|].
  intros rawMessages. by destruct (length _ =? 0)%nat.
Qed.

Lemma always_logCleared (verb : string) (cleared : ClearResult) :
  always allowed (fun _ => True) (logCleared verb cleared).
Proof. apply always_when. intros _. by apply always_trigger. Qed.

Lemma always_stopActive (params : Params) (e : SubagentRunRecord) :
  always allowed handled (stopActive params e).
Proof.
  unfold stopActive.
  apply always_seq; [apply always_loadSubagentSessionEntry|].
  intros [[[storePath ?] sessionEntry] ?].
  apply always_seq; [apply always_when; intros _; by apply always_trigger|].
  intros _. apply always_trigger_bind; [apply allowClear|]. intros cleared.
  apply always_seq; [apply always_logCleared|]. intros _.
  apply always_seq.
  { destruct sessionEntry as [se|]; [|done].
    apply always_trigger_bind; [exact allowClock|]. intros now.
    by apply always_trigger. }
  intros _. by apply always_trigger_bind.
Qed.

Lemma always_actionStop (params : Params) (handledPrefix requesterKey : string)
    (runs : list SubagentRunRecord) (restTokens : list string) :
  always allowed handled
    (actionStop params handledPrefix requesterKey runs restTokens).
Proof.
  unfold actionStop. destruct (negb _); [done|].
  destruct (_ || _); [by apply always_trigger_bind|].
  apply always_resolveTarget_bind. intros resolved.
  destruct (entry resolved) as [e|]; [|done].
  destruct (Js.truthyNum _); [done|]. apply always_stopActive.
Qed.

Lemma always_dispatch (e : SubagentRunRecord) (text : string) :
  text <> "" -> always allowed (fun _ => True) (dispatch e text).
Proof.
  intros Htext. unfold dispatch.
  apply always_trigger_bind; [exact allowUuid|]. intros key.
  apply always_tryCatch; [|done].
  apply always_callGateway_bind; [by apply allowAgent|]. done.
Qed.

Lemma always_awaitReply (e : SubagentRunRecord) (rid : string) :
  always allowed handled (awaitReply e rid).
Proof.
  unfold awaitReply. apply always_callGateway_bind; [apply allowWait|].
  intros wait. destruct (bool_decide _); [done|].
  destruct (bool_decide _); [done|].
  apply always_callGateway_bind; [apply allowHistory; lia|]. done.
Qed.

Lemma always_steerInterrupt (e : SubagentRunRecord) (sid : option string) :
  always allowed (fun _ => True) (steerInterrupt e sid).
Proof.
  unfold steerInterrupt.
  apply always_trigger_bind; [apply allowMark|]. intros _.
  apply always_seq; [apply always_when; intros _; by apply always_trigger|].
  intros _. apply always_trigger_bind; [apply allowClear|]. intros cleared.
  apply always_logCleared.
Qed.

Lemma always_sendActive (params : Params) (steerRequested : bool)
    (e : SubagentRunRecord) (text : string) :
  text <> "" ->
  always allowed handled (sendActive params steerRequested e text).
Proof.
  intros Htext. unfold sendActive.
  apply always_seq; [apply always_loadSubagentSessionEntry|].
  intros [[[? ?] sessionEntry] ?].
  apply always_seq;
    [apply always_when; intros _; apply always_steerInterrupt|].
  intros _. apply always_seq; [by apply always_dispatch|].
  intros [failure|rid]; [done|]. cbn [afterDispatch].
  destruct steerRequested; [by apply always_trigger_bind|].
  apply always_awaitReply.
Qed.

Lemma always_actionSend (params : Params) (handledPrefix : string)
    (steerRequested : bool) (runs : list SubagentRunRecord)
    (restTokens : list string) :
  always allowed handled
    (actionSend params handledPrefix steerRequested runs restTokens).
Proof.
  unfold actionSend.
  destruct (String.eqb (Js.trim _) "") eqn:Htext;
    [by rewrite orb_true_r|rewrite orb_false_r].
  destruct (negb _); [done|].
  apply always_resolveTarget_bind. intros resolved.
  destruct (entry resolved) as [e|]; [|done].
  destruct (Js.truthyNum _); [done|].
  apply always_sendActive. by apply String.eqb_neq.
Qed.

Lemma always_dispatchAction (params : Params) (handledPrefix action : string)
    (steerRequested : bool) (requesterKey : string)
    (runs : list SubagentRunRecord) (restTokens : list string) :
  always allowed handled
    (dispatchAction params handledPrefix action steerRequested requesterKey
       runs restTokens).
Proof.
  unfold dispatchAction.
  repeat match goal with
         | |- context [if String.eqb action ?v then _ else _] =>
             destruct (String.eqb action v)
         end;
    first [ done | apply always_actionList | apply always_actionStop
          | apply always_actionInfo | apply always_actionLog
          | apply always_actionSend ].
Qed.

End Permissions.

(** ** The handler, whatever the collaborators answer *)

Section HandlerShape.

Context `{Helpers}.

Lemma handled_handlerResult (params : Params) (handledPrefix : string)
    (r : option CommandResult) :
  detectPrefix (commandBodyNormalized params) = Some handledPrefix ->
  handled r -> handlerResult params true r.
Proof.
  intros Hprefix Hr. destruct r as [c|]; [|done].
  split; [|exact Hr]. split; [done|]. intros [Hallow|Hnone]; [done|].
  by rewrite Hnone in Hprefix.
Qed.

Lemma always_handleSubagentsCommand (allowed : forall X, Effect X -> bool)
    (params : Params) (allowTextCommands : bool) :
  (isAuthorizedSender params = false ->
   forall text, allowed _ (LogVerbose text) = true) ->
  (forall key, allowed _ (ListSubagentRunsForRequester key) = true) ->
  (forall handledPrefix action steerRequested restTokens requesterKey runs,
     detectPrefix (commandBodyNormalized params) = Some handledPrefix ->
     isAuthorizedSender params = true ->
     parseAction handledPrefix
       (tokenize handledPrefix (commandBodyNormalized params))
       = Some (action, steerRequested, restTokens) ->
     always allowed handled
       (dispatchAction params handledPrefix action steerRequested requesterKey
          runs restTokens)) ->
  always allowed (handlerResult params allowTextCommands)
    (handleSubagentsCommand params allowTextCommands).
Proof.
  intros Hlog Hlist Hverb. unfold handleSubagentsCommand.
  destruct allowTextCommands; cbn [negb];
    [|split; [split; [by left|done]|done]].
  destruct (detectPrefix (commandBodyNormalized params)) as [handledPrefix|]
    eqn:Hprefix; [|split; [split; [by right|done]|done]].
  destruct (isAuthorizedSender params) eqn:Hauth; cbn [negb].
  - destruct (parseAction _ _) as [[[action steerRequested] restTokens]|]
      eqn:Hparse; [|by apply (handled_handlerResult _ handledPrefix)].
    destruct (negb _); [by apply (handled_handlerResult _ handledPrefix)|].
    apply always_trigger_bind; [apply Hlist|]. intros runs.
    eapply always_weaken; [by intros|..|by apply Hverb].
    intros r. by apply (handled_handlerResult _ handledPrefix).
  - apply always_trigger_bind; [by apply Hlog|]. intros _.
    by apply (handled_handlerResult _ handledPrefix).
Qed.

End HandlerShape.

Ltac allow_calls :=
  first [ reflexivity
        | intros; cbn; rewrite ?String.eqb_refl, ?Z.eqb_refl; cbn;
          repeat match goal with
                 | Hne : ?t <> "" |- _ =>
                     rewrite (proj2 (String.eqb_neq t "") Hne)
                 end;
          try reflexivity;
          apply andb_true_intro; split; apply Z.leb_le; lia ].

Section VerbCalls.

Context `{Helpers} {W : Type} (o : Oracle W).

(** X1: the handler returns [null] exactly when text commands are off or the
    command body starts with none of the four prefixes; every other result
    it returns has [shouldContinue] false, on every path and whatever the
    collaborators answer. *)
Theorem handler_result_terminal (params : Params) (allowTextCommands : bool)
    (w : W) (r : option CommandResult) :
  outcomeOf o (handleSubagentsCommand params allowTextCommands) w = Returned r ->
  (r = None <->
     allowTextCommands = false
     \/ detectPrefix (commandBodyNormalized params) = None)
  /\ match r with
     | Some c => shouldContinue c = false
     | None => True
     end.
Proof.
  intros Hr.
  refine (proj2 (always_run o (@anyCall _)
                   (handlerResult params allowTextCommands) _ _ w) r Hr).
  apply always_handleSubagentsCommand; [done..|]. intros.
  apply always_dispatchAction; try done.
Qed.

(** X2: a command of an authorized sender whose verb is neither stop nor
    send (list, info, log, help) only reads: every call it makes is the
    registry listing, a clock read, a session-store load or a transcript
    fetch. *)
Theorem read_only_verbs (params : Params) (handledPrefix action : string)
    (steerRequested : bool) (restTokens : list string) (w : W) :
  detectPrefix (commandBodyNormalized params) = Some handledPrefix ->
  isAuthorizedSender params = true ->
  parseAction handledPrefix (tokenize handledPrefix (commandBodyNormalized params))
    = Some (action, steerRequested, restTokens) ->
  action <> "stop" ->
  action <> "send" ->
  Forall (fun c => callPasses (@readCall _) c = true)
    (traceOf o (handleSubagentsCommand params true) w).
Proof.
  intros Hprefix Hauth Hparse Hstop Hsend.
  refine (proj1 (always_run o (@readCall _) _ _ _ w)).
  apply always_handleSubagentsCommand; [by rewrite Hauth|done|].
  intros p a s rest key runs Hp _ Hparse'.
  rewrite Hprefix in Hp. injection Hp as <-.
  rewrite Hparse in Hparse'. injection Hparse' as <- <- <-.
  unfold dispatchAction.
  rewrite (proj2 (String.eqb_neq _ _) Hstop), (proj2 (String.eqb_neq _ _) Hsend).
  destruct (String.eqb action "help"); [done|].
  destruct (String.eqb action "list"); [by apply always_actionList|].
  destruct (String.eqb action "info"); [by apply always_actionInfo|].
  destruct (String.eqb action "log"); [|done].
  apply always_actionLog; allow_calls.
Qed.

(** X3: a plain send changes nothing besides the dispatch itself: every
    call it makes is a read, the UUID draw, the dispatch or the bounded wait;
    it never marks or replaces a run, aborts a backend run, clears queues,
    writes the session store or stops subagents. *)
Theorem plain_send_calls (params : Params) (handledPrefix : string)
    (restTokens : list string) (w : W) :
  detectPrefix (commandBodyNormalized params) = Some handledPrefix ->
  isAuthorizedSender params = true ->
  parseAction handledPrefix (tokenize handledPrefix (commandBodyNormalized params))
    = Some ("send", false, restTokens) ->
  Forall (fun c => callPasses (@plainSendCall _) c = true)
    (traceOf o (handleSubagentsCommand params true) w).
Proof.
  intros Hprefix Hauth Hparse.
  refine (proj1 (always_run o (@plainSendCall _) _ _ _ w)).
  apply always_handleSubagentsCommand; [by rewrite Hauth|done|].
  intros p a s rest key runs Hp _ Hparse'.
  rewrite Hprefix in Hp. injection Hp as <-.
  rewrite Hparse in Hparse'. injection Hparse' as <- <- <-.
  change (always (@plainSendCall _) handled
            (actionSend params handledPrefix false runs restTokens)).
  unfold actionSend.
  destruct (String.eqb (Js.trim _) "") eqn:Htext;
    [by rewrite orb_true_r|rewrite orb_false_r].
  destruct (negb _); [done|].
  apply always_resolveTarget_bind; [done|]. intros resolved.
  destruct (entry resolved) as [e|]; [|done].
  destruct (Js.truthyNum _); [done|].
  unfold sendActive.
  apply always_seq; [by apply always_loadSubagentSessionEntry|].
  intros [[[? ?] sessionEntry] ?]. cbn [when].
  apply always_seq; [done|]. intros _.
  apply always_seq;
    [apply always_dispatch; first [done|by apply String.eqb_neq]|].
  intros [failure|rid]; [done|]. apply always_awaitReply; allow_calls.
Qed.

(** X4: a steer never waits for the run and never fetches its transcript,
    and it neither writes the session store nor stops subagents. *)
Theorem steer_calls (params : Params) (handledPrefix : string)
    (restTokens : list string) (w : W) :
  detectPrefix (commandBodyNormalized params) = Some handledPrefix ->
  isAuthorizedSender params = true ->
  parseAction handledPrefix (tokenize handledPrefix (commandBodyNormalized params))
    = Some ("send", true, restTokens) ->
  Forall (fun c => callPasses (@steerCall _) c = true)
    (traceOf o (handleSubagentsCommand params true) w).
Proof.
  intros Hprefix Hauth Hparse.
  refine (proj1 (always_run o (@steerCall _) _ _ _ w)).
  apply always_handleSubagentsCommand; [by rewrite Hauth|done|].
  intros p a s rest key runs Hp _ Hparse'.
  rewrite Hprefix in Hp. injection Hp as <-.
  rewrite Hparse in Hparse'. injection Hparse' as <- <- <-.
  change (always (@steerCall _) handled
            (actionSend params handledPrefix true runs restTokens)).
  unfold actionSend.
  destruct (String.eqb (Js.trim _) "") eqn:Htext;
    [by rewrite orb_true_r|rewrite orb_false_r].
  destruct (negb _); [done|].
  apply always_resolveTarget_bind; [done|]. intros resolved.
  destruct (entry resolved) as [e|]; [|done].
  destruct (Js.truthyNum _); [done|].
  unfold sendActive.
  apply always_seq; [by apply always_loadSubagentSessionEntry|].
  intros [[[? ?] sessionEntry] ?]. cbn [when].
  apply always_seq; [by apply always_steerInterrupt|]. intros _.
  apply always_seq;
    [apply always_dispatch; first [done|by apply String.eqb_neq]|].
  intros [failure|rid]; [done|]. by apply always_trigger_bind.
Qed.

(** X5: a stop never talks to the gateway: no dispatch, no wait, no
    transcript fetch, no UUID, and no steer bookkeeping in the registry. *)
Theorem stop_calls (params : Params) (handledPrefix : string)
    (steerRequested : bool) (restTokens : list string) (w : W) :
  detectPrefix (commandBodyNormalized params) = Some handledPrefix ->
  isAuthorizedSender params = true ->
  parseAction handledPrefix (tokenize handledPrefix (commandBodyNormalized params))
    = Some ("stop", steerRequested, restTokens) ->
  Forall (fun c => callPasses (@stopCall _) c = true)
    (traceOf o (handleSubagentsCommand params true) w).
Proof.
  intros Hprefix Hauth Hparse.
  refine (proj1 (always_run o (@stopCall _) _ _ _ w)).
  apply always_handleSubagentsCommand; [by rewrite Hauth|done|].
  intros p a s rest key runs Hp _ Hparse'.
  rewrite Hprefix in Hp. injection Hp as <-.
  rewrite Hparse in Hparse'. injection Hparse' as <- <- <-.
  change (always (@stopCall _) handled
            (actionStop params handledPrefix key runs restTokens)).
  by apply always_actionStop.
Qed.

(** X6: every dispatch to a subagent, from a send or a steer, is made with
    delivery off, on the internal channel and the subagent lane, with a
    non-empty message and a ten-second timeout. *)
Theorem dispatch_request_shape (params : Params) (allowTextCommands : bool)
    (w : W) :
  Forall (fun c => callPasses (@dispatchShape _) c = true)
    (traceOf o (handleSubagentsCommand params allowTextCommands) w).
Proof.
  refine (proj1 (always_run o (@dispatchShape _) _ _ _ w)).
  apply always_handleSubagentsCommand; [done..|]. intros.
  apply always_dispatchAction; allow_calls.
Qed.

(** X7: every transcript fetch, from the log verb or after a send, asks for
    between 1 and 200 messages, and every wait is for thirty seconds with a
    gateway timeout of thirty-two. *)
Theorem history_and_wait_bounds (params : Params) (allowTextCommands : bool)
    (w : W) :
  Forall (fun c => callPasses (@historyShape _) c = true
                   /\ callPasses (@waitShape _) c = true)
    (traceOf o (handleSubagentsCommand params allowTextCommands) w).
Proof.
  apply Forall_and. split.
  - refine (proj1 (always_run o (@historyShape _) _ _ _ w)).
    apply always_handleSubagentsCommand; [done..|]. intros.
    apply always_dispatchAction; allow_calls.
  - refine (proj1 (always_run o (@waitShape _) _ _ _ w)).
    apply always_handleSubagentsCommand; [done..|]. intros.
    apply always_dispatchAction; allow_calls.
Qed.

End VerbCalls.

(** ** Trimming and tokens *)

Section TrimFacts.

Lemma trimStart_shape (s : string) :
  Js.trimStart s = ""
  \/ exists c t, Js.trimStart s = String c t /\ Js.isWhitespace c = false.
Proof.
  induction s as [|c s IH]; [by left|]. cbn [Js.trimStart].
  destruct (Js.isWhitespace c) eqn:Hc; [exact IH|]. right. by exists c, s.
Qed.

Lemma allWhitespace_trimEnd (s : string) :
  Js.allWhitespace (Js.trimEnd s) = Js.allWhitespace s.
Proof.
  induction s as [|c s IH]; [reflexivity|].
  cbn [Js.trimEnd]. destruct (Js.allWhitespace (String c s)) eqn:Hall; [done|].
  cbn [Js.allWhitespace] in *. by rewrite IH.
Qed.

Lemma trimEnd_idem (s : string) : Js.trimEnd (Js.trimEnd s) = Js.trimEnd s.
Proof.
  induction s as [|c s IH]; [reflexivity|].
  cbn [Js.trimEnd]. destruct (Js.allWhitespace (String c s)) eqn:Hall; [done|].
  cbn [Js.trimEnd].
  change (Js.allWhitespace (String c (Js.trimEnd s)))
    with (Js.isWhitespace c && Js.allWhitespace (Js.trimEnd s)).
  rewrite allWhitespace_trimEnd.
  change (Js.isWhitespace c && Js.allWhitespace s)
    with (Js.allWhitespace (String c s)).
  by rewrite Hall, IH.
Qed.

Lemma trim_idem (s : string) : Js.trim (Js.trim s) = Js.trim s.
Proof.
  unfold Js.trim.
  destruct (trimStart_shape s) as [->|(c & t & -> & Hc)]; [reflexivity|].
  assert (Js.allWhitespace (String c t) = false) as Hall
    by (cbn [Js.allWhitespace]; by rewrite Hc).
  assert (Js.trimStart (Js.trimEnd (String c t)) = Js.trimEnd (String c t)) as ->.
  { cbn [Js.trimEnd]. rewrite Hall. cbn [Js.trimStart]. by rewrite Hc. }
  apply trimEnd_idem.
Qed.

Lemma noWhitespace_trimStart (s : string) :
  noWhitespace s = true -> Js.trimStart s = s.
Proof.
  destruct s as [|c s]; [done|]. cbn [noWhitespace Js.trimStart].
  intros [Hc _]%andb_true_iff. by destruct (Js.isWhitespace c).
Qed.

Lemma noWhitespace_trimEnd (s : string) :
  noWhitespace s = true -> Js.trimEnd s = s.
Proof.
  induction s as [|c s IH]; [done|]. cbn [noWhitespace Js.trimEnd Js.allWhitespace].
  intros [Hc Hs]%andb_true_iff. destruct (Js.isWhitespace c); [done|].
  cbn [andb]. by rewrite IH.
Qed.

Lemma noWhitespace_trim (s : string) : noWhitespace s = true -> Js.trim s = s.
Proof.
  intros Hs. unfold Js.trim.
  by rewrite (noWhitespace_trimStart _ Hs), (noWhitespace_trimEnd _ Hs).
Qed.

Lemma noWhitespace_rev_app (s acc : string) :
  noWhitespace s = true -> noWhitespace acc = true ->
  noWhitespace (String.rev_app s acc) = true.
Proof.
  revert acc. induction s as [|c s IH]; intros acc Hs Hacc; [done|].
  cbn [noWhitespace] in Hs. apply andb_true_iff in Hs as [Hc Hs].
  cbn [String.rev_app]. apply IH; [done|]. cbn [noWhitespace]. by rewrite Hc.
Qed.

Lemma rev_app_not_empty (s acc : string) :
  acc <> "" -> String.rev_app s acc <> "".
Proof.
  revert acc. induction s as [|c s IH]; intros acc Hacc; [done|].
  cbn [String.rev_app]. by apply IH.
Qed.

Lemma rev_token (cur : string) :
  cur <> "" -> noWhitespace cur = true -> isToken (String.rev cur).
Proof.
  intros Hne Hcur. split.
  - destruct cur as [|c cur]; [done|]. unfold String.rev.
    cbn [String.rev_app]. by apply rev_app_not_empty.
  - by apply noWhitespace_rev_app.
Qed.

Lemma splitGo_tokens (s : string) :
  forall cur, noWhitespace cur = true ->
  Forall isToken (Js.splitGo cur s).
Proof.
  induction s as [|c s IH]; intros cur Hcur.
  - cbn [Js.splitGo]. destruct (String.eqb cur "") eqn:Hempty; [constructor|].
    constructor; [|constructor]. apply rev_token; [|done].
    by apply String.eqb_neq.
  - cbn [Js.splitGo]. destruct (Js.isWhitespace c) eqn:Hc.
    + apply Forall_app. split; [|by apply IH].
      destruct (String.eqb cur "") eqn:Hempty; [constructor|].
      constructor; [|constructor]. apply rev_token; [|done].
      by apply String.eqb_neq.
    + apply IH. cbn [noWhitespace]. by rewrite Hc.
Qed.

Context `{Helpers}.

Lemma tokenize_tokens (handledPrefix normalized : string) :
  Forall isToken (tokenize handledPrefix normalized).
Proof. by apply splitGo_tokens. Qed.

Lemma parseAction_tokens (handledPrefix : string) (tokens : list string)
    (action : string) (steerRequested : bool) (restTokens : list string) :
  parseAction handledPrefix tokens = Some (action, steerRequested, restTokens) ->
  restTokens = if String.eqb handledPrefix COMMAND then drop 1 tokens else tokens.
Proof.
  unfold parseAction. destruct (String.eqb handledPrefix COMMAND).
  - destruct (negb _); [done|]. cbn beta iota.
    repeat match goal with
           | |- context [if ?c then _ else _] => destruct c
           end; by intros [= _ _ <-].
  - destruct (String.eqb handledPrefix COMMAND_KILL); by intros [= _ _ <-].
Qed.

Lemma parsed_tokens (params : Params) (handledPrefix action : string)
    (steerRequested : bool) (restTokens : list string) (requesterKey : string) :
  commandParses params handledPrefix action steerRequested restTokens
    requesterKey ->
  Forall isToken restTokens.
Proof.
  intros (_ & _ & Hparse & _).
  rewrite (parseAction_tokens _ _ _ _ _ Hparse).
  pose proof (tokenize_tokens handledPrefix (commandBodyNormalized params)) as Ht.
  destruct (String.eqb handledPrefix COMMAND); [|done].
  by apply Forall_drop.
Qed.

(** X8: the words of a command are never blank: every token after the
    verb is non-empty and free of white space, so the resolver's trimming
    leaves a target unchanged and its "Missing subagent id." error cannot
    arise from a command. *)
Theorem parsed_target_is_word (params : Params) (handledPrefix action : string)
    (steerRequested : bool) (restTokens : list string) (requesterKey : string)
    (now : Z) (runs : list SubagentRunRecord) (token : string) :
  commandParses params handledPrefix action steerRequested restTokens
    requesterKey ->
  In token restTokens ->
  token <> ""
  /\ noWhitespace token = true
  /\ Js.trim token = token
  /\ resolveSubagentTarget now runs (Some token)
       <> resolvedError "Missing subagent id.".
Proof.
  intros Hparse Hin.
  pose proof (parsed_tokens _ _ _ _ _ _ Hparse) as Htokens.
  rewrite Forall_forall in Htokens.
  destruct (Htokens token) as [Hne Hword]; [by apply list_elem_of_In|].
  pose proof (noWhitespace_trim _ Hword) as Htrim.
  split; [done|]. split; [done|]. split; [done|].
  unfold resolveSubagentTarget.
  change (default "" (Js.trim <$> Some token)) with (Js.trim token).
  rewrite Htrim, (proj2 (String.eqb_neq _ _) Hne).
  repeat match goal with
         | |- context [if ?c then _ else _] => destruct c
         | |- context [match ?c with Some _ => _ | None => _ end] => destruct c
         end;
    intros Heq; apply (f_equal error) in Heq;
    cbv [error resolvedError resolvedEntry String.append] in Heq; congruence.
Qed.

End TrimFacts.

(** ** Early exits and replies without a target *)

Section EarlyExits.

Context `{Helpers} {W : Type} (o : Oracle W).

(** X9: a command of an unauthorized sender is dropped silently: the only
    call is the verbose log line naming the prefix and the sender id
    ("<unknown>" when the id is absent or empty), the registry is not read
    and the result carries no reply. *)
Theorem unauthorized_sender_ignored (params : Params) (handledPrefix : string)
    (w w1 : W) :
  let sender :=
    match senderId params with
    | Some s => if String.eqb s "" then "<unknown>" else s
    | None => "<unknown>"
    end in
  let line :=
    "Ignoring " ++ handledPrefix ++ " from unauthorized sender: " ++ sender in
  detectPrefix (commandBodyNormalized params) = Some handledPrefix ->
  isAuthorizedSender params = false ->
  o _ (LogVerbose line) w = (tt, w1) ->
  run o (handleSubagentsCommand params true) w =
    ([Called (LogVerbose line) tt],
     Returned (Some {| shouldContinue := false; reply := None |}), w1).
Proof.
  intros sender line Hprefix Hauth Hlog. unfold handleSubagentsCommand.
  cbn [negb]. rewrite Hprefix, Hauth. cbn [negb].
  assert ((if Js.truthyStr (senderId params) then default "" (senderId params)
           else "<unknown>") = sender) as ->.
  { unfold sender. destruct (senderId params) as [s|]; [|reflexivity].
    cbn. by destruct (String.eqb s ""). }
  fold line. by rewrite (run_trigger_bind o _ _ _ _ _ Hlog).
Qed.

(** X10: when neither the session key of the command nor the target session
    key of the context yields a requester key, every verb is answered with
    "Missing session key." and no collaborator is called. *)
Theorem missing_session_key (params : Params) (handledPrefix action : string)
    (steerRequested : bool) (restTokens : list string) (w : W) :
  detectPrefix (commandBodyNormalized params) = Some handledPrefix ->
  isAuthorizedSender params = true ->
  parseAction handledPrefix (tokenize handledPrefix (commandBodyNormalized params))
    = Some (action, steerRequested, restTokens) ->
  default "" (Js.trim <$> paramsSessionKey params) = "" ->
  default "" (Js.trim <$> CommandTargetSessionKey params) = "" ->
  run o (handleSubagentsCommand params true) w =
    ([], Returned (replyWith "⚠️ Missing session key."), w).
Proof.
  intros Hprefix Hauth Hparse Hown Hctx. unfold handleSubagentsCommand.
  cbn [negb]. rewrite Hprefix, Hauth. cbn [negb]. rewrite Hparse.
  unfold resolveRequesterSessionKey. by rewrite Hown, Hctx.
Qed.

(** X11: [stop all] and [stop *] make one wholesale stop for the requester's
    own session key right after the registry listing; no target is resolved
    and the result carries no reply. *)
Theorem stop_all_requester_wide (params : Params) (handledPrefix : string)
    (steerRequested : bool) (target : string) (rest : list string)
    (requesterKey : string) (runs : list SubagentRunRecord) (w w1 w2 : W) :
  commandParses params handledPrefix "stop" steerRequested (target :: rest)
    requesterKey ->
  target = "all" \/ target = "*" ->
  o _ (ListSubagentRunsForRequester requesterKey) w = (runs, w1) ->
  o _ (StopSubagentsForRequester (cfg params) requesterKey) w1 = (tt, w2) ->
  run o (handleSubagentsCommand params true) w =
    ([Called (ListSubagentRunsForRequester requesterKey) runs;
      Called (StopSubagentsForRequester (cfg params) requesterKey) tt],
     Returned (Some {| shouldContinue := false; reply := None |}), w2).
Proof.
  intros Hparse Htarget Hruns Hstop.
  rewrite (run_handleSubagentsCommand o _ _ _ _ _ _ _ _ _ Hparse Hruns).
  change (dispatchAction params handledPrefix "stop" steerRequested requesterKey
            runs (target :: rest))
    with (actionStop params handledPrefix requesterKey runs (target :: rest)).
  unfold actionStop. change ((target :: rest) !! 0%nat) with (Some target).
  destruct Htarget as [-> | ->]; cbn [Js.truthyStr String.eqb Ascii.eqb Bool.eqb
                                       negb orb default from_option id];
    by rewrite (run_trigger_bind o _ _ _ _ _ Hstop).
Qed.

(** X12: a verb that needs a target and gets none replies with its usage
    line after the registry listing and calls nothing else; so does a send or
    steer whose message is empty.  The usage line of stop names [/kill] when
    the command came through that prefix, and the one of a steer names the
    prefix used. *)
Theorem usage_replies (params : Params) (handledPrefix action : string)
    (steerRequested : bool) (restTokens : list string) (requesterKey : string)
    (runs : list SubagentRunRecord) (w w1 : W) :
  commandParses params handledPrefix action steerRequested restTokens
    requesterKey ->
  o _ (ListSubagentRunsForRequester requesterKey) w = (runs, w1) ->
  restTokens = []
  \/ (action = "send" /\ Js.trim (Js.join " " (drop 1 restTokens)) = "") ->
  let usage :=
    if String.eqb action "stop" then
      if String.eqb handledPrefix "/subagents"
      then "Usage: /subagents stop <id|#|all>" else "Usage: /kill <id|#|all>"
    else if String.eqb action "info" then "ℹ️ Usage: /subagents info <id|#>"
    else if String.eqb action "log" then "📜 Usage: /subagents log <id|#> [limit]"
    else if steerRequested then
      if String.eqb handledPrefix "/subagents"
      then "Usage: /subagents steer <id|#> <message>"
      else "Usage: " ++ handledPrefix ++ " <id|#> <message>"
    else "Usage: /subagents send <id|#> <message>" in
  In action ["stop"; "info"; "log"; "send"] ->
  run o (handleSubagentsCommand params true) w =
    ([Called (ListSubagentRunsForRequester requesterKey) runs],
     Returned (replyWith usage), w1).
Proof.
  intros Hparse Hruns Hmissing usage Haction.
  rewrite (run_handleSubagentsCommand o _ _ _ _ _ _ _ _ _ Hparse Hruns).
  cbn [In] in Haction.
  destruct Haction as [<-|[<-|[<-|[<-|[]]]]];
    (destruct Hmissing as [->|[Hsend Htext]]; [|try discriminate Hsend]).
  - reflexivity.
  - reflexivity.
  - reflexivity.
  - reflexivity.
  - change (dispatchAction params handledPrefix "send" steerRequested requesterKey
              runs restTokens)
      with (actionSend params handledPrefix steerRequested runs restTokens).
    unfold actionSend. rewrite Htext. cbn [String.eqb]. by rewrite orb_true_r.
Qed.

End EarlyExits.

(** ** Targets that do not resolve to a running run *)

Section TargetFacts.

Context `{Helpers} {W : Type} (o : Oracle W).

(** X13: when the target of stop, info, log or send resolves to no run, the
    reply is the warning sign followed by the resolver's error text
    ("Unknown subagent." when there is none), and the only calls made are the
    registry listing and the clock read of the resolver. *)
Theorem unresolved_target_reply (params : Params) (handledPrefix action : string)
    (steerRequested : bool) (target : string) (rest : list string)
    (requesterKey : string) (runs : list SubagentRunRecord) (now : Z)
    (w w1 w2 : W) :
  let resolved := resolveSubagentTarget now runs (Some target) in
  commandParses params handledPrefix action steerRequested (target :: rest)
    requesterKey ->
  In action ["stop"; "info"; "log"; "send"] ->
  (action = "stop" -> target <> "all" /\ target <> "*") ->
  (action = "send" -> Js.trim (Js.join " " rest) <> "") ->
  o _ (ListSubagentRunsForRequester requesterKey) w = (runs, w1) ->
  clockRead o target w1 now w2 ->
  entry resolved = None ->
  run o (handleSubagentsCommand params true) w =
    (Called (ListSubagentRunsForRequester requesterKey) runs
       :: clockCalls target now,
     Returned (replyWith ("⚠️ " ++ default "Unknown subagent." (error resolved))),
     w2).
Proof.
  intros resolved Hparse Haction Hstop Hsend Hruns Hnow Hnone.
  rewrite (run_handleSubagentsCommand o _ _ _ _ _ _ _ _ _ Hparse Hruns).
  assert (Js.truthyStr (Some target) = true) as Htruthy.
  { pose proof (parsed_tokens _ _ _ _ _ _ Hparse) as Htokens.
    apply Forall_cons in Htokens as [[Htarget _] _].
    cbn. by rewrite (proj2 (String.eqb_neq _ _) Htarget). }
  assert (forall f : SubagentTargetResolution -> Prog (option CommandResult),
            (forall r, entry r = None -> f r = Ret (unresolvedReply r)) ->
            consCall (Called (ListSubagentRunsForRequester requesterKey) runs)
              (run o (resolveTarget runs target ≫= f) w1) =
            (Called (ListSubagentRunsForRequester requesterKey) runs
               :: clockCalls target now,
             Returned (unresolvedReply resolved), w2)) as Hres.
  { intros f Hf. rewrite (run_resolveTarget_bind o _ _ _ _ _ _ Hnow).
    fold resolved. rewrite (Hf _ Hnone). cbn [run prependCalls consCall].
    by rewrite app_nil_r. }
  cbn [In] in Haction.
  destruct Haction as [<-|[<-|[<-|[<-|[]]]]].
  - destruct (Hstop eq_refl) as [Hall Hstar].
    change (dispatchAction params handledPrefix "stop" steerRequested requesterKey
              runs (target :: rest))
      with (actionStop params handledPrefix requesterKey runs (target :: rest)).
    unfold actionStop. change ((target :: rest) !! 0%nat) with (Some target).
    rewrite Htruthy. cbn [negb default from_option id].
    rewrite (proj2 (String.eqb_neq _ _) Hall), (proj2 (String.eqb_neq _ _) Hstar).
    cbn [orb]. apply Hres. by intros r ->.
  - change (dispatchAction params handledPrefix "info" steerRequested requesterKey
              runs (target :: rest))
      with (actionInfo params runs (target :: rest)).
    unfold actionInfo. change ((target :: rest) !! 0%nat) with (Some target).
    rewrite Htruthy. cbn [negb default from_option id].
    apply Hres. by intros r ->.
  - change (dispatchAction params handledPrefix "log" steerRequested requesterKey
              runs (target :: rest))
      with (actionLog params runs (target :: rest)).
    unfold actionLog. change ((target :: rest) !! 0%nat) with (Some target).
    rewrite Htruthy. cbn [negb default from_option id].
    apply Hres. by intros r ->.
  - change (dispatchAction params handledPrefix "send" steerRequested requesterKey
              runs (target :: rest))
      with (actionSend params handledPrefix steerRequested runs (target :: rest)).
    unfold actionSend. change ((target :: rest) !! 0%nat) with (Some target).
    change (drop 1 (target :: rest)) with rest.
    rewrite Htruthy, (proj2 (String.eqb_neq _ _) (Hsend eq_refl)).
    cbn [negb orb default from_option id].
    apply Hres. by intros r ->.
Qed.

(** X14: a send or a steer whose target resolves to a run with a set
    [endedAt] replies "<label> is already finished." after the registry
    listing and the clock read of the resolver: nothing is marked, aborted,
    cleared or dispatched, and the session store is not loaded. *)
Theorem send_already_finished (params : Params) (handledPrefix : string)
    (steerRequested : bool) (target : string) (rest : list string)
    (requesterKey : string) (runs : list SubagentRunRecord) (now : Z)
    (e : SubagentRunRecord) (w w1 w2 : W) :
  commandParses params handledPrefix "send" steerRequested (target :: rest)
    requesterKey ->
  Js.trim (Js.join " " rest) <> "" ->
  o _ (ListSubagentRunsForRequester requesterKey) w = (runs, w1) ->
  clockRead o target w1 now w2 ->
  entry (resolveSubagentTarget now runs (Some target)) = Some e ->
  Js.truthyNum (endedAt e) = true ->
  run o (handleSubagentsCommand params true) w =
    (Called (ListSubagentRunsForRequester requesterKey) runs
       :: clockCalls target now,
     Returned (replyWith (formatRunLabel e None ++ " is already finished.")),
     w2).
Proof.
  intros Hparse Htext Hruns Hnow He Hended.
  rewrite (run_send_resolved o _ _ _ _ _ _ _ _ _ _ _ _ Hparse Htext Hruns Hnow He).
  rewrite Hended. cbn [run prependCalls consCall]. by rewrite app_nil_r.
Qed.

(** X15: when the dispatch of a plain send is rejected, the reply is
    "send failed: " followed by the message of the error (the string itself
    when a string was thrown, "error" otherwise); the dispatch is the last
    call: nothing waits for a run and no transcript is fetched. *)
Theorem plain_send_dispatch_failure (params : Params) (handledPrefix : string)
    (target : string) (rest : list string) (requesterKey : string)
    (runs : list SubagentRunRecord) (now : Z) (e : SubagentRunRecord)
    (store : gmap string SessionEntry) (uuid : string) (err : Thrown)
    (w w1 w2 w3 w4 w5 : W) :
  let childKey := childSessionKey e in
  let storePath := resolveStorePath (cfg params) childKey in
  let text := Js.trim (Js.join " " rest) in
  let reason :=
    match err with
    | ThrownError m => m
    | ThrownString s => s
    | ThrownOther => "error"
    end in
  commandParses params handledPrefix "send" false (target :: rest) requesterKey ->
  text <> "" ->
  o _ (ListSubagentRunsForRequester requesterKey) w = (runs, w1) ->
  clockRead o target w1 now w2 ->
  entry (resolveSubagentTarget now runs (Some target)) = Some e ->
  Js.truthyNum (endedAt e) = false ->
  o _ (LoadSessionStore storePath) w2 = (store, w3) ->
  o _ RandomUUID w3 = (uuid, w4) ->
  o _ (GatewayAgent (agentRequest e text uuid) 10000) w4 = (inl err, w5) ->
  run o (handleSubagentsCommand params true) w =
    (([Called (ListSubagentRunsForRequester requesterKey) runs]
        ++ clockCalls target now
        ++ [Called (LoadSessionStore storePath) store;
            Called RandomUUID uuid;
            Called (GatewayAgent (agentRequest e text uuid) 10000) (inl err)])%list,
     Returned (replyWith ("send failed: " ++ reason)), w5).
Proof.
  intros childKey storePath text reason
    Hparse Htext Hruns Hnow He Hactive Hload Huuid Hagent.
  rewrite (run_send_resolved o _ _ _ _ _ _ _ _ _ _ _ _ Hparse Htext Hruns Hnow He).
  rewrite Hactive. fold text.
  by rewrite (run_sendActive_send o params e text uuid (inl err) store
                w2 w3 w4 w5 Hload Huuid Hagent).
Qed.

(** X16: only the dispatch is guarded.  When the gateway rejects the bounded
    wait of a plain send, or the transcript fetch that follows a wait that
    neither timed out nor failed, the handler itself throws what the gateway
    threw: no reply is produced. *)
Theorem send_gateway_rejection_uncaught (params : Params) (handledPrefix : string)
    (target : string) (rest : list string) (requesterKey : string)
    (runs : list SubagentRunRecord) (now : Z) (e : SubagentRunRecord)
    (store : gmap string SessionEntry) (uuid : string)
    (response : option string) (waitResp : Thrown + WaitResult) (t : Thrown)
    (w w1 w2 w3 w4 w5 w6 w7 : W) :
  let childKey := childSessionKey e in
  let storePath := resolveStorePath (cfg params) childKey in
  let text := Js.trim (Js.join " " rest) in
  let rid := dispatchedRunId uuid response in
  commandParses params handledPrefix "send" false (target :: rest) requesterKey ->
  text <> "" ->
  o _ (ListSubagentRunsForRequester requesterKey) w = (runs, w1) ->
  clockRead o target w1 now w2 ->
  entry (resolveSubagentTarget now runs (Some target)) = Some e ->
  Js.truthyNum (endedAt e) = false ->
  o _ (LoadSessionStore storePath) w2 = (store, w3) ->
  o _ RandomUUID w3 = (uuid, w4) ->
  o _ (GatewayAgent (agentRequest e text uuid) 10000) w4 = (inr response, w5) ->
  o _ (GatewayAgentWait rid 30000 32000) w5 = (waitResp, w6) ->
  waitResp = inl t
  \/ (exists wait,
        waitResp = inr wait
        /\ waitStatus wait <> Some "timeout"
        /\ waitStatus wait <> Some "error"
        /\ o _ (GatewayChatHistory childKey 50) w6 = (inl t, w7)) ->
  outcomeOf o (handleSubagentsCommand params true) w = Threw t.
Proof.
  intros childKey storePath text rid
    Hparse Htext Hruns Hnow He Hactive Hload Huuid Hagent Hwait Hreject.
  unfold outcomeOf.
  rewrite (run_send_resolved o _ _ _ _ _ _ _ _ _ _ _ _ Hparse Htext Hruns Hnow He).
  rewrite Hactive. fold text.
  rewrite (run_sendActive_send o params e text uuid (inr response) store
             w2 w3 w4 w5 Hload Huuid Hagent).
  fold rid.
  destruct (run_awaitReply o e rid waitResp w5 w6 Hwait)
    as (calls & out & w' & Hrun & Hshape).
  rewrite Hrun.
  assert (out = Threw t) as ->.
  { destruct Hreject as [->|(wait & -> & Htimeout & Herror & Hhist)].
    - by destruct Hshape as [_ ->].
    - rewrite (bool_decide_eq_false_2 _ Htimeout) in Hshape.
      rewrite (bool_decide_eq_false_2 _ Herror) in Hshape.
      destruct Hshape as (histResp & Hhist' & _ & ->).
      fold childKey in Hhist'.
      assert (w' = w7 /\ histResp = inl t) as [_ ->]; [|done].
      rewrite Hhist in Hhist'. by injection Hhist' as <- <-. }
  by destruct (clockCalls target now).
Qed.

(** X17: a wait that answers with any status other than "timeout" and
    "error", or with no status at all, is treated as a finished run: the
    transcript of the child session is fetched with limit 50 and the reply is
    the assistant text of its last message after tool messages are stripped,
    or else the acknowledgment naming the label and the short run id. *)
Theorem send_reply_for_other_status (params : Params) (handledPrefix : string)
    (target : string) (rest : list string) (requesterKey : string)
    (runs : list SubagentRunRecord) (now : Z) (e : SubagentRunRecord)
    (store : gmap string SessionEntry) (uuid : string)
    (response : option string) (wait : WaitResult)
    (messages : list ChatMessage) (w w1 w2 w3 w4 w5 w6 w7 : W) :
  let childKey := childSessionKey e in
  let storePath := resolveStorePath (cfg params) childKey in
  let text := Js.trim (Js.join " " rest) in
  let rid := dispatchedRunId uuid response in
  let extracted := last (stripToolMessages messages) ≫= extractAssistantText in
  commandParses params handledPrefix "send" false (target :: rest) requesterKey ->
  text <> "" ->
  o _ (ListSubagentRunsForRequester requesterKey) w = (runs, w1) ->
  clockRead o target w1 now w2 ->
  entry (resolveSubagentTarget now runs (Some target)) = Some e ->
  Js.truthyNum (endedAt e) = false ->
  o _ (LoadSessionStore storePath) w2 = (store, w3) ->
  o _ RandomUUID w3 = (uuid, w4) ->
  o _ (GatewayAgent (agentRequest e text uuid) 10000) w4 = (inr response, w5) ->
  o _ (GatewayAgentWait rid 30000 32000) w5 = (inr wait, w6) ->
  waitStatus wait <> Some "timeout" ->
  waitStatus wait <> Some "error" ->
  o _ (GatewayChatHistory childKey 50) w6 = (inr messages, w7) ->
  outcomeOf o (handleSubagentsCommand params true) w =
    Returned
      (replyWith
         (default ("✅ Sent to " ++ formatRunLabel e None
                     ++ " (run " ++ Js.sliceTo 8 rid ++ ").") extracted))
  /\ last (traceOf o (handleSubagentsCommand params true) w) =
       Some (Called (GatewayChatHistory childKey 50) (inr messages)).
Proof.
  intros childKey storePath text rid extracted Hparse Htext Hruns Hnow He
    Hactive Hload Huuid Hagent Hwait Htimeout Herror Hhist.
  unfold outcomeOf, traceOf.
  rewrite (run_send_resolved o _ _ _ _ _ _ _ _ _ _ _ _ Hparse Htext Hruns Hnow He).
  rewrite Hactive. fold text.
  rewrite (run_sendActive_send o params e text uuid (inr response) store
             w2 w3 w4 w5 Hload Huuid Hagent).
  fold rid.
  destruct (run_awaitReply o e rid (inr wait) w5 w6 Hwait)
    as (calls & out & w' & Hrun & Hshape).
  rewrite (bool_decide_eq_false_2 _ Htimeout) in Hshape.
  rewrite (bool_decide_eq_false_2 _ Herror) in Hshape.
  destruct Hshape as (histResp & Hhist' & -> & ->).
  fold childKey in Hhist'. rewrite Hhist in Hhist'. injection Hhist' as <- <-.
  rewrite Hrun. cbn [prependCalls consCall fst snd]. split; [reflexivity|].
  unfold clockCalls. by destruct (readsClock target).
Qed.

End TargetFacts.

(** ** The list verb and the session stores *)

Section ListLoads.

Context `{Helpers} {W : Type} (o : Oracle W).

(** The lines of [entries] load a store only when its path is not cached,
    and leave it cached. *)
Lemma run_listLines_loads (params : Params) (runtimeMs : SubagentRunRecord -> Z)
    (entries : list SubagentRunRecord) :
  forall (index : N) (storeCache : gmap string (gmap string SessionEntry)) (w : W),
  exists calls lines index' storeCache' w',
    run o (listLines params runtimeMs entries index storeCache) w =
      (calls, Returned (lines, index', storeCache'), w')
    /\ NoDup (loadedPaths calls)
    /\ (forall p, p ∈ loadedPaths calls -> storeCache !! p = None)
    /\ (forall p, p ∈ loadedPaths calls \/ is_Some (storeCache !! p) ->
                  is_Some (storeCache' !! p))
    /\ (forall p, p ∈ loadedPaths calls ->
                  exists e, e ∈ entries
                            /\ p = resolveStorePath (cfg params) (childSessionKey e)).
Proof.
  induction entries as [|e rest IH]; intros index storeCache w.
  - exists [], [], index, storeCache, w. cbn [listLines run].
    split; [done|]. split; [constructor|].
    split; [by intros p Hp; apply elem_of_nil in Hp|].
    split; [by intros p [Hp|Hp]; [apply elem_of_nil in Hp|]|].
    by intros p Hp; apply elem_of_nil in Hp.
  - cbn [listLines]. unfold loadSubagentSessionEntry.
    set (storePath := resolveStorePath (cfg params) (childSessionKey e)).
    cbn [mbind option_bind].
    destruct (storeCache !! storePath) as [store|] eqn:Hcached.
    + rewrite run_ret_bind. cbn [default from_option id].
      destruct (IH (index + 1)%N storeCache w)
        as (calls & lines & index' & cache' & w' & Hrun & Hnodup & Hfresh & Hkept & Hfrom).
      rewrite (run_bind_returned o _ _ _ _ _ _ Hrun). cbn [run].
      rewrite app_nil_r.
      eexists calls, _, index', cache', w'. split; [reflexivity|].
      split; [done|]. split; [done|]. split; [done|].
      intros p Hp. destruct (Hfrom p Hp) as (e' & He' & ->).
      exists e'. split; [by right|done].
    + destruct (o _ (LoadSessionStore storePath) w) as [store w1] eqn:Hload.
      rewrite run_bind_bind, (run_trigger_bind o _ _ _ _ _ Hload), run_ret_bind.
      cbn [fmap option_fmap option_map default from_option id].
      destruct (IH (index + 1)%N (<[storePath := store]> storeCache) w1)
        as (calls & lines & index' & cache' & w' & Hrun & Hnodup & Hfresh & Hkept & Hfrom).
      rewrite (run_bind_returned o _ _ _ _ _ _ Hrun). cbn [run consCall].
      rewrite app_nil_r.
      eexists (_ :: calls), _, index', cache', w'. split; [reflexivity|].
      change (loadedPaths (Called (LoadSessionStore storePath) store :: calls))
        with (storePath :: loadedPaths calls).
      split; [|split; [|split]].
      * constructor; [|done]. intros Hin. apply Hfresh in Hin.
        by rewrite lookup_insert_eq in Hin.
      * intros p [->|Hin]%elem_of_cons; [done|].
        apply Hfresh in Hin. destruct (decide (storePath = p)) as [->|Hne].
        -- by rewrite lookup_insert_eq in Hin.
        -- by rewrite lookup_insert_ne in Hin.
      * intros p Hp. apply Hkept.
        destruct (decide (storePath = p)) as [->|Hne].
        -- right. rewrite lookup_insert_eq. by eexists.
        -- rewrite lookup_insert_ne by done.
           destruct Hp as [[->|Hin]%elem_of_cons|Hsome]; [done|by left|by right].
      * intros p [->|Hin]%elem_of_cons.
        -- exists e. split; [by left|done].
        -- destruct (Hfrom p Hin) as (e' & He' & ->).
           exists e'. split; [by right|done].
Qed.

(** X18: one list command loads every session store at most once, whatever
    the number of runs that live in it: the store paths of its load calls
    are pairwise distinct, and each is the store path of a run it shows. *)
Theorem list_loads_each_store_once (params : Params) (handledPrefix : string)
    (steerRequested : bool) (restTokens : list string) (requesterKey : string)
    (runs : list SubagentRunRecord) (now : Z) (w w0 w1 : W) :
  let paths := loadedPaths (traceOf o (handleSubagentsCommand params true) w) in
  commandParses params handledPrefix "list" steerRequested restTokens requesterKey ->
  o _ (ListSubagentRunsForRequester requesterKey) w = (runs, w0) ->
  o Z DateNow w0 = (now, w1) ->
  NoDup paths
  /\ forall p, p ∈ paths ->
       exists e, e ∈ numericOrder now runs
                 /\ p = resolveStorePath (cfg params) (childSessionKey e).
Proof.
  intros paths Hparse Hruns Hnow. subst paths. unfold traceOf.
  rewrite (run_handleSubagentsCommand o _ _ _ _ _ _ _ _ _ Hparse Hruns).
  change (dispatchAction params handledPrefix "list" steerRequested requesterKey
            runs restTokens)
    with (actionList params runs).
  unfold actionList. rewrite (run_trigger_bind o _ _ _ _ _ Hnow).
  unfold listNumbered. rewrite !run_bind_bind.
  set (active := List.filter isActive (sortSubagentRuns runs)).
  set (recent := List.filter (isRecent (recentCutoffAt now)) (sortSubagentRuns runs)).
  destruct (run_listLines_loads params (activeRuntimeMs now) active 1%N ∅ w1)
    as (calls1 & lines1 & index1 & cache1 & w2
        & Hrun1 & Hnodup1 & _ & Hkept1 & Hfrom1).
  rewrite (run_bind_returned o _ _ _ _ _ _ Hrun1). cbn beta iota.
  rewrite !run_bind_bind.
  destruct (run_listLines_loads params (recentRuntimeMs now) recent index1 cache1 w2)
    as (calls2 & lines2 & index2 & cache2 & w3
        & Hrun2 & Hnodup2 & Hfresh2 & _ & Hfrom2).
  rewrite (run_bind_returned o _ _ _ _ _ _ Hrun2). cbn beta iota.
  rewrite !run_ret_bind. cbn [run consCall fst].
  rewrite app_nil_r.
  change (loadedPaths
            (Called (ListSubagentRunsForRequester requesterKey) runs
               :: Called DateNow now :: (calls1 ++ calls2)%list))
    with (loadedPaths (calls1 ++ calls2)%list).
  unfold loadedPaths. rewrite omap_app. fold (loadedPaths calls1) (loadedPaths calls2).
  split.
  - apply NoDup_app. split; [done|]. split; [|done].
    intros p Hp1 Hp2. apply Hfresh2 in Hp2.
    destruct (Hkept1 p (or_introl Hp1)) as [store Hstore]. congruence.
  - intros p [Hp|Hp]%elem_of_app.
    + destruct (Hfrom1 p Hp) as (e & He & ->). exists e.
      split; [|done]. apply elem_of_app. by left.
    + destruct (Hfrom2 p Hp) as (e & He & ->). exists e.
      split; [|done]. apply elem_of_app. by right.
Qed.

(** X19: when no run is running and none ended within the window, the list
    reply is the two headers each followed by "(none)", and the command reads
    the registry and the clock and loads no session store. *)
Theorem list_nothing_to_show (params : Params) (handledPrefix : string)
    (steerRequested : bool) (restTokens : list string) (requesterKey : string)
    (runs : list SubagentRunRecord) (now : Z) (w w0 w1 : W) :
  commandParses params handledPrefix "list" steerRequested restTokens requesterKey ->
  o _ (ListSubagentRunsForRequester requesterKey) w = (runs, w0) ->
  o Z DateNow w0 = (now, w1) ->
  numericOrder now runs = [] ->
  run o (handleSubagentsCommand params true) w =
    ([Called (ListSubagentRunsForRequester requesterKey) runs; Called DateNow now],
     Returned
       (replyWith
          (Js.join newline
             ["active subagents:"; "(none)"; "recent (last 30m):"; "(none)"])),
     w1).
Proof.
  intros Hparse Hruns Hnow Hnone.
  apply app_eq_nil in Hnone as [Hactive Hrecent].
  rewrite (run_handleSubagentsCommand o _ _ _ _ _ _ _ _ _ Hparse Hruns).
  change (dispatchAction params handledPrefix "list" steerRequested requesterKey
            runs restTokens)
    with (actionList params runs).
  unfold actionList. rewrite (run_trigger_bind o _ _ _ _ _ Hnow).
  unfold listNumbered. rewrite Hactive, Hrecent. reflexivity.
Qed.

End ListLoads.

(** ** The log verb *)

Section LogOutcome.

Context `{Helpers} {W : Type} (o : Oracle W).

(** X20: the log verb fetches the transcript of the resolved run and replies
    with the header naming the run followed by the rendered lines, or by
    "(no messages)" when nothing renders; tool messages are stripped unless
    some token after the verb, the target included, is "tools" in any letter
    case.  A rejected fetch is not caught: the handler throws what the
    gateway threw. *)
Theorem log_outcome (params : Params) (handledPrefix : string)
    (steerRequested : bool) (target : string) (args : list string)
    (requesterKey : string) (runs : list SubagentRunRecord) (now : Z)
    (e : SubagentRunRecord) (histResp : Thrown + list ChatMessage)
    (w w1 w2 w3 : W) :
  let header := "📜 Subagent log: " ++ formatRunLabel e None in
  let withTools :=
    existsb (fun token => String.eqb (Js.toLowerCase token) "tools")
      (target :: args) in
  commandParses params handledPrefix "log" steerRequested (target :: args)
    requesterKey ->
  o _ (ListSubagentRunsForRequester requesterKey) w = (runs, w1) ->
  clockRead o target w1 now w2 ->
  entry (resolveSubagentTarget now runs (Some target)) = Some e ->
  o _ (GatewayChatHistory (childSessionKey e) (logLimit (target :: args))) w2
    = (histResp, w3) ->
  outcomeOf o (handleSubagentsCommand params true) w =
    match histResp with
    | inl t => Threw t
    | inr messages =>
        let lines :=
          formatLogLines
            (if withTools then messages else stripToolMessages messages) in
        Returned
          (replyWith
             match lines with
             | [] => header ++ newline ++ "(no messages)"
             | _ => Js.join newline (header :: lines)
             end)
    end.
Proof.
  intros header withTools Hparse Hruns Hnow He Hhist. unfold outcomeOf.
  rewrite (run_handleSubagentsCommand o _ _ _ _ _ _ _ _ _ Hparse Hruns).
  change (dispatchAction params handledPrefix "log" steerRequested requesterKey
            runs (target :: args))
    with (actionLog params runs (target :: args)).
  unfold actionLog. change ((target :: args) !! 0%nat) with (Some target).
  rewrite (resolved_target_not_empty _ _ _ _ He).
  cbn [negb default from_option id].
  rewrite (run_resolveTarget_bind o _ _ _ _ _ _ Hnow), He.
  unfold callGateway.
  rewrite run_bind_bind, (run_trigger_bind o _ _ _ _ _ Hhist).
  fold header. unfold logIncludeTools. fold withTools.
  destruct histResp as [t|messages].
  - cbn [mbind Prog_mbind Prog_bind run prependCalls consCall snd fst].
    by destruct (clockCalls target now).
  - rewrite run_ret_bind.
    destruct (formatLogLines _) as [|line lines];
      cbn [length Nat.eqb run prependCalls consCall snd fst];
      by destruct (clockCalls target now).
Qed.

End LogOutcome.

(** ** The resolver, rule by rule *)

Section ResolverRules.

Context `{Helpers}.

Lemma everyDigit_no_colon (s : string) :
  Js.everyDigit s = true -> Js.includesColon s = false.
Proof.
  induction s as [|c s IH]; [done|]. cbn [Js.everyDigit Js.includesColon].
  intros [Hc Hs]%andb_true_iff. rewrite (IH Hs), orb_false_r.
  unfold Js.isDigit in Hc. apply andb_true_iff in Hc as [_ Hc].
  apply Nat.leb_le in Hc. apply Nat.eqb_neq. lia.
Qed.

Lemma includesColon_facts (s : string) :
  Js.includesColon s = true ->
  s <> "" /\ s <> "last" /\ Js.allDigits s = false.
Proof.
  intros Hc. split; [by intros ->|]. split; [by intros ->|].
  destruct (Js.allDigits s) eqn:Hd; [|done].
  destruct s as [|c s]; [done|].
  by rewrite (everyDigit_no_colon _ Hd) in Hc.
Qed.

Lemma prefix_refl (s : string) : String.prefix s s = true.
Proof.
  induction s as [|c s IH]; [done|]. cbn [String.prefix].
  by destruct (ascii_dec c c).
Qed.

Lemma labelEquals_startsWith (lowered : string) (e : SubagentRunRecord) :
  labelEquals lowered e = true -> labelStartsWith lowered e = true.
Proof.
  unfold labelEquals, labelStartsWith, Js.startsWith.
  intros ->%String.eqb_eq. apply prefix_refl.
Qed.

Lemma filter_nil_false {A : Type} (f : A -> bool) (l : list A) :
  List.filter f l = [] <-> forall x, In x l -> f x = false.
Proof.
  induction l as [|a l IH]; [done|]. cbn [List.filter In]. split.
  - destruct (f a) eqn:Hfa; [done|]. intros Hnil x [<-|Hx]; [done|].
    by apply IH.
  - intros Hall. rewrite (Hall a (or_introl eq_refl)). apply IH.
    intros x Hx. apply Hall. by right.
Qed.

Lemma filter_head_In {A : Type} (f : A -> bool) (l : list A) (x : A) :
  List.filter f l !! 0%nat = Some x -> In x l /\ f x = true.
Proof.
  intros Hx. apply list_elem_of_lookup_2, list_elem_of_In in Hx.
  by apply List.filter_In in Hx.
Qed.

Lemma length_neither (A : Type) (l : list A) :
  (length l =? 1)%nat = false -> (1 <? length l)%nat = false -> l = [].
Proof.
  destruct l as [|a [|b l]]; [done|done|]. intros _ Hlt. discriminate Hlt.
Qed.

(** X21: white space around a target does not matter: the resolver gives
    the same result for a token and for the token trimmed. *)
Theorem resolve_trim_invariant (now : Z) (runs : list SubagentRunRecord)
    (token : string) :
  resolveSubagentTarget now runs (Some token) =
    resolveSubagentTarget now runs (Some (Js.trim token)).
Proof.
  unfold resolveSubagentTarget.
  change (default "" (Js.trim <$> Some token)) with (Js.trim token).
  change (default "" (Js.trim <$> Some (Js.trim token)))
    with (Js.trim (Js.trim token)).
  by rewrite trim_idem.
Qed.

(** X22: a target that contains a colon is always taken as a full session
    key: it resolves to a run of the snapshot whose child session key equals
    the trimmed token, compared exactly, and when the snapshot has no such
    run the result is the error "Unknown subagent session: <token>"; labels
    and run ids are not consulted. *)
Theorem session_key_resolution (now : Z) (runs : list SubagentRunRecord)
    (token : string) :
  Js.includesColon (Js.trim token) = true ->
  let t := Js.trim token in
  let r := resolveSubagentTarget now runs (Some token) in
  ((exists e, In e runs /\ childSessionKey e = t) ->
   exists m, r = resolvedEntry (Some m) /\ In m runs /\ childSessionKey m = t)
  /\ ((forall e, In e runs -> childSessionKey e <> t) ->
      r = resolvedError ("Unknown subagent session: " ++ t)).
Proof.
  intros Hc t r.
  destruct (includesColon_facts _ Hc) as (Hne & Hnl & Hd).
  assert (r = match List.find (fun e => String.eqb (childSessionKey e) t) runs with
              | Some m => resolvedEntry (Some m)
              | None => resolvedError ("Unknown subagent session: " ++ t)
              end) as ->.
  { unfold r, resolveSubagentTarget.
    change (default "" (Js.trim <$> Some token)) with t. fold t in Hne, Hnl, Hd, Hc.
    by rewrite (proj2 (String.eqb_neq _ _) Hne), (proj2 (String.eqb_neq _ _) Hnl),
         Hd, Hc. }
  destruct (List.find _ runs) as [m|] eqn:Hfind.
  - apply List.find_some in Hfind as [Hin Hkey]. apply String.eqb_eq in Hkey.
    split; [by exists m|]. intros Hnone. by destruct (Hnone m Hin).
  - split; [|done]. intros (e & Hin & Hkey).
    pose proof (List.find_none _ _ Hfind e Hin) as Hno. cbn beta in Hno.
    apply String.eqb_neq in Hno. done.
Qed.

(** X23: a list index never reaches a run that the list does not show: the
    run a numeric target resolves to is running or ended within the last
    thirty minutes, and it comes from the sorted snapshot. *)
Theorem index_resolves_to_listed_run (now : Z) (runs : list SubagentRunRecord)
    (token : string) (e : SubagentRunRecord) :
  Js.allDigits (Js.trim token) = true ->
  entry (resolveSubagentTarget now runs (Some token)) = Some e ->
  In e (sortSubagentRuns runs)
  /\ (endedAt e = None \/ endedAt e = Some 0
      \/ exists ended, endedAt e = Some ended /\ now - 1800000 <= ended).
Proof.
  intros Hd He. rewrite (resolve_digits now runs token Hd) in He.
  cbn zeta in He. destruct (_ || _); [discriminate He|].
  cbn [entry resolvedEntry] in He.
  apply list_elem_of_lookup_2, list_elem_of_In in He.
  unfold numericOrder in He. apply List.in_app_iff in He as [Ha|Hr].
  - apply List.filter_In in Ha as [Hin Hactive]. split; [done|].
    unfold isActive, Js.truthyNum in Hactive.
    destruct (endedAt e) as [ended|]; [|by left]. right. left.
    apply negb_true_iff, negb_false_iff, Z.eqb_eq in Hactive. by subst.
  - apply List.filter_In in Hr as [Hin Hrecent]. split; [done|].
    unfold isRecent, recentCutoffAt, RECENT_WINDOW_MINUTES in Hrecent.
    apply andb_true_iff in Hrecent as [Hended Hcut].
    destruct (endedAt e) as [ended|]; [|discriminate Hended].
    right. right. exists ended. split; [done|].
    cbn [default from_option id] in Hcut. apply Z.leb_le in Hcut. lia.
Qed.

(** X24: for a target that reaches the name rules (not blank, not "last",
    not a number, no colon), the run returned is a run of the snapshot whose
    lowercased label or whose run id starts with the token, and the error
    "Unknown subagent id: <token>" is the result exactly when no run of the
    snapshot matches in either way. *)
Theorem name_resolution_sound_complete (now : Z) (runs : list SubagentRunRecord)
    (token : string) :
  Js.trim token <> "" ->
  Js.trim token <> "last" ->
  Js.allDigits (Js.trim token) = false ->
  Js.includesColon (Js.trim token) = false ->
  let t := Js.trim token in
  let lowered := Js.toLowerCase t in
  let r := resolveSubagentTarget now runs (Some token) in
  (forall e,
     entry r = Some e ->
     In e runs
     /\ (Js.startsWith (Js.toLowerCase (formatRunLabel e None)) lowered = true
         \/ Js.startsWith (runId e) t = true))
  /\ (r = resolvedError ("Unknown subagent id: " ++ t) <->
      forall e,
        In e runs ->
        Js.startsWith (Js.toLowerCase (formatRunLabel e None)) lowered = false
        /\ Js.startsWith (runId e) t = false).
Proof.
  intros Hne Hnl Hd Hc t lowered r.
  assert (r = _) as Hr by exact (resolve_by_label now runs token Hne Hnl Hd Hc).
  cbn zeta in Hr. fold t lowered in Hr.
  set (byLabel := List.filter (labelEquals lowered) runs) in Hr.
  set (byLabelPrefix := List.filter (labelStartsWith lowered) runs) in Hr.
  set (byRunId := List.filter (runIdStartsWith t) runs) in Hr.
  destruct (length byLabel =? 1)%nat eqn:Hl1.
  { rewrite Hr. split.
    - intros e He. apply filter_head_In in He as [Hin Hm].
      split; [done|]. left. by apply labelEquals_startsWith.
    - split; [intros Heq; apply (f_equal error) in Heq; discriminate Heq|].
      intros Hnone. destruct byLabel as [|x l] eqn:E; [discriminate Hl1|].
      assert (In x runs /\ labelEquals lowered x = true) as [Hin Hm].
      { apply (List.filter_In (labelEquals lowered) x runs).
        fold byLabel. rewrite E. by left. }
      destruct (Hnone x Hin) as [Hp _].
      pose proof (labelEquals_startsWith _ _ Hm) as Hs.
      unfold labelStartsWith in Hs. congruence. }
  destruct (1 <? length byLabel)%nat eqn:Hl2.
  { rewrite Hr. split; [by intros e He|].
    split.
    - intros Heq. apply (f_equal error) in Heq.
      cbv [error resolvedError String.append] in Heq. congruence.
    - intros Hnone. destruct byLabel as [|x l] eqn:E; [discriminate Hl2|].
      assert (In x runs /\ labelEquals lowered x = true) as [Hin Hm].
      { apply (List.filter_In (labelEquals lowered) x runs).
        fold byLabel. rewrite E. by left. }
      destruct (Hnone x Hin) as [Hp _].
      pose proof (labelEquals_startsWith _ _ Hm) as Hs.
      unfold labelStartsWith in Hs. congruence. }
  destruct (length byLabelPrefix =? 1)%nat eqn:Hp1.
  { rewrite Hr. split.
    - intros e He. apply filter_head_In in He as [Hin Hm].
      split; [done|]. by left.
    - split; [intros Heq; apply (f_equal error) in Heq; discriminate Heq|].
      intros Hnone. destruct byLabelPrefix as [|x l] eqn:E; [discriminate Hp1|].
      assert (In x runs /\ labelStartsWith lowered x = true) as [Hin Hm].
      { apply (List.filter_In (labelStartsWith lowered) x runs).
        fold byLabelPrefix. rewrite E. by left. }
      destruct (Hnone x Hin) as [Hp _]. unfold labelStartsWith in Hm. congruence. }
  destruct (1 <? length byLabelPrefix)%nat eqn:Hp2.
  { rewrite Hr. split; [by intros e He|].
    split.
    - intros Heq. apply (f_equal error) in Heq.
      cbv [error resolvedError String.append] in Heq. congruence.
    - intros Hnone. destruct byLabelPrefix as [|x l] eqn:E; [discriminate Hp2|].
      assert (In x runs /\ labelStartsWith lowered x = true) as [Hin Hm].
      { apply (List.filter_In (labelStartsWith lowered) x runs).
        fold byLabelPrefix. rewrite E. by left. }
      destruct (Hnone x Hin) as [Hp _]. unfold labelStartsWith in Hm. congruence. }
  destruct (length byRunId =? 1)%nat eqn:Hr1.
  { rewrite Hr. split.
    - intros e He. apply filter_head_In in He as [Hin Hm].
      split; [done|]. by right.
    - split; [intros Heq; apply (f_equal error) in Heq; discriminate Heq|].
      intros Hnone. destruct byRunId as [|x l] eqn:E; [discriminate Hr1|].
      assert (In x runs /\ runIdStartsWith t x = true) as [Hin Hm].
      { apply (List.filter_In (runIdStartsWith t) x runs).
        fold byRunId. rewrite E. by left. }
      destruct (Hnone x Hin) as [_ Hp]. unfold runIdStartsWith in Hm. congruence. }
  destruct (1 <? length byRunId)%nat eqn:Hr2.
  { rewrite Hr. split; [by intros e He|].
    split.
    - intros Heq. apply (f_equal error) in Heq.
      cbv [error resolvedError String.append] in Heq. congruence.
    - intros Hnone. destruct byRunId as [|x l] eqn:E; [discriminate Hr2|].
      assert (In x runs /\ runIdStartsWith t x = true) as [Hin Hm].
      { apply (List.filter_In (runIdStartsWith t) x runs).
        fold byRunId. rewrite E. by left. }
      destruct (Hnone x Hin) as [_ Hp]. unfold runIdStartsWith in Hm. congruence. }
  rewrite Hr. split; [by intros e He|]. split; [|done]. intros _ e Hin.
  pose proof (length_neither _ _ Hp1 Hp2) as Hnil1.
  pose proof (length_neither _ _ Hr1 Hr2) as Hnil2.
  split.
  - exact (proj1 (filter_nil_false _ _) Hnil1 e Hin).
  - exact (proj1 (filter_nil_false _ _) Hnil2 e Hin).
Qed.

End ResolverRules.

(** ** Verbs *)

Section VerbFacts.

Context `{Helpers}.


End VerbFacts.

(** ** Text of a send and of a list line *)

Section TextFacts.

Context `{Helpers}.

Lemma allWhitespace_app (a b : string) :
  Js.allWhitespace (a ++ b) = Js.allWhitespace a && Js.allWhitespace b.
Proof.
  induction a as [|c a IH]; [done|].
  change (String c a ++ b) with (String c (a ++ b)).
  cbn [Js.allWhitespace]. by rewrite IH, andb_assoc.
Qed.

Lemma trimEnd_app (a b : string) :
  Js.allWhitespace b = false -> Js.trimEnd (a ++ b) = a ++ Js.trimEnd b.
Proof.
  intros Hb. induction a as [|c a IH]; [done|].
  change (String c a ++ b) with (String c (a ++ b)).
  change (String c a ++ Js.trimEnd b) with (String c (a ++ Js.trimEnd b)).
  cbn [Js.trimEnd].
  change (Js.allWhitespace (String c (a ++ b)))
    with (Js.isWhitespace c && Js.allWhitespace (a ++ b)).
  by rewrite allWhitespace_app, Hb, andb_false_r, andb_false_r, IH.
Qed.

Lemma join_tokens (p : string) (rest : list string) :
  isToken p -> Forall isToken rest ->
  exists c s, Js.join " " (p :: rest) = String c s
              /\ Js.isWhitespace c = false
              /\ Js.trimEnd (Js.join " " (p :: rest)) = Js.join " " (p :: rest).
Proof.
  intros Hp Hrest. revert p Hp.
  induction Hrest as [|q rest Hq Hrest IH]; intros p Hp.
  - destruct Hp as [Hne Hword]. cbn [Js.join].
    destruct p as [|c s]; [done|]. exists c, s. split; [done|].
    cbn [noWhitespace] in Hword. pose proof Hword as Hword'.
    apply andb_true_iff in Hword' as [Hc _].
    split; [by destruct (Js.isWhitespace c)|].
    by apply noWhitespace_trimEnd.
  - destruct (IH q Hq) as (c' & s' & Hjoin & Hc' & Htrim).
    change (Js.join " " (p :: q :: rest))
      with (p ++ " " ++ Js.join " " (q :: rest)).
    destruct Hp as [Hne Hword]. destruct p as [|c s]; [done|].
    exists c, (s ++ " " ++ Js.join " " (q :: rest)). split; [done|].
    cbn [noWhitespace] in Hword. apply andb_true_iff in Hword as [Hc _].
    split; [by destruct (Js.isWhitespace c)|].
    assert (Js.allWhitespace (Js.join " " (q :: rest)) = false) as Hall.
    { rewrite Hjoin. cbn [Js.allWhitespace]. by rewrite Hc'. }
    rewrite trimEnd_app; [|by rewrite allWhitespace_app, Hall, andb_false_r].
    f_equal. rewrite (trimEnd_app " " _ Hall). by rewrite Htrim.
Qed.

(** X26: the message of a send or steer is the words after the target
    joined by single spaces: white space between the words of the command,
    line breaks included, is not kept, and the message is empty exactly when
    no word follows the target. *)
Theorem send_message_text (params : Params) (handledPrefix : string)
    (steerRequested : bool) (target : string) (rest : list string)
    (requesterKey : string) :
  commandParses params handledPrefix "send" steerRequested (target :: rest)
    requesterKey ->
  Js.trim (Js.join " " rest) = Js.join " " rest
  /\ Forall (fun word => word <> "" /\ noWhitespace word = true) rest
  /\ (Js.trim (Js.join " " rest) = "" <-> rest = []).
Proof.
  intros Hparse.
  pose proof (parsed_tokens _ _ _ _ _ _ Hparse) as Htokens.
  apply Forall_cons in Htokens as [_ Hrest].
  destruct rest as [|p rest]; [by repeat split|].
  apply Forall_cons in Hrest as [Hp Hrest].
  destruct (join_tokens p rest Hp Hrest) as (c & s & Hjoin & Hc & Htrim).
  assert (Js.trim (Js.join " " (p :: rest)) = Js.join " " (p :: rest)) as Heq.
  { unfold Js.trim.
    assert (Js.trimStart (Js.join " " (p :: rest)) = Js.join " " (p :: rest)) as ->;
      [|done].
    rewrite Hjoin. cbn [Js.trimStart]. by rewrite Hc. }
  split; [done|]. split; [by constructor|].
  rewrite Heq, Hjoin. by split.
Qed.

Lemma length_trimEnd (s : string) :
  (String.length (Js.trimEnd s) <= String.length s)%nat.
Proof.
  induction s as [|c s IH]; [done|]. cbn [Js.trimEnd].
  destruct (Js.allWhitespace (String c s)); cbn [String.length]; lia.
Qed.

Lemma length_sliceTo (n : nat) (s : string) :
  String.length (Js.sliceTo n s) = Nat.min n (String.length s).
Proof.
  unfold Js.sliceTo. revert n.
  induction s as [|c s IH]; intros [|n]; try done.
  cbn [String.substring String.length]. by rewrite IH.
Qed.

Lemma length_append (a b : string) :
  String.length (a ++ b) = (String.length a + String.length b)%nat.
Proof.
  induction a as [|c a IH]; [done|].
  change (String c a ++ b) with (String c (a ++ b)).
  cbn [String.length]. by rewrite IH.
Qed.

Lemma prefix_trimEnd (s : string) : String.prefix (Js.trimEnd s) s = true.
Proof.
  induction s as [|c s IH]; [done|]. cbn [Js.trimEnd].
  destruct (Js.allWhitespace (String c s)); [done|].
  cbn [String.prefix]. by destruct (ascii_dec c c).
Qed.

Lemma prefix_sliceTo (n : nat) (s : string) :
  String.prefix (Js.sliceTo n s) s = true.
Proof.
  unfold Js.sliceTo. revert n.
  induction s as [|c s IH]; intros [|n]; try done.
  cbn [String.substring String.prefix]. by destruct (ascii_dec c c).
Qed.

Lemma prefix_trans (a b c : string) :
  String.prefix a b = true -> String.prefix b c = true ->
  String.prefix a c = true.
Proof.
  revert b c. induction a as [|x a IH]; intros b c Hab Hbc; [by destruct c|].
  destruct b as [|y b]; [done|]. destruct c as [|z c]; [done|].
  cbn [String.prefix] in *.
  destruct (ascii_dec x y) as [->|]; [|done].
  destruct (ascii_dec y z) as [->|]; [|done]. by apply (IH b).
Qed.

(** X27: a label that fits is shown as it is; a longer one is cut to a
    prefix of at most [maxLength] characters with no white space at its end,
    followed by three dots, so a cut label is at most [maxLength + 3]
    characters long. *)
Theorem truncateLine_shape (value : string) (maxLength : nat) :
  ((String.length value <= maxLength)%nat -> truncateLine value maxLength = value)
  /\ ((maxLength < String.length value)%nat ->
      exists head,
        truncateLine value maxLength = head ++ "..."
        /\ Js.startsWith value head = true
        /\ (String.length head <= maxLength)%nat
        /\ Js.trimEnd head = head)
  /\ (String.length (truncateLine value maxLength)
        <= Nat.max (String.length value) (maxLength + 3))%nat.
Proof.
  unfold truncateLine. split; [|split].
  - intros Hfit. by rewrite (proj2 (Nat.leb_le _ _) Hfit).
  - intros Hlong. rewrite (proj2 (Nat.leb_gt _ _) Hlong).
    exists (Js.trimEnd (Js.sliceTo maxLength value)).
    split; [done|]. split; [|split].
    + unfold Js.startsWith.
      exact (prefix_trans _ _ _ (prefix_trimEnd _) (prefix_sliceTo _ _)).
    + pose proof (length_trimEnd (Js.sliceTo maxLength value)) as Hle.
      rewrite length_sliceTo in Hle. lia.
    + apply trimEnd_idem.
  - destruct (String.length value <=? maxLength)%nat eqn:Hfit; [lia|].
    rewrite length_append.
    pose proof (length_trimEnd (Js.sliceTo maxLength value)) as Hle.
    rewrite length_sliceTo in Hle. cbn [String.length]. lia.
Qed.

End TextFacts.

(** ** Display helpers *)

Section DisplayFacts.

Lemma collapsed_collapseWhitespace (inRun : bool) (s : string) :
  collapsed inRun (Js.collapseWhitespace inRun s) = true.
Proof.
  revert inRun. induction s as [|c s IH]; intros inRun; [done|].
  cbn [Js.collapseWhitespace]. destruct (Js.isWhitespace c) eqn:Hc.
  - destruct inRun; [apply IH|]. cbn [collapsed].
    change (Js.isWhitespace " ") with true. cbn. apply IH.
  - cbn [collapsed]. rewrite Hc. apply IH.
Qed.

Lemma collapseWhitespace_fixed (inRun : bool) (s : string) :
  collapsed inRun s = true -> Js.collapseWhitespace inRun s = s.
Proof.
  revert inRun. induction s as [|c s IH]; intros inRun; [done|].
  cbn [collapsed Js.collapseWhitespace]. destruct (Js.isWhitespace c).
  - intros [[Hrun Hspace]%andb_true_iff Hs]%andb_true_iff.
    apply negb_true_iff in Hrun as ->. apply Nat.eqb_eq in Hspace.
    rewrite (IH true Hs). f_equal.
    rewrite <- (ascii_nat_embedding c), Hspace. reflexivity.
  - intros Hs. by rewrite (IH false Hs).
Qed.

Lemma collapsed_trimStart (afterSpace : bool) (s : string) :
  collapsed afterSpace s = true -> collapsed false (Js.trimStart s) = true.
Proof.
  revert afterSpace. induction s as [|c s IH]; intros afterSpace; [done|].
  cbn [Js.trimStart]. destruct (Js.isWhitespace c) eqn:Hc.
  - cbn [collapsed]. rewrite Hc.
    intros [_ Hs]%andb_true_iff. by apply (IH true).
  - cbn [collapsed]. by rewrite Hc.
Qed.

Lemma collapsed_trimEnd (afterSpace : bool) (s : string) :
  collapsed afterSpace s = true -> collapsed afterSpace (Js.trimEnd s) = true.
Proof.
  revert afterSpace. induction s as [|c s IH]; intros afterSpace; [done|].
  cbn [Js.trimEnd]. destruct (Js.allWhitespace (String c s)); [done|].
  cbn [collapsed]. destruct (Js.isWhitespace c).
  - intros [Hhead Hs]%andb_true_iff. by rewrite Hhead, (IH true Hs).
  - apply IH.
Qed.

Lemma collapsed_compact (s : string) :
  collapsed false (Js.trim (Js.collapseWhitespace false s)) = true.
Proof.
  unfold Js.trim. apply collapsed_trimEnd.
  apply (collapsed_trimStart false), collapsed_collapseWhitespace.
Qed.

Context `{Helpers}.

(** X28: the task shown on a list line is in one line: [compactLine] gives
    a text without white space at either end, whose only white space is
    single spaces between words (no tab, no line break, no two in a row), and
    applying it again changes nothing. *)
Theorem compactLine_normal_form (value : string) :
  let shown := compactLine value in
  Js.trim shown = shown
  /\ collapsed false shown = true
  /\ compactLine shown = shown.
Proof.
  cbn zeta. unfold compactLine.
  pose proof (collapsed_compact value) as Hc.
  split; [apply trim_idem|]. split; [done|].
  by rewrite (collapseWhitespace_fixed false _ Hc), trim_idem.
Qed.

Lemma lastIndexOfSlash_lt (s : string) (i : nat) :
  Display.lastIndexOfSlash s = Some i -> (i < String.length s)%nat.
Proof.
  revert i. induction s as [|c s IH]; intros i; [done|].
  cbn [Display.lastIndexOfSlash String.length].
  destruct (Display.lastIndexOfSlash s) as [j|].
  - intros [= <-]. specialize (IH j eq_refl). lia.
  - destruct (nat_of_ascii c =? 47)%nat; [|done]. intros [= <-]. lia.
Qed.

Lemma lastIndexOfSlash_sliceFrom (s : string) (i : nat) :
  Display.lastIndexOfSlash s = Some i ->
  Display.lastIndexOfSlash (Js.sliceFrom (S i) s) = None.
Proof.
  revert i. induction s as [|c s IH]; intros i; [done|].
  cbn [Display.lastIndexOfSlash].
  destruct (Display.lastIndexOfSlash s) as [j|] eqn:Hs.
  - intros [= <-]. change (Js.sliceFrom (S (S j)) (String c s))
      with (Js.sliceFrom (S j) s). by apply IH.
  - destruct (nat_of_ascii c =? 47)%nat; [|done]. by intros [= <-].
Qed.

Lemma length_sliceFrom (n : nat) (s : string) :
  String.length (Js.sliceFrom n s) = (String.length s - n)%nat.
Proof.
  revert s. induction n as [|n IH]; intros s; [cbn; lia|].
  destruct s as [|c s]; [done|]. cbn [Js.sliceFrom String.length]. apply IH.
Qed.

Lemma includesSlash_append (pre seg : string) :
  Display.includesSlash (pre ++ "/" ++ seg) = true.
Proof.
  induction pre as [|c pre IH]; [done|].
  change (String c pre ++ "/" ++ seg) with (String c (pre ++ "/" ++ seg)).
  cbn [Display.includesSlash]. by rewrite IH, orb_true_r.
Qed.

Lemma lastIndexOfSlash_none (s : string) :
  Display.includesSlash s = false -> Display.lastIndexOfSlash s = None.
Proof.
  induction s as [|c s IH]; [done|].
  cbn [Display.includesSlash Display.lastIndexOfSlash].
  intros [Hc Hs]%orb_false_iff. by rewrite (IH Hs), Hc.
Qed.

Lemma lastIndexOfSlash_append (pre seg : string) :
  Display.includesSlash seg = false ->
  Display.lastIndexOfSlash (pre ++ "/" ++ seg) = Some (String.length pre).
Proof.
  intros Hseg. induction pre as [|c pre IH].
  - change ("" ++ "/" ++ seg) with (String "/" seg).
    cbn [Display.lastIndexOfSlash]. by rewrite (lastIndexOfSlash_none _ Hseg).
  - change (String c pre ++ "/" ++ seg) with (String c (pre ++ "/" ++ seg)).
    cbn [Display.lastIndexOfSlash String.length]. by rewrite IH.
Qed.

Lemma sliceFrom_append (pre seg : string) :
  Js.sliceFrom (S (String.length pre)) (pre ++ "/" ++ seg) = seg.
Proof. induction pre as [|c pre IH]; [done|]. exact IH. Qed.

Lemma combine_empty (model provider : string) :
  String.eqb (Display.combine model provider) "" = String.eqb model "".
Proof.
  unfold Display.combine. destruct (Display.includesSlash model); [done|].
  destruct model as [|c model]; [done|].
  by destruct provider as [|d provider].
Qed.

(** What is shown of a name: the part after its last slash, or all of it
    when it has no slash or ends with one.  [combined] is the name, or the
    name behind a provider and a slash when the name has no slash. *)
Lemma shown_of_name (combined name : string) :
  name <> "" ->
  combined = name
  \/ (Display.includesSlash name = false
      /\ exists provider, combined = provider ++ "/" ++ name) ->
  let shown :=
    match Display.lastIndexOfSlash combined with
    | Some slash =>
        if (slash <? String.length combined - 1)%nat
        then Js.sliceFrom (S slash) combined
        else combined
    | None => combined
    end in
  (Display.includesSlash name = false -> shown = name)
  /\ (forall pre seg,
        name = pre ++ "/" ++ seg ->
        Display.includesSlash seg = false ->
        shown = if String.eqb seg "" then name else seg).
Proof.
  intros Hne Hcombined shown. subst shown.
  assert (forall pre seg,
            Display.includesSlash seg = false ->
            match Display.lastIndexOfSlash (pre ++ "/" ++ seg) with
            | Some slash =>
                if (slash <? String.length (pre ++ "/" ++ seg) - 1)%nat
                then Js.sliceFrom (S slash) (pre ++ "/" ++ seg)
                else pre ++ "/" ++ seg
            | None => pre ++ "/" ++ seg
            end = if String.eqb seg "" then pre ++ "/" ++ seg else seg) as Hcut.
  { intros pre seg Hseg. rewrite (lastIndexOfSlash_append _ _ Hseg).
    rewrite !length_append. cbn [String.length].
    destruct seg as [|c seg].
    - rewrite (proj2 (Nat.ltb_ge _ _)); [done|cbn [String.length]; lia].
    - rewrite (proj2 (Nat.ltb_lt _ _)); [|cbn [String.length]; lia].
      apply sliceFrom_append. }
  destruct Hcombined as [->|(Hplain & provider & ->)]; split.
  - intros Hplain. by rewrite (lastIndexOfSlash_none _ Hplain).
  - intros pre seg -> Hseg. by apply Hcut.
  - intros _. rewrite (Hcut provider name Hplain).
    by rewrite (proj2 (String.eqb_neq _ _) Hne).
  - intros pre seg -> Hseg. by rewrite includesSlash_append in Hplain.
Qed.

Lemma combine_name (model provider : string) :
  Display.combine model provider = model
  \/ (Display.includesSlash model = false
      /\ exists p, Display.combine model provider = p ++ "/" ++ model).
Proof.
  unfold Display.combine. destruct (Display.includesSlash model); [by left|].
  destruct (negb _ && negb _); [|by left]. right. split; [done|]. by eexists.
Qed.

(** X29: [resolveModelDisplay] never gives an empty text.  The name it
    shows is the first that is not blank among the model of the session entry,
    its model override and the fallback model, each trimmed; the provider
    fields never show.  Without such a name the result is the placeholder
    "model n/a".  A name without a slash is given as it is, and a name with
    slashes gives the part after its last slash, or all of it when it ends
    with a slash; so a slash is left in the result only when the name ends
    with one. *)
Theorem model_display_shape (entry : option Display.ModelFields)
    (fallbackModel : option string) :
  let named := default "" (Js.trim <$> (entry ≫= Display.model)) in
  let overridden := default "" (Js.trim <$> (entry ≫= Display.modelOverride)) in
  let fallback := default "" (Js.trim <$> fallbackModel) in
  let name :=
    if String.eqb named "" then
      if String.eqb overridden "" then fallback else overridden
    else named in
  let shown := Display.resolveModelDisplay entry fallbackModel in
  shown <> ""
  /\ (name = "" -> shown = "model n/a")
  /\ (name <> "" -> Display.includesSlash name = false -> shown = name)
  /\ (forall pre seg,
        name = pre ++ "/" ++ seg ->
        Display.includesSlash seg = false ->
        shown = if String.eqb seg "" then name else seg)
  /\ (shown = "model n/a"
      \/ forall i, Display.lastIndexOfSlash shown = Some i ->
                   S i = String.length shown).
Proof.
  intros named overridden fallback name shown.
  assert (shown <> ""
          /\ (shown = "model n/a"
              \/ forall i, Display.lastIndexOfSlash shown = Some i ->
                           S i = String.length shown)) as [Hne Hslashes].
  { subst shown. unfold Display.resolveModelDisplay. cbv zeta.
    set (c1 := Display.combine (Display.trimmedOr (entry ≫= Display.model)) _).
    set (c2 := if String.eqb c1 "" then _ else c1).
    set (combined := if String.eqb c2 "" then _ else c2).
    clearbody combined.
    destruct (String.eqb combined "") eqn:Hempty; [split; [done|by left]|].
    apply String.eqb_neq in Hempty.
    destruct (Display.lastIndexOfSlash combined) as [slash|] eqn:Hslash.
    - pose proof (lastIndexOfSlash_lt _ _ Hslash) as Hlt.
      destruct (slash <? String.length combined - 1)%nat eqn:Hinner.
      + apply Nat.ltb_lt in Hinner. split.
        * intros Hnil. apply (f_equal String.length) in Hnil.
          rewrite length_sliceFrom in Hnil. cbn [String.length] in Hnil. lia.
        * right. intros i. by rewrite (lastIndexOfSlash_sliceFrom _ _ Hslash).
      + apply Nat.ltb_ge in Hinner. split; [done|].
        right. intros i. rewrite Hslash. intros [= <-]. lia.
    - split; [done|]. right. intros i. by rewrite Hslash. }
  split; [exact Hne|].
  assert ((name = "" -> shown = "model n/a")
          /\ (name <> "" ->
              (Display.includesSlash name = false -> shown = name)
              /\ (forall pre seg,
                    name = pre ++ "/" ++ seg ->
                    Display.includesSlash seg = false ->
                    shown = if String.eqb seg "" then name else seg)))
    as [Hblank Hnamed].
  { subst shown name. unfold Display.resolveModelDisplay. cbv zeta.
    fold (Display.trimmedOr (entry ≫= Display.model)) in named.
    fold (Display.trimmedOr (entry ≫= Display.modelOverride)) in overridden.
    fold (Display.trimmedOr fallbackModel) in fallback.
    fold named overridden fallback.
    rewrite (combine_empty named).
    destruct (String.eqb named "") eqn:Hnamed.
    - rewrite (combine_empty overridden).
      destruct (String.eqb overridden "") eqn:Hoverridden.
      + destruct (String.eqb fallback "") eqn:Hfallback.
        * split; [done|]. apply String.eqb_eq in Hfallback. by intros Hne'.
        * apply String.eqb_neq in Hfallback. split; [done|]. intros _.
          apply shown_of_name; [done|by left].
      + rewrite (combine_empty overridden), Hoverridden.
        apply String.eqb_neq in Hoverridden. split; [done|]. intros _.
        apply shown_of_name; [done|apply combine_name].
    - rewrite (combine_empty named), Hnamed. rewrite (combine_empty named), Hnamed.
      apply String.eqb_neq in Hnamed. split; [done|]. intros _.
      apply shown_of_name; [done|apply combine_name]. }
  split; [exact Hblank|]. split; [|split; [|exact Hslashes]].
  - intros Hname. exact (proj1 (Hnamed Hname)).
  - intros pre seg Hsplit.
    assert (name <> "") as Hname by (rewrite Hsplit; by destruct pre).
    exact (proj2 (Hnamed Hname) pre seg Hsplit).
Qed.

End DisplayFacts.

(** ** Lines of the log verb *)

Section LogLines.

Variable sanitizeTextContent : string -> string.

Lemma omap_blockChunk (shouldSanitize : bool) (blocks : list Display.Block) :
  omap (Display.blockChunk sanitizeTextContent shouldSanitize) blocks =
    List.filter (fun value => negb (String.eqb (Js.trim value) ""))
      (omap (fun block =>
               match block with
               | Display.TextBlock (Some text) =>
                   Some (if shouldSanitize then sanitizeTextContent text else text)
               | _ => None
               end) blocks).
Proof.
  induction blocks as [|block blocks IH]; [done|].
  cbn [omap list_omap]. destruct block as [[text|]|]; [|exact IH..].
  cbn [Display.blockChunk List.filter].
  destruct (String.eqb (Js.trim _) ""); cbn [negb]; by rewrite IH.
Qed.

(** X30: [formatLogLines] renders the messages one by one and in order,
    with at most one line per message.  The text of a message is its string
    content, or the texts of its text blocks that are not blank joined by
    spaces, each passed through the sanitizer when the role is "assistant";
    white space in it is collapsed to single spaces and trimmed.  A message
    whose text is then empty gives no line, and so does one whose content is
    neither a string nor an array; any other gives the line "Assistant: " (for
    the role "assistant") or "User: " (for any other or missing role) followed
    by that text, which has no white space at either end and no line break. *)
Theorem log_lines_shape :
  (forall earlier later : list Display.ChatMessage,
     Display.formatLogLines sanitizeTextContent (earlier ++ later)%list =
       (Display.formatLogLines sanitizeTextContent earlier
          ++ Display.formatLogLines sanitizeTextContent later)%list)
  /\ (forall messages : list Display.ChatMessage,
        (length (Display.formatLogLines sanitizeTextContent messages)
           <= length messages)%nat)
  /\ forall message : Display.ChatMessage,
       let assistant :=
         String.eqb (default "" (Display.role message)) "assistant" in
       let clean := fun text : string =>
         if assistant then sanitizeTextContent text else text in
       let raw :=
         match Display.content message with
         | Display.ContentString content => clean content
         | Display.ContentBlocks blocks =>
             Js.join " "
               (List.filter (fun value => negb (String.eqb (Js.trim value) ""))
                  (omap (fun block =>
                           match block with
                           | Display.TextBlock (Some text) => Some (clean text)
                           | _ => None
                           end) blocks))
         | Display.ContentOther => ""
         end in
       let text := Js.trim (Js.collapseWhitespace false raw) in
       Display.formatLogLines sanitizeTextContent [message] =
         (if String.eqb text "" then []
          else [(if assistant then "Assistant" else "User") ++ ": " ++ text])
       /\ Js.trim text = text
       /\ collapsed false text = true.
Proof.
  split; [|split].
  - intros earlier later. unfold Display.formatLogLines. apply omap_app.
  - intros messages. unfold Display.formatLogLines.
    induction messages as [|m messages IH]; [done|]. cbn [omap list_omap].
    destruct (Display.logLine _ m); cbn [length]; lia.
  - intros message assistant clean raw text.
    split; [|split; [apply trim_idem|apply collapsed_compact]].
    unfold Display.formatLogLines. cbn [omap list_omap].
    unfold Display.logLine, Display.extractMessageText.
    fold assistant. subst text raw clean.
    destruct (Display.content message) as [content|blocks|].
    + unfold Display.normalizeMessageText.
      by destruct (String.eqb (Js.trim _) "").
    + rewrite omap_blockChunk. unfold Display.normalizeMessageText.
      by destruct (String.eqb (Js.trim _) "").
    + reflexivity.
Qed.

End LogLines.

(** * Worked examples *)

#[local] Existing Instance Demo.helpers.

(** C3 as stated fails on two tokens that are neither numeric nor contain a
    colon, because the rules for them come first.  On "last": with one run
    labelled "last" that ended long ago and one running run, the label has
    exactly one exact match, but the resolver takes the first run of the
    sorted list.  On a blank token: no label equals the empty text and both
    labels start with it, but the error is "Missing subagent id.", not an
    ambiguity. *)
Lemma label_rules_fail_on_last_and_blank :
  (Js.allDigits (Js.trim "last") = false
   /\ Js.includesColon (Js.trim "last") = false
   /\ List.filter (labelEquals (Js.toLowerCase (Js.trim "last")))
        [Demo.lastLabelled; Demo.scout] = [Demo.lastLabelled]
   /\ resolveSubagentTarget Demo.t0 [Demo.lastLabelled; Demo.scout] (Some "last")
        = resolvedEntry (Some Demo.scout)
   /\ ~ labelRules Demo.t0 [Demo.lastLabelled; Demo.scout] "last")
  /\ (Js.allDigits (Js.trim " ") = false
      /\ Js.includesColon (Js.trim " ") = false
      /\ List.filter (labelEquals (Js.toLowerCase (Js.trim " ")))
           [Demo.scout; Demo.scout2] = []
      /\ List.filter (labelStartsWith (Js.toLowerCase (Js.trim " ")))
           [Demo.scout; Demo.scout2] = [Demo.scout; Demo.scout2]
      /\ resolveSubagentTarget Demo.t0 [Demo.scout; Demo.scout2] (Some " ")
           = resolvedError "Missing subagent id."
      /\ ~ labelRules Demo.t0 [Demo.scout; Demo.scout2] " ").
Proof.
  split.
  - do 4 (split; [reflexivity|]).
    intros [Hexact _]. specialize (Hexact Demo.lastLabelled eq_refl).
    discriminate Hexact.
  - do 5 (split; [reflexivity|]).
    intros [_ Hprefix]. specialize (Hprefix eq_refl).
    assert (2 <= length (List.filter
                           (labelStartsWith (Js.toLowerCase (Js.trim " ")))
                           [Demo.scout; Demo.scout2]))%nat as Hmany
      by (vm_compute; lia).
    specialize (Hprefix Hmany). discriminate Hprefix.
Qed.

(** C7: the history limit of the log verb is read from all the tokens after
    the verb, the target included.  On "/subagents log 2 50" (target: list
    index 2, limit argument 50) the history request carries limit 2, and on
    "/subagents log 1" it carries limit 1 where no limit argument was given. *)
Theorem log_limit_from_index_target :
  logLimit ["2"; "50"] = 2
  /\ logLimit ["1"] = 1
  /\ traceOf Demo.oracle
       (handleSubagentsCommand (Demo.mkParams "/subagents log 2 50") true)
       (Demo.world Demo.roster)
     = [Called (ListSubagentRunsForRequester "agent:main:main") Demo.roster;
        Called DateNow Demo.t0;
        Called (GatewayChatHistory "agent:main:subagent:scout2" 2)
          (Demo.history (Demo.world Demo.roster))].
Proof. repeat split; vm_compute; reflexivity. Qed.

(** C8 as written fails: the reply is not the most recent assistant
    utterance of the fetched history.  With the history "ping" (user), "pong"
    (assistant), "thanks" (user), no tool message, a dispatch that succeeded
    and a wait that returned "done", the history holds the assistant utterance
    "pong", and the reply is the acknowledgment: only the last message is
    looked at, and it is the user's. *)
Lemma send_reply_is_not_latest_assistant_utterance :
  let params := Demo.mkParams "/subagents send scout go north" in
  let wait := {| waitStatus := Some "done"; waitError := None |} in
  let messages :=
    [ {| Demo.role := "user"; Demo.text := "ping" |};
      {| Demo.role := "assistant"; Demo.text := "pong" |};
      {| Demo.role := "user"; Demo.text := "thanks" |} ] in
  let w :=
    Scene.backend (inr (Some "run-ffff6666-next")) (inr wait) (inr messages) in
  let utterances := omap extractAssistantText (stripToolMessages messages) in
  Demo.oracle _
      (GatewayAgent
         (agentRequest Demo.scout "go north"
            "3f2a9c1e-7b54-4d08-9e6a-5c1d2b3a4f60") 10000) (Demo.tick w)
    = (inr (Some "run-ffff6666-next"), Demo.tick w)
  /\ Demo.oracle _ (GatewayAgentWait "run-ffff6666-next" 30000 32000) (Demo.tick w)
       = (inr wait, Demo.tick w)
  /\ Demo.oracle _ (GatewayChatHistory "agent:main:subagent:scout" 50) (Demo.tick w)
       = (inr messages, Demo.tick w)
  /\ last utterances = Some "pong"
  /\ outcomeOf Demo.oracle (handleSubagentsCommand params true) w
       = Returned (replyWith "✅ Sent to Scout (run run-ffff).")
  /\ outcomeOf Demo.oracle (handleSubagentsCommand params true) w
       <> Returned (replyWith "pong").
Proof.
  intros params wait messages w utterances.
  split; [reflexivity|]. split; [reflexivity|]. split; [reflexivity|].
  split; [reflexivity|]. split; [reflexivity|]. discriminate.
Qed.

Lemma list_index_agreement_witness :
  commandParses (Demo.mkParams "/subagents list") "/subagents" "list" false []
    "agent:main:main"
  /\ Demo.oracle _ (ListSubagentRunsForRequester "agent:main:main")
       (Demo.world Demo.roster)
     = (Demo.roster, Demo.world Demo.roster)
  /\ Demo.oracle Z DateNow (Demo.world Demo.roster)
       = (Demo.t0, Demo.tick (Demo.world Demo.roster))
  /\ (1 <= 4 <= length (numericOrder Demo.t0 Demo.roster))%nat
  /\ exists activeLines recentLines e sessionEntry,
       outcomeOf Demo.oracle
         (handleSubagentsCommand (Demo.mkParams "/subagents list") true)
         (Demo.world Demo.roster)
         = Returned (replyWith (listReplyText activeLines recentLines))
       /\ length activeLines
            = length (List.filter isActive (sortSubagentRuns Demo.roster))
       /\ length recentLines
            = length (List.filter (isRecent (recentCutoffAt Demo.t0))
                        (sortSubagentRuns Demo.roster))
       /\ (activeLines ++ recentLines)%list !! 3%nat
            = Some (formatListLine 4 e sessionEntry
                      (if isActive e then activeRuntimeMs Demo.t0 e
                       else recentRuntimeMs Demo.t0 e))
       /\ resolveSubagentTarget Demo.t0 Demo.roster (Some "4")
            = resolvedEntry (Some e).
Proof.
  assert (commandParses (Demo.mkParams "/subagents list") "/subagents" "list"
            false [] "agent:main:main")
    as Hparse by (repeat split; try reflexivity; discriminate).
  split; [exact Hparse|]. split; [reflexivity|].
  split; [reflexivity|]. split; [vm_compute; lia|].
  apply (list_index_agreement Demo.oracle (Demo.mkParams "/subagents list")
           "/subagents" false [] "agent:main:main" Demo.roster
           (Demo.world Demo.roster) (Demo.world Demo.roster)
           (Demo.tick (Demo.world Demo.roster)) Demo.t0 4);
    [exact Hparse|reflexivity|reflexivity|vm_compute; lia].
Defined.

Lemma numeric_index_resolution_witness :
  Js.allDigits (Js.trim " 4 ") = true
  /\ sortSubagentRuns [] = []
  /\ resolveSubagentTarget Demo.t0 Demo.roster (Some " 4 ")
       = resolvedEntry (Some Demo.finished)
  /\ resolveSubagentTarget Demo.t0 [] (Some "1")
       = resolvedError "Invalid subagent index: 1".
Proof.
  split; [reflexivity|]. split; [reflexivity|].
  destruct (numeric_index_resolution (H := Demo.helpers) Demo.t0 Demo.roster
              " 4 " eq_refl eq_refl)
    as [[Hin _] Hempty].
  split; [|exact Hempty].
  destruct Hin as (e & He & ->); [vm_compute; split; discriminate|].
  vm_compute in He. by injection He as <-.
Defined.

Lemma label_precedence_and_ambiguity_witness :
  Js.trim "scout" <> ""
  /\ Js.trim "scout" <> "last"
  /\ Js.allDigits (Js.trim "scout") = false
  /\ Js.includesColon (Js.trim "scout") = false
  /\ resolveSubagentTarget Demo.t0 [Demo.scout; Demo.scout2] (Some "scout")
       = resolvedEntry (Some Demo.scout).
Proof.
  split; [discriminate|]. split; [discriminate|].
  split; [reflexivity|]. split; [reflexivity|].
  destruct (label_precedence_and_ambiguity Demo.t0 [Demo.scout; Demo.scout2]
              "scout") as [Hexact _];
    [discriminate|discriminate|reflexivity|reflexivity|].
  apply Hexact. reflexivity.
Defined.

(** The second example of the label rules: "scou" against "Scout" and
    "Scouting" is ambiguous. *)
Lemma label_prefix_ambiguity_example :
  resolveSubagentTarget Demo.t0 [Demo.scout; Demo.scouting] (Some "scou")
    = resolvedError "Ambiguous subagent label prefix: scou".
Proof.
  destruct (label_precedence_and_ambiguity Demo.t0 [Demo.scout; Demo.scouting]
              "scou") as [_ Hprefix];
    [discriminate|discriminate|reflexivity|reflexivity|].
  apply Hprefix; [reflexivity|]. vm_compute. lia.
Qed.

Lemma stop_already_finished_witness :
  let params := Demo.mkParams "/kill builder" in
  let w := Demo.world Demo.roster in
  commandParses params "/kill" "stop" false ["builder"] "agent:main:main"
  /\ "builder" <> "all"
  /\ "builder" <> "*"
  /\ Demo.oracle _ (ListSubagentRunsForRequester "agent:main:main") w
       = (Demo.roster, w)
  /\ clockRead Demo.oracle "builder" w Demo.t0 (Demo.tick w)
  /\ entry (resolveSubagentTarget Demo.t0 Demo.roster (Some "builder"))
       = Some Demo.finished
  /\ Js.truthyNum (endedAt Demo.finished) = true
  /\ run Demo.oracle (handleSubagentsCommand params true) w
       = ([Called (ListSubagentRunsForRequester "agent:main:main") Demo.roster;
           Called DateNow Demo.t0],
          Returned (replyWith "Builder is already finished."),
          Demo.tick w)
  /\ List.filter isSideEffect
       (traceOf Demo.oracle (handleSubagentsCommand params true) w) = [].
Proof.
  intros params w.
  assert (commandParses params "/kill" "stop" false ["builder"] "agent:main:main")
    as Hparse by (repeat split; try reflexivity; discriminate).
  split; [exact Hparse|]. split; [discriminate|]. split; [discriminate|].
  split; [reflexivity|]. split; [reflexivity|]. split; [reflexivity|].
  split; [reflexivity|].
  apply (stop_already_finished Demo.oracle params "/kill" false "builder" []
           "agent:main:main" Demo.roster Demo.t0 Demo.finished w w (Demo.tick w));
    [exact Hparse|discriminate|discriminate|reflexivity..].
Defined.

Lemma stop_cascade_witness :
  let params := Demo.mkParams "/subagents stop scout" in
  let w := Demo.world Demo.roster in
  let store := Demo.store w in
  let childKey := "agent:main:subagent:scout" in
  commandParses params "/subagents" "stop" false ["scout"] "agent:main:main"
  /\ "scout" <> "all"
  /\ "scout" <> "*"
  /\ Demo.oracle _ (ListSubagentRunsForRequester "agent:main:main") w
       = (Demo.roster, w)
  /\ clockRead Demo.oracle "scout" w Demo.t0 (Demo.tick w)
  /\ entry (resolveSubagentTarget Demo.t0 Demo.roster (Some "scout"))
       = Some Demo.scout
  /\ Js.truthyNum (endedAt Demo.scout) = false
  /\ Demo.oracle _ (LoadSessionStore "sessions.json") (Demo.tick w)
       = (store, Demo.tick w)
  /\ exists cleared now2 w',
       run Demo.oracle (handleSubagentsCommand params true) w =
         (([Called (ListSubagentRunsForRequester "agent:main:main") Demo.roster;
            Called DateNow Demo.t0;
            Called (LoadSessionStore "sessions.json") store]
             ++ abortCalls (Some "sess-1")
             ++ [Called (ClearSessionQueues [Some childKey; Some "sess-1"]) cleared]
             ++ logClearedCalls "stop" cleared
             ++ persistCalls "sessions.json" childKey (store !! childKey) now2
             ++ [Called (StopSubagentsForRequester tt childKey) tt])%list,
          Returned silent, w').
Proof.
  intros params w store childKey.
  assert (commandParses params "/subagents" "stop" false ["scout"] "agent:main:main")
    as Hparse by (repeat split; try reflexivity; discriminate).
  split; [exact Hparse|]. split; [discriminate|]. split; [discriminate|].
  split; [reflexivity|]. split; [reflexivity|]. split; [reflexivity|].
  split; [reflexivity|]. split; [reflexivity|].
  apply (stop_cascade Demo.oracle params "/subagents" false "scout" []
           "agent:main:main" Demo.roster Demo.t0 Demo.scout store
           w w (Demo.tick w) (Demo.tick w));
    [exact Hparse|discriminate|discriminate|reflexivity..].
Defined.

Lemma steer_ordering_witness :
  let params := Demo.mkParams "/steer scout go north" in
  let w := Demo.world Demo.roster in
  let store := Demo.store w in
  let childKey := "agent:main:subagent:scout" in
  commandParses params "/steer" "send" true ["scout"; "go"; "north"]
    "agent:main:main"
  /\ Js.trim (Js.join " " ["go"; "north"]) <> ""
  /\ Demo.oracle _ (ListSubagentRunsForRequester "agent:main:main") w
       = (Demo.roster, w)
  /\ clockRead Demo.oracle "scout" w Demo.t0 (Demo.tick w)
  /\ entry (resolveSubagentTarget Demo.t0 Demo.roster (Some "scout"))
       = Some Demo.scout
  /\ Js.truthyNum (endedAt Demo.scout) = false
  /\ Demo.oracle _ (LoadSessionStore "sessions.json") (Demo.tick w)
       = (store, Demo.tick w)
  /\ exists cleared uuid resp w',
       run Demo.oracle (handleSubagentsCommand params true) w =
         (([Called (ListSubagentRunsForRequester "agent:main:main") Demo.roster;
            Called DateNow Demo.t0;
            Called (LoadSessionStore "sessions.json") store;
            Called (MarkSubagentRunForSteerRestart "run-aaaa1111") tt]
             ++ abortCalls (Some "sess-1")
             ++ [Called (ClearSessionQueues [Some childKey; Some "sess-1"]) cleared]
             ++ logClearedCalls "steer" cleared
             ++ [Called RandomUUID uuid;
                 Called (GatewayAgent (agentRequest Demo.scout "go north" uuid) 10000)
                   resp]
             ++ match resp with
                | inr response =>
                    [Called (ReplaceSubagentRunAfterSteer "run-aaaa1111"
                               (dispatchedRunId uuid response) Demo.scout) tt]
                | inl _ => []
                end)%list,
          Returned match resp with
                   | inr response =>
                       replyWith (steeredText Demo.scout
                                    (dispatchedRunId uuid response))
                   | inl err => replyWith ("send failed: " ++ thrownText err)
                   end,
          w').
Proof.
  intros params w store childKey.
  assert (commandParses params "/steer" "send" true ["scout"; "go"; "north"]
            "agent:main:main")
    as Hparse by (repeat split; try reflexivity; discriminate).
  split; [exact Hparse|]. split; [discriminate|].
  split; [reflexivity|]. split; [reflexivity|]. split; [reflexivity|].
  split; [reflexivity|]. split; [reflexivity|].
  apply (steer_ordering Demo.oracle params "/steer" "scout" ["go"; "north"]
           "agent:main:main" Demo.roster Demo.t0 Demo.scout store
           w w (Demo.tick w) (Demo.tick w));
    [exact Hparse|discriminate|reflexivity..].
Defined.

Lemma send_round_trip_witness :
  let params := Demo.mkParams "/subagents send scout go north" in
  let w := Demo.world Demo.roster in
  let w' := Demo.tick w in
  let uuid := "3f2a9c1e-7b54-4d08-9e6a-5c1d2b3a4f60" in
  let rid := "run-ffff6666-next" in
  let wait := {| waitStatus := Some "done"; waitError := None |} in
  let messages :=
    [ {| Demo.role := "user"; Demo.text := "ping" |};
      {| Demo.role := "assistant"; Demo.text := "pong" |} ] in
  commandParses params "/subagents" "send" false ["scout"; "go"; "north"]
    "agent:main:main"
  /\ Js.trim (Js.join " " ["go"; "north"]) <> ""
  /\ Demo.oracle _ (ListSubagentRunsForRequester "agent:main:main") w
       = (Demo.roster, w)
  /\ clockRead Demo.oracle "scout" w Demo.t0 w'
  /\ entry (resolveSubagentTarget Demo.t0 Demo.roster (Some "scout"))
       = Some Demo.scout
  /\ Js.truthyNum (endedAt Demo.scout) = false
  /\ Demo.oracle _ (LoadSessionStore "sessions.json") w' = (Demo.store w, w')
  /\ Demo.oracle _ RandomUUID w' = (uuid, w')
  /\ Demo.oracle _ (GatewayAgent (agentRequest Demo.scout "go north" uuid) 10000) w'
       = (inr (Some rid), w')
  /\ Demo.oracle _ (GatewayAgentWait rid 30000 32000) w' = (inr wait, w')
  /\ waitStatus wait = Some "done"
  /\ Demo.oracle _ (GatewayChatHistory "agent:main:subagent:scout" 50) w'
       = (inr messages, w')
  /\ last (stripToolMessages messages) ≫= extractAssistantText = Some "pong"
  /\ outcomeOf Demo.oracle (handleSubagentsCommand params true) w
       = Returned (replyWith "pong").
Proof.
  intros params w w' uuid rid wait messages.
  assert (commandParses params "/subagents" "send" false ["scout"; "go"; "north"]
            "agent:main:main")
    as Hparse by (repeat split; try reflexivity; discriminate).
  split; [exact Hparse|]. split; [discriminate|].
  do 10 (split; [reflexivity|]). split; [reflexivity|].
  destruct (send_round_trip Demo.oracle params "/subagents" "scout" ["go"; "north"]
              "agent:main:main" Demo.roster Demo.t0 Demo.scout (Demo.store w)
              uuid (Some rid) wait messages w w w' w' w' w' w' w')
    as (Hsome & _ & _);
    [exact Hparse|discriminate|reflexivity..|].
  apply Hsome. reflexivity.
Defined.

Lemma last_on_empty_snapshot_witness :
  let params := Demo.mkParams "/subagents info last" in
  sortSubagentRuns [] = []
  /\ resolveSubagentTarget Demo.t0 [] (Some "last")
       = {| entry := None; error := None |}
  /\ commandParses params "/subagents" "info" false ["last"] "agent:main:main"
  /\ outcomeOf Demo.oracle (handleSubagentsCommand params true) (Demo.world [])
       = Returned (replyWith "⚠️ Unknown subagent.")
  /\ default "" (Js.trim <$> Some "scout") <> "last"
  /\ (exists e,
        entry (resolveSubagentTarget Demo.t0 Demo.roster (Some "scout")) = Some e
        /\ error (resolveSubagentTarget Demo.t0 Demo.roster (Some "scout")) = None).
Proof.
  intros params.
  assert (commandParses params "/subagents" "info" false ["last"] "agent:main:main")
    as Hparse by (repeat split; try reflexivity; discriminate).
  destruct (last_on_empty_snapshot (H := Demo.helpers) Demo.oracle eq_refl)
    as (Hlast & Hreply & Hshape).
  split; [reflexivity|]. split; [apply Hlast|]. split; [exact Hparse|].
  split.
  - apply (Hreply params "/subagents" "info" false [] "agent:main:main"
             (Demo.world []) (Demo.world []));
      [exact Hparse|cbn; tauto|discriminate|reflexivity].
  - split; [discriminate|].
    destruct (Hshape Demo.t0 Demo.roster (Some "scout")) as [Hentry|Herror];
      [discriminate|exact Hentry|].
    destruct Herror as (msg & Hnone & _). discriminate Hnone.
Defined.

Lemma run_id_after_dispatch_witness :
  let w := Demo.world Demo.roster in
  let uuid := "3f2a9c1e-7b54-4d08-9e6a-5c1d2b3a4f60" in
  let rid := "run-ffff6666-next" in
  Demo.oracle _ RandomUUID w = (uuid, w)
  /\ Demo.oracle _ (GatewayAgent (agentRequest Demo.scout "go north" uuid) 10000) w
       = (inr (Some rid), w)
  /\ run Demo.oracle (dispatch Demo.scout "go north") w
       = ([Called RandomUUID uuid;
           Called (GatewayAgent (agentRequest Demo.scout "go north" uuid) 10000)
             (inr (Some rid))],
          Returned (inr rid), w)
  /\ exists w3,
       run Demo.oracle (dispatch Demo.scout "go north" ≫= afterDispatch true Demo.scout) w
         = ([Called RandomUUID uuid;
             Called (GatewayAgent (agentRequest Demo.scout "go north" uuid) 10000)
               (inr (Some rid));
             Called (ReplaceSubagentRunAfterSteer "run-aaaa1111" rid Demo.scout) tt],
            Returned (replyWith "steered Scout (run run-ffff)."), w3).
Proof.
  intros w uuid rid.
  split; [reflexivity|]. split; [reflexivity|].
  destruct (run_id_after_dispatch Demo.oracle Demo.scout "go north" uuid
              (Some rid) w w w eq_refl eq_refl)
    as (_ & Hdispatch & Hsteer & _).
  split; [exact Hdispatch|exact Hsteer].
Defined.

(** ** Worked examples of the further properties *)

Lemma handler_result_terminal_witness :
  let params := Demo.mkParams "/subagents help" in
  let w := Demo.world Demo.roster in
  let r := replyWith buildSubagentsHelp in
  outcomeOf Demo.oracle (handleSubagentsCommand params true) w = Returned r
  /\ (r = None <->
        true = false \/ detectPrefix (commandBodyNormalized params) = None)
  /\ match r with
     | Some c => shouldContinue c = false
     | None => True
     end.
Proof.
  intros params w r. split; [reflexivity|].
  apply (handler_result_terminal Demo.oracle params true w r). reflexivity.
Defined.

Lemma read_only_verbs_witness :
  let params := Demo.mkParams "/subagents log scout" in
  let w := Demo.world Demo.roster in
  detectPrefix (commandBodyNormalized params) = Some "/subagents"
  /\ isAuthorizedSender params = true
  /\ parseAction "/subagents" (tokenize "/subagents" (commandBodyNormalized params))
       = Some ("log", false, ["scout"])
  /\ "log" <> "stop"
  /\ "log" <> "send"
  /\ Forall (fun c => callPasses (@readCall _) c = true)
       (traceOf Demo.oracle (handleSubagentsCommand params true) w).
Proof.
  intros params w.
  split; [reflexivity|]. split; [reflexivity|]. split; [reflexivity|].
  split; [discriminate|]. split; [discriminate|].
  apply (read_only_verbs Demo.oracle params "/subagents" "log" false ["scout"] w);
    [reflexivity|reflexivity|reflexivity|discriminate|discriminate].
Defined.

Lemma plain_send_calls_witness :
  let params := Demo.mkParams "/subagents send scout go north" in
  let w := Demo.world Demo.roster in
  detectPrefix (commandBodyNormalized params) = Some "/subagents"
  /\ isAuthorizedSender params = true
  /\ parseAction "/subagents" (tokenize "/subagents" (commandBodyNormalized params))
       = Some ("send", false, ["scout"; "go"; "north"])
  /\ Forall (fun c => callPasses (@plainSendCall _) c = true)
       (traceOf Demo.oracle (handleSubagentsCommand params true) w).
Proof.
  intros params w.
  split; [reflexivity|]. split; [reflexivity|]. split; [reflexivity|].
  apply (plain_send_calls Demo.oracle params "/subagents"
           ["scout"; "go"; "north"] w); reflexivity.
Defined.

Lemma steer_calls_witness :
  let params := Demo.mkParams "/steer scout go north" in
  let w := Demo.world Demo.roster in
  detectPrefix (commandBodyNormalized params) = Some "/steer"
  /\ isAuthorizedSender params = true
  /\ parseAction "/steer" (tokenize "/steer" (commandBodyNormalized params))
       = Some ("send", true, ["scout"; "go"; "north"])
  /\ Forall (fun c => callPasses (@steerCall _) c = true)
       (traceOf Demo.oracle (handleSubagentsCommand params true) w).
Proof.
  intros params w.
  split; [reflexivity|]. split; [reflexivity|]. split; [reflexivity|].
  apply (steer_calls Demo.oracle params "/steer" ["scout"; "go"; "north"] w);
    reflexivity.
Defined.

Lemma stop_calls_witness :
  let params := Demo.mkParams "/kill scout" in
  let w := Demo.world Demo.roster in
  detectPrefix (commandBodyNormalized params) = Some "/kill"
  /\ isAuthorizedSender params = true
  /\ parseAction "/kill" (tokenize "/kill" (commandBodyNormalized params))
       = Some ("stop", false, ["scout"])
  /\ Forall (fun c => callPasses (@stopCall _) c = true)
       (traceOf Demo.oracle (handleSubagentsCommand params true) w).
Proof.
  intros params w.
  split; [reflexivity|]. split; [reflexivity|]. split; [reflexivity|].
  apply (stop_calls Demo.oracle params "/kill" false ["scout"] w); reflexivity.
Defined.

Lemma parsed_target_is_word_witness :
  let params := Demo.mkParams "/subagents info   scout" in
  commandParses params "/subagents" "info" false ["scout"] "agent:main:main"
  /\ In "scout" ["scout"]
  /\ "scout" <> ""
  /\ noWhitespace "scout" = true
  /\ Js.trim "scout" = "scout"
  /\ resolveSubagentTarget Demo.t0 Demo.roster (Some "scout")
       <> resolvedError "Missing subagent id.".
Proof.
  intros params.
  assert (commandParses params "/subagents" "info" false ["scout"] "agent:main:main")
    as Hparse by (repeat split; try reflexivity; discriminate).
  split; [exact Hparse|]. split; [by left|].
  apply (parsed_target_is_word params "/subagents" "info" false ["scout"]
           "agent:main:main" Demo.t0 Demo.roster "scout");
    [exact Hparse|by left].
Defined.

Lemma unauthorized_sender_ignored_witness :
  let params := Scene.stranger "/kill all" in
  let w := Demo.world Demo.roster in
  let line := "Ignoring /kill from unauthorized sender: <unknown>" in
  detectPrefix (commandBodyNormalized params) = Some "/kill"
  /\ isAuthorizedSender params = false
  /\ Demo.oracle _ (LogVerbose line) w = (tt, w)
  /\ run Demo.oracle (handleSubagentsCommand params true) w =
       ([Called (LogVerbose line) tt],
        Returned (Some {| shouldContinue := false; reply := None |}), w).
Proof.
  intros params w line.
  split; [reflexivity|]. split; [reflexivity|]. split; [reflexivity|].
  apply (unauthorized_sender_ignored Demo.oracle params "/kill" w w);
    reflexivity.
Defined.

Lemma missing_session_key_witness :
  let params := Scene.keyless "/subagents list" in
  let w := Demo.world Demo.roster in
  detectPrefix (commandBodyNormalized params) = Some "/subagents"
  /\ isAuthorizedSender params = true
  /\ parseAction "/subagents" (tokenize "/subagents" (commandBodyNormalized params))
       = Some ("list", false, [])
  /\ default "" (Js.trim <$> paramsSessionKey params) = ""
  /\ default "" (Js.trim <$> CommandTargetSessionKey params) = ""
  /\ run Demo.oracle (handleSubagentsCommand params true) w =
       ([], Returned (replyWith "⚠️ Missing session key."), w).
Proof.
  intros params w.
  split; [reflexivity|]. split; [reflexivity|]. split; [reflexivity|].
  split; [reflexivity|]. split; [reflexivity|].
  apply (missing_session_key Demo.oracle params "/subagents" "list" false [] w);
    reflexivity.
Defined.

Lemma stop_all_requester_wide_witness :
  let params := Demo.mkParams "/kill all" in
  let w := Demo.world Demo.roster in
  commandParses params "/kill" "stop" false ["all"] "agent:main:main"
  /\ ("all" = "all" \/ "all" = "*")
  /\ Demo.oracle _ (ListSubagentRunsForRequester "agent:main:main") w
       = (Demo.roster, w)
  /\ Demo.oracle _ (StopSubagentsForRequester tt "agent:main:main") w = (tt, w)
  /\ run Demo.oracle (handleSubagentsCommand params true) w =
       ([Called (ListSubagentRunsForRequester "agent:main:main") Demo.roster;
         Called (StopSubagentsForRequester tt "agent:main:main") tt],
        Returned (Some {| shouldContinue := false; reply := None |}), w).
Proof.
  intros params w.
  assert (commandParses params "/kill" "stop" false ["all"] "agent:main:main")
    as Hparse by (repeat split; try reflexivity; discriminate).
  split; [exact Hparse|]. split; [by left|].
  split; [reflexivity|]. split; [reflexivity|].
  apply (stop_all_requester_wide Demo.oracle params "/kill" false "all" []
           "agent:main:main" Demo.roster w w w);
    [exact Hparse|by left|reflexivity|reflexivity].
Defined.

Lemma usage_replies_witness :
  let params := Demo.mkParams "/tell scout" in
  let w := Demo.world Demo.roster in
  commandParses params "/tell" "send" true ["scout"] "agent:main:main"
  /\ Demo.oracle _ (ListSubagentRunsForRequester "agent:main:main") w
       = (Demo.roster, w)
  /\ (["scout"] = []
      \/ ("send" = "send" /\ Js.trim (Js.join " " (drop 1 ["scout"])) = ""))
  /\ In "send" ["stop"; "info"; "log"; "send"]
  /\ run Demo.oracle (handleSubagentsCommand params true) w =
       ([Called (ListSubagentRunsForRequester "agent:main:main") Demo.roster],
        Returned (replyWith "Usage: /tell <id|#> <message>"), w).
Proof.
  intros params w.
  assert (commandParses params "/tell" "send" true ["scout"] "agent:main:main")
    as Hparse by (repeat split; try reflexivity; discriminate).
  split; [exact Hparse|]. split; [reflexivity|].
  split; [by right|]. split; [cbn; tauto|].
  apply (usage_replies Demo.oracle params "/tell" "send" true ["scout"]
           "agent:main:main" Demo.roster w w);
    [exact Hparse|reflexivity|by right|cbn; tauto].
Defined.

Lemma unresolved_target_reply_witness :
  let params := Demo.mkParams "/subagents info nosuch" in
  let w := Demo.world Demo.roster in
  commandParses params "/subagents" "info" false ["nosuch"] "agent:main:main"
  /\ In "info" ["stop"; "info"; "log"; "send"]
  /\ Demo.oracle _ (ListSubagentRunsForRequester "agent:main:main") w
       = (Demo.roster, w)
  /\ clockRead Demo.oracle "nosuch" w Demo.t0 (Demo.tick w)
  /\ entry (resolveSubagentTarget Demo.t0 Demo.roster (Some "nosuch")) = None
  /\ run Demo.oracle (handleSubagentsCommand params true) w =
       ([Called (ListSubagentRunsForRequester "agent:main:main") Demo.roster;
         Called DateNow Demo.t0],
        Returned (replyWith "⚠️ Unknown subagent id: nosuch"), Demo.tick w).
Proof.
  intros params w.
  assert (commandParses params "/subagents" "info" false ["nosuch"]
            "agent:main:main")
    as Hparse by (repeat split; try reflexivity; discriminate).
  split; [exact Hparse|]. split; [cbn; tauto|].
  split; [reflexivity|]. split; [reflexivity|]. split; [reflexivity|].
  apply (unresolved_target_reply Demo.oracle params "/subagents" "info" false
           "nosuch" [] "agent:main:main" Demo.roster Demo.t0 w w (Demo.tick w));
    [exact Hparse|cbn; tauto|discriminate|discriminate|reflexivity..].
Defined.

Lemma send_already_finished_witness :
  let params := Demo.mkParams "/steer builder wake up" in
  let w := Demo.world Demo.roster in
  commandParses params "/steer" "send" true ["builder"; "wake"; "up"]
    "agent:main:main"
  /\ Js.trim (Js.join " " ["wake"; "up"]) <> ""
  /\ Demo.oracle _ (ListSubagentRunsForRequester "agent:main:main") w
       = (Demo.roster, w)
  /\ clockRead Demo.oracle "builder" w Demo.t0 (Demo.tick w)
  /\ entry (resolveSubagentTarget Demo.t0 Demo.roster (Some "builder"))
       = Some Demo.finished
  /\ Js.truthyNum (endedAt Demo.finished) = true
  /\ run Demo.oracle (handleSubagentsCommand params true) w =
       ([Called (ListSubagentRunsForRequester "agent:main:main") Demo.roster;
         Called DateNow Demo.t0],
        Returned (replyWith "Builder is already finished."), Demo.tick w).
Proof.
  intros params w.
  assert (commandParses params "/steer" "send" true ["builder"; "wake"; "up"]
            "agent:main:main")
    as Hparse by (repeat split; try reflexivity; discriminate).
  split; [exact Hparse|]. split; [discriminate|].
  split; [reflexivity|]. split; [reflexivity|]. split; [reflexivity|].
  split; [reflexivity|].
  apply (send_already_finished Demo.oracle params "/steer" true "builder"
           ["wake"; "up"] "agent:main:main" Demo.roster Demo.t0 Demo.finished
           w w (Demo.tick w));
    [exact Hparse|discriminate|reflexivity..].
Defined.

Lemma plain_send_dispatch_failure_witness :
  let params := Demo.mkParams "/subagents send scout go north" in
  let w :=
    Scene.backend (inl (ThrownError "gateway down"))
      (inr {| waitStatus := None; waitError := None |}) (inr []) in
  let w' := Demo.tick w in
  let uuid := "3f2a9c1e-7b54-4d08-9e6a-5c1d2b3a4f60" in
  commandParses params "/subagents" "send" false ["scout"; "go"; "north"]
    "agent:main:main"
  /\ Js.trim (Js.join " " ["go"; "north"]) <> ""
  /\ Demo.oracle _ (ListSubagentRunsForRequester "agent:main:main") w
       = (Demo.roster, w)
  /\ clockRead Demo.oracle "scout" w Demo.t0 w'
  /\ entry (resolveSubagentTarget Demo.t0 Demo.roster (Some "scout"))
       = Some Demo.scout
  /\ Js.truthyNum (endedAt Demo.scout) = false
  /\ Demo.oracle _ (LoadSessionStore "sessions.json") w' = (Demo.store w, w')
  /\ Demo.oracle _ RandomUUID w' = (uuid, w')
  /\ Demo.oracle _ (GatewayAgent (agentRequest Demo.scout "go north" uuid) 10000) w'
       = (inl (ThrownError "gateway down"), w')
  /\ run Demo.oracle (handleSubagentsCommand params true) w =
       ([Called (ListSubagentRunsForRequester "agent:main:main") Demo.roster;
         Called DateNow Demo.t0;
         Called (LoadSessionStore "sessions.json") (Demo.store w);
         Called RandomUUID uuid;
         Called (GatewayAgent (agentRequest Demo.scout "go north" uuid) 10000)
           (inl (ThrownError "gateway down"))],
        Returned (replyWith "send failed: gateway down"), w').
Proof.
  intros params w w' uuid.
  assert (commandParses params "/subagents" "send" false ["scout"; "go"; "north"]
            "agent:main:main")
    as Hparse by (repeat split; try reflexivity; discriminate).
  split; [exact Hparse|]. split; [discriminate|].
  do 7 (split; [reflexivity|]).
  apply (plain_send_dispatch_failure Demo.oracle params "/subagents" "scout"
           ["go"; "north"] "agent:main:main" Demo.roster Demo.t0 Demo.scout
           (Demo.store w) uuid (ThrownError "gateway down") w w w' w' w' w');
    [exact Hparse|discriminate|reflexivity..].
Defined.

Lemma send_gateway_rejection_uncaught_witness :
  let params := Demo.mkParams "/subagents send scout go north" in
  let w :=
    Scene.backend (inr None) (inl (ThrownString "gateway closed")) (inr []) in
  let w' := Demo.tick w in
  let uuid := "3f2a9c1e-7b54-4d08-9e6a-5c1d2b3a4f60" in
  commandParses params "/subagents" "send" false ["scout"; "go"; "north"]
    "agent:main:main"
  /\ Js.trim (Js.join " " ["go"; "north"]) <> ""
  /\ Demo.oracle _ (ListSubagentRunsForRequester "agent:main:main") w
       = (Demo.roster, w)
  /\ clockRead Demo.oracle "scout" w Demo.t0 w'
  /\ entry (resolveSubagentTarget Demo.t0 Demo.roster (Some "scout"))
       = Some Demo.scout
  /\ Js.truthyNum (endedAt Demo.scout) = false
  /\ Demo.oracle _ (LoadSessionStore "sessions.json") w' = (Demo.store w, w')
  /\ Demo.oracle _ RandomUUID w' = (uuid, w')
  /\ Demo.oracle _ (GatewayAgent (agentRequest Demo.scout "go north" uuid) 10000) w'
       = (inr None, w')
  /\ Demo.oracle _ (GatewayAgentWait uuid 30000 32000) w'
       = (inl (ThrownString "gateway closed"), w')
  /\ outcomeOf Demo.oracle (handleSubagentsCommand params true) w
       = Threw (ThrownString "gateway closed").
Proof.
  intros params w w' uuid.
  assert (commandParses params "/subagents" "send" false ["scout"; "go"; "north"]
            "agent:main:main")
    as Hparse by (repeat split; try reflexivity; discriminate).
  split; [exact Hparse|]. split; [discriminate|].
  do 8 (split; [reflexivity|]).
  apply (send_gateway_rejection_uncaught Demo.oracle params "/subagents" "scout"
           ["go"; "north"] "agent:main:main" Demo.roster Demo.t0 Demo.scout
           (Demo.store w) uuid None (inl (ThrownString "gateway closed"))
           (ThrownString "gateway closed") w w w' w' w' w' w' w');
    [exact Hparse|discriminate|reflexivity..|by left].
Defined.

Lemma send_reply_for_other_status_witness :
  let params := Demo.mkParams "/subagents send scout go north" in
  let wait := {| waitStatus := None; waitError := None |} in
  let messages := [ {| Demo.role := "toolResult"; Demo.text := "ok" |} ] in
  let w := Scene.backend (inr None) (inr wait) (inr messages) in
  let w' := Demo.tick w in
  let uuid := "3f2a9c1e-7b54-4d08-9e6a-5c1d2b3a4f60" in
  commandParses params "/subagents" "send" false ["scout"; "go"; "north"]
    "agent:main:main"
  /\ Js.trim (Js.join " " ["go"; "north"]) <> ""
  /\ Demo.oracle _ (ListSubagentRunsForRequester "agent:main:main") w
       = (Demo.roster, w)
  /\ clockRead Demo.oracle "scout" w Demo.t0 w'
  /\ entry (resolveSubagentTarget Demo.t0 Demo.roster (Some "scout"))
       = Some Demo.scout
  /\ Js.truthyNum (endedAt Demo.scout) = false
  /\ Demo.oracle _ (LoadSessionStore "sessions.json") w' = (Demo.store w, w')
  /\ Demo.oracle _ RandomUUID w' = (uuid, w')
  /\ Demo.oracle _ (GatewayAgent (agentRequest Demo.scout "go north" uuid) 10000) w'
       = (inr None, w')
  /\ Demo.oracle _ (GatewayAgentWait uuid 30000 32000) w' = (inr wait, w')
  /\ waitStatus wait <> Some "timeout"
  /\ waitStatus wait <> Some "error"
  /\ Demo.oracle _ (GatewayChatHistory "agent:main:subagent:scout" 50) w'
       = (inr messages, w')
  /\ outcomeOf Demo.oracle (handleSubagentsCommand params true) w
       = Returned (replyWith "✅ Sent to Scout (run 3f2a9c1e).")
  /\ last (traceOf Demo.oracle (handleSubagentsCommand params true) w)
       = Some (Called (GatewayChatHistory "agent:main:subagent:scout" 50)
                 (inr messages)).
Proof.
  intros params wait messages w w' uuid.
  assert (commandParses params "/subagents" "send" false ["scout"; "go"; "north"]
            "agent:main:main")
    as Hparse by (repeat split; try reflexivity; discriminate).
  split; [exact Hparse|]. split; [discriminate|].
  do 8 (split; [reflexivity|]).
  split; [discriminate|]. split; [discriminate|]. split; [reflexivity|].
  apply (send_reply_for_other_status Demo.oracle params "/subagents" "scout"
           ["go"; "north"] "agent:main:main" Demo.roster Demo.t0 Demo.scout
           (Demo.store w) uuid None wait messages w w w' w' w' w' w' w');
    [exact Hparse|discriminate|reflexivity..|discriminate|discriminate|reflexivity].
Defined.

Lemma list_loads_each_store_once_witness :
  let params := Demo.mkParams "/subagents list" in
  let w := Demo.world Demo.roster in
  let paths :=
    loadedPaths (traceOf Demo.oracle (handleSubagentsCommand params true) w) in
  commandParses params "/subagents" "list" false [] "agent:main:main"
  /\ Demo.oracle _ (ListSubagentRunsForRequester "agent:main:main") w
       = (Demo.roster, w)
  /\ Demo.oracle Z DateNow w = (Demo.t0, Demo.tick w)
  /\ paths = ["sessions.json"]
  /\ NoDup paths
  /\ forall p, p ∈ paths ->
       exists e, e ∈ numericOrder Demo.t0 Demo.roster
                 /\ p = resolveStorePath (cfg params) (childSessionKey e).
Proof.
  intros params w paths.
  assert (commandParses params "/subagents" "list" false [] "agent:main:main")
    as Hparse by (repeat split; try reflexivity; discriminate).
  split; [exact Hparse|]. split; [reflexivity|]. split; [reflexivity|].
  split; [reflexivity|].
  apply (list_loads_each_store_once Demo.oracle params "/subagents" false []
           "agent:main:main" Demo.roster Demo.t0 w w (Demo.tick w));
    [exact Hparse|reflexivity|reflexivity].
Defined.

Lemma list_nothing_to_show_witness :
  let params := Demo.mkParams "/subagents list" in
  let w := Demo.world [Demo.stale] in
  commandParses params "/subagents" "list" false [] "agent:main:main"
  /\ Demo.oracle _ (ListSubagentRunsForRequester "agent:main:main") w
       = ([Demo.stale], w)
  /\ Demo.oracle Z DateNow w = (Demo.t0, Demo.tick w)
  /\ numericOrder Demo.t0 [Demo.stale] = []
  /\ run Demo.oracle (handleSubagentsCommand params true) w =
       ([Called (ListSubagentRunsForRequester "agent:main:main") [Demo.stale];
         Called DateNow Demo.t0],
        Returned
          (replyWith
             (Js.join newline
                ["active subagents:"; "(none)"; "recent (last 30m):"; "(none)"])),
        Demo.tick w).
Proof.
  intros params w.
  assert (commandParses params "/subagents" "list" false [] "agent:main:main")
    as Hparse by (repeat split; try reflexivity; discriminate).
  split; [exact Hparse|]. split; [reflexivity|]. split; [reflexivity|].
  split; [reflexivity|].
  apply (list_nothing_to_show Demo.oracle params "/subagents" false []
           "agent:main:main" [Demo.stale] Demo.t0 w w (Demo.tick w));
    [exact Hparse|reflexivity..].
Defined.

Lemma log_outcome_witness :
  let params := Demo.mkParams "/subagents log scout TOOLS" in
  let w := Demo.world Demo.roster in
  let messages :=
    [ {| Demo.role := "user"; Demo.text := "ping" |};
      {| Demo.role := "assistant"; Demo.text := "pong" |} ] in
  commandParses params "/subagents" "log" false ["scout"; "TOOLS"]
    "agent:main:main"
  /\ Demo.oracle _ (ListSubagentRunsForRequester "agent:main:main") w
       = (Demo.roster, w)
  /\ clockRead Demo.oracle "scout" w Demo.t0 (Demo.tick w)
  /\ entry (resolveSubagentTarget Demo.t0 Demo.roster (Some "scout"))
       = Some Demo.scout
  /\ Demo.oracle _ (GatewayChatHistory "agent:main:subagent:scout" 20) (Demo.tick w)
       = (inr messages, Demo.tick w)
  /\ outcomeOf Demo.oracle (handleSubagentsCommand params true) w =
       Returned
         (replyWith
            (Js.join newline
               ["📜 Subagent log: Scout"; "User: ping"; "Assistant: pong"])).
Proof.
  intros params w messages.
  assert (commandParses params "/subagents" "log" false ["scout"; "TOOLS"]
            "agent:main:main")
    as Hparse by (repeat split; try reflexivity; discriminate).
  split; [exact Hparse|]. do 4 (split; [reflexivity|]).
  apply (log_outcome Demo.oracle params "/subagents" false "scout" ["TOOLS"]
           "agent:main:main" Demo.roster Demo.t0 Demo.scout (inr messages)
           w w (Demo.tick w) (Demo.tick w));
    [exact Hparse|reflexivity..].
Defined.

Lemma session_key_resolution_witness :
  let token := " agent:main:subagent:scout " in
  let t := Js.trim token in
  let r := resolveSubagentTarget Demo.t0 Demo.roster (Some token) in
  Js.includesColon (Js.trim token) = true
  /\ ((exists e, In e Demo.roster /\ childSessionKey e = t) ->
      exists m, r = resolvedEntry (Some m) /\ In m Demo.roster
                /\ childSessionKey m = t)
  /\ ((forall e, In e Demo.roster -> childSessionKey e <> t) ->
      r = resolvedError ("Unknown subagent session: " ++ t)).
Proof.
  intros token t r. split; [reflexivity|].
  apply (session_key_resolution Demo.t0 Demo.roster token). reflexivity.
Defined.

Lemma index_resolves_to_listed_run_witness :
  Js.allDigits (Js.trim "4") = true
  /\ entry (resolveSubagentTarget Demo.t0 Demo.roster (Some "4"))
       = Some Demo.finished
  /\ In Demo.finished (sortSubagentRuns Demo.roster)
  /\ (endedAt Demo.finished = None \/ endedAt Demo.finished = Some 0
      \/ exists ended,
           endedAt Demo.finished = Some ended /\ Demo.t0 - 1800000 <= ended).
Proof.
  split; [reflexivity|]. split; [reflexivity|].
  apply (index_resolves_to_listed_run Demo.t0 Demo.roster "4" Demo.finished);
    reflexivity.
Defined.

Lemma name_resolution_sound_complete_witness :
  let token := "run-cccc" in
  let t := Js.trim token in
  let lowered := Js.toLowerCase t in
  let r := resolveSubagentTarget Demo.t0 Demo.roster (Some token) in
  Js.trim token <> ""
  /\ Js.trim token <> "last"
  /\ Js.allDigits (Js.trim token) = false
  /\ Js.includesColon (Js.trim token) = false
  /\ r = resolvedEntry (Some Demo.scouting)
  /\ (forall e,
        entry r = Some e ->
        In e Demo.roster
        /\ (Js.startsWith (Js.toLowerCase (formatRunLabel e None)) lowered = true
            \/ Js.startsWith (runId e) t = true))
  /\ (r = resolvedError ("Unknown subagent id: " ++ t) <->
      forall e,
        In e Demo.roster ->
        Js.startsWith (Js.toLowerCase (formatRunLabel e None)) lowered = false
        /\ Js.startsWith (runId e) t = false).
Proof.
  intros token t lowered r.
  split; [discriminate|]. split; [discriminate|].
  split; [reflexivity|]. split; [reflexivity|]. split; [reflexivity|].
  apply (name_resolution_sound_complete Demo.t0 Demo.roster token);
    [discriminate|discriminate|reflexivity|reflexivity].
Defined.


Lemma send_message_text_witness :
  let body :=
    "/tell scout  go" ++ String (ascii_of_nat 10) (String (ascii_of_nat 9) "north ")
  in
  let params := Demo.mkParams body in
  commandParses params "/tell" "send" true ["scout"; "go"; "north"]
    "agent:main:main"
  /\ Js.join " " ["go"; "north"] = "go north"
  /\ Js.trim (Js.join " " ["go"; "north"]) = Js.join " " ["go"; "north"]
  /\ Forall (fun word => word <> "" /\ noWhitespace word = true) ["go"; "north"]
  /\ (Js.trim (Js.join " " ["go"; "north"]) = "" <-> ["go"; "north"] = []).
Proof.
  intros body params.
  assert (commandParses params "/tell" "send" true ["scout"; "go"; "north"]
            "agent:main:main")
    as Hparse by (repeat split; try reflexivity; discriminate).
  split; [exact Hparse|]. split; [reflexivity|].
  apply (send_message_text params "/tell" true "scout" ["go"; "north"]
           "agent:main:main"). exact Hparse.
Defined.

Lemma model_display_shape_witness :
  let entry :=
    Some {| Display.model := Some " gpt-5 ";
            Display.modelProvider := Some "openai";
            Display.modelOverride := Some "anthropic/claude";
            Display.providerOverride := None |} in
  Display.resolveModelDisplay entry None = "gpt-5"
  /\ Display.resolveModelDisplay None (Some "models/openai/gpt-4o") = "gpt-4o"
  /\ Display.resolveModelDisplay None (Some "  ") = "model n/a".
Proof.
  intros entry. split; [|split].
  - apply (proj1 (proj2 (proj2 (model_display_shape entry None))));
      [discriminate|reflexivity].
  - apply (proj1 (proj2 (proj2 (proj2
             (model_display_shape None (Some "models/openai/gpt-4o")))))
             "models/openai" "gpt-4o"); reflexivity.
  - apply (proj1 (proj2 (model_display_shape None (Some "  ")))). reflexivity.
Defined.

Lemma log_lines_shape_witness :
  let spoken :=
    {| Display.role := Some "assistant";
       Display.content :=
         Display.ContentBlocks
           [ Display.TextBlock (Some "  hello");
             Display.OtherBlock;
             Display.TextBlock (Some "  ");
             Display.TextBlock None;
             Display.TextBlock (Some ("there" ++ newline ++ " friend ")) ] |} in
  let blank :=
    {| Display.role := None; Display.content := Display.ContentString "   " |} in
  let asked :=
    {| Display.role := Some "user";
       Display.content := Display.ContentString " how  far? " |} in
  Display.formatLogLines (fun text => text) [spoken]
    = ["Assistant: hello there friend"]
  /\ Display.formatLogLines (fun text => text) [blank] = []
  /\ Display.formatLogLines (fun text => text) [asked] = ["User: how far?"]
  /\ Display.formatLogLines (fun text => text) ([spoken; blank] ++ [asked])
       = (Display.formatLogLines (fun text => text) [spoken; blank]
            ++ Display.formatLogLines (fun text => text) [asked])%list.
Proof.
  intros spoken blank asked.
  pose proof (log_lines_shape (fun text => text)) as (Hsplit & _ & Hline).
  split; [exact (proj1 (Hline spoken))|].
  split; [exact (proj1 (Hline blank))|].
  split; [exact (proj1 (Hline asked))|].
  exact (Hsplit [spoken; blank] [asked]).
Defined.
